(** * ConfigKit: the configuration-derivation engine

    A shallow embedding of the decision-tree core of ConfigKit
    (guardrailEngine.js, roleBuilder.js, skillSelector.js,
    configAssembler.js, decisionTree.js), of the file tree and size
    estimate of outputPackager.js, and of the questionnaire that feeds
    the core (questions.js, the event handlers of QuestionCard.jsx, the
    answers state of App.jsx, the gates of Questionnaire.jsx and
    ConfigPreview.jsx), with the properties its specification states
    about it and further properties of the code.

    Conventions of the embedding.
    - An answer is a JavaScript value: [undefined], [null], a boolean, a
      number, a string or an array of such; the answers object is a finite
      map from question ids to values, an absent key reading as [undefined].
    - Text is a sequence of bytes, the UTF-8 encoding of the JavaScript
      string. [trim] strips the white space and line terminators of
      JavaScript, those beyond ASCII included. [toLowerCase] is the one of
      ASCII text, which is where every keyword of the tables lives: it
      leaves every other character as it is, where JavaScript lower-cases
      it too (and maps U+212A to k and U+0130 to i with U+0307); a property
      that depends on it is stated of ASCII text.
    - Numbers are the integers of magnitude up to 2^53, which a double
      holds exactly and JavaScript prints in plain decimal.
    - A call of a missing method is a [TypeError]; functions that can raise
      one return an [outcome].
    - The rule tables are object literals, so reading a key also finds the
      properties every object inherits from [Object.prototype]. *)

From Stdlib Require Import ZArith String Ascii List Bool Arith Lia DecimalString.
From stdpp Require Import gmap strings list.

#[local] Set Warnings "-register-all".

(** ** JavaScript values *)

Inductive value : Type :=
| VUndefined
| VNull
| VBool (b : bool)
| VNum (n : Z)
| VStr (s : string)
| VArr (items : list value).

(** [v === s] for a string literal [s]. *)
Definition isStr (v : value) (s : string) : bool :=
  match v with
  | VStr t => String.eqb t s
  | _ => false
  end.

(** Truthiness, as [if (v)] and [!v] see it. *)
Definition truthy (v : value) : bool :=
  match v with
  | VUndefined | VNull => false
  | VBool b => b
  | VNum n => negb (Z.eqb n 0)
  | VStr s => negb (String.eqb s "")
  | VArr _ => true
  end.

(** [String(v)]: what a template literal or a property key makes of [v].
    Inside an array, [null] and [undefined] print as nothing. A number is
    printed as JavaScript prints an integer of magnitude up to 2^53. *)
Fixpoint toStr (v : value) : string :=
  match v with
  | VUndefined => "undefined"
  | VNull => "null"
  | VBool true => "true"
  | VBool false => "false"
  | VNum n => NilZero.string_of_int (Z.to_int n)
  | VStr s => s
  | VArr items =>
      String.concat ","
        (List.map (fun x => match x with
                            | VUndefined | VNull => ""
                            | _ => toStr x
                            end) items)
  end.

(** ** The answers object *)

Abbreviation answers := (gmap string value).

(** [answers.key] *)
Definition get (a : answers) (key : string) : value :=
  default VUndefined (a !! key).

(** ** Exceptions *)

Inductive outcome (A : Type) : Type :=
| Ok (a : A)
| Throw (error : string).
Arguments Ok {A} a.
Arguments Throw {A} error.

Definition bind {A B : Type} (m : outcome A) (k : A -> outcome B) : outcome B :=
  match m with
  | Ok a => k a
  | Throw e => Throw e
  end.

Notation "'let*' x ':=' m 'in' k" := (bind m (fun x => k))
  (at level 10, x name, m at level 100, k at level 200).

Definition returns {A : Type} (m : outcome A) : bool :=
  match m with
  | Ok _ => true
  | Throw _ => false
  end.

(** ** Property reads on the rule tables

    A table is an object literal: its own keys in source order. A key that is
    not its own is looked up in [Object.prototype]. *)

Definition OBJECT_PROTOTYPE_KEYS : list string :=
  [ "constructor"; "toString"; "toLocaleString"; "valueOf"; "hasOwnProperty";
    "isPrototypeOf"; "propertyIsEnumerable"; "__proto__";
    "__defineGetter__"; "__defineSetter__"; "__lookupGetter__"; "__lookupSetter__" ].

Inductive property (A : Type) : Type :=
| Own (a : A)
| Inherited (key : string)
| Missing.
Arguments Own {A} a.
Arguments Inherited {A} key.
Arguments Missing {A}.

Definition inList (s : string) (l : list string) : bool :=
  existsb (String.eqb s) l.

Fixpoint ownProperty {A : Type} (table : list (string * A)) (key : string) : option A :=
  match table with
  | [] => None
  | (k, x) :: rest => if String.eqb k key then Some x else ownProperty rest key
  end.

(** [table[key]] *)
Definition readProperty {A : Type} (table : list (string * A)) (key : value) : property A :=
  let name := toStr key in
  match ownProperty table name with
  | Some x => Own x
  | None => if inList name OBJECT_PROTOTYPE_KEYS then Inherited name else Missing
  end.

(** The text of an inherited property (the built-in functions print as V8
    prints them; [__proto__] is [Object.prototype] itself). *)
Definition builtinText (key : string) : string :=
  if String.eqb key "__proto__" then "[object Object]"
  else "function " +:+ (if String.eqb key "constructor" then "Object" else key)
       +:+ "() { [native code] }".

(** [x ?? fallback] *)
Definition orElse {A : Type} (p : property A) (fallback : A) : property A :=
  match p with
  | Missing => Own fallback
  | _ => p
  end.

(** A method call [x.method(...)] on something that is an array when it is
    the table's own (or the fallback), and has no such method when it was
    inherited. *)
Definition method {A : Type} (p : property A) (call : string) : outcome A :=
  match p with
  | Own x => Ok x
  | Inherited _ => Throw ("TypeError: " +:+ call +:+ " is not a function")
  | Missing => Throw ("TypeError: Cannot read properties of undefined")
  end.

(** [`${x}`] for a string that may have been inherited instead. *)
Definition text (p : property string) : string :=
  match p with
  | Own s => s
  | Inherited key => builtinText key
  | Missing => "undefined"
  end.

(** Truthiness of a looked-up string: [.filter(Boolean)], [if (x)]. *)
Definition isSet (p : property string) : bool :=
  match p with
  | Own s => negb (String.eqb s "")
  | Inherited _ => true
  | Missing => false
  end.

(** ** Strings *)

Definition nl : string := String "010"%char EmptyString.
Definition dquote : string := String "034"%char EmptyString.

(** [s.toLowerCase()] of ASCII text: the letters A to Z are lowered and
    every other byte is left as it is. *)
Definition lowerAscii (c : ascii) : ascii :=
  let n := nat_of_ascii c in
  if (65 <=? n) && (n <=? 90) then ascii_of_nat (n + 32) else c.

Fixpoint toLowerCase (s : string) : string :=
  match s with
  | EmptyString => EmptyString
  | String c rest => String (lowerAscii c) (toLowerCase rest)
  end.

(** [s.includes(kw)] *)
Fixpoint includes (s kw : string) : bool :=
  String.prefix kw s ||
  match s with
  | EmptyString => false
  | String _ rest => includes rest kw
  end.

(** The white space and line terminators of one byte: U+0009 to U+000D and
    U+0020 *)
Definition isSpace (c : ascii) : bool :=
  let n := nat_of_ascii c in
  (n =? 32) || ((9 <=? n) && (n <=? 13)).

(** Of two bytes: U+00A0 *)
Definition isSpace2 (c1 c2 : ascii) : bool :=
  (nat_of_ascii c1 =? 194) && (nat_of_ascii c2 =? 160).

(** Of three bytes: U+1680; U+2000 to U+200A, U+2028, U+2029 and U+202F;
    U+205F; U+3000; U+FEFF *)
Definition isSpace3 (c1 c2 c3 : ascii) : bool :=
  let n1 := nat_of_ascii c1 in
  let n2 := nat_of_ascii c2 in
  let n3 := nat_of_ascii c3 in
  ((n1 =? 225) && (n2 =? 154) && (n3 =? 128)) ||
  ((n1 =? 226) && (n2 =? 128) &&
   (((128 <=? n3) && (n3 <=? 138)) || (n3 =? 168) || (n3 =? 169) || (n3 =? 175))) ||
  ((n1 =? 226) && (n2 =? 129) && (n3 =? 159)) ||
  ((n1 =? 227) && (n2 =? 128) && (n3 =? 128)) ||
  ((n1 =? 239) && (n2 =? 187) && (n3 =? 191)).

Fixpoint trimStart (s : string) : string :=
  match s with
  | EmptyString => EmptyString
  | String c1 rest1 =>
      if isSpace c1 then trimStart rest1
      else
        match rest1 with
        | EmptyString => s
        | String c2 rest2 =>
            if isSpace2 c1 c2 then trimStart rest2
            else
              match rest2 with
              | EmptyString => s
              | String c3 rest3 => if isSpace3 c1 c2 c3 then trimStart rest3 else s
              end
        end
  end.

(** [trimStart] on the reversed text, where the bytes of a character come
    last byte first *)
Fixpoint trimStartReversed (s : string) : string :=
  match s with
  | EmptyString => EmptyString
  | String c1 rest1 =>
      if isSpace c1 then trimStartReversed rest1
      else
        match rest1 with
        | EmptyString => s
        | String c2 rest2 =>
            if isSpace2 c2 c1 then trimStartReversed rest2
            else
              match rest2 with
              | EmptyString => s
              | String c3 rest3 => if isSpace3 c3 c2 c1 then trimStartReversed rest3 else s
              end
        end
  end.

Definition trimEnd (s : string) : string :=
  String.rev (trimStartReversed (String.rev s)).

(** [s.trim()] *)
Definition trim (s : string) : string := trimEnd (trimStart s).

(** [arr.includes('name')] *)
Definition hasItem (arr : list value) (name : string) : bool :=
  existsb (fun v => isStr v name) arr.

(** * guardrailEngine.js *)

Module GuardrailEngine.

Definition TIER_INSTRUCTIONS : list (list string) :=
  [ (* Tier 0 *)
    [ "Never hardcode credentials, API keys, tokens, or secrets anywhere in source code";
      "Store all configuration and secrets in environment variables; document required vars in .env.example";
      "Implement proper error handling on every async operation — no silent failures or swallowed exceptions";
      "Never log sensitive data (tokens, passwords, personal info) to the console or log files" ];
    (* Tier 1 *)
    [ "Validate and sanitise all user-supplied input before processing or persisting it";
      "Never store sensitive data in localStorage, sessionStorage, or client-side cookies without encryption";
      "Enforce HTTPS for all network communication; reject plain HTTP in production";
      "Apply basic rate limiting to all public-facing API endpoints" ];
    (* Tier 2 *)
    [ "Use httpOnly, Secure, SameSite cookies for session tokens — never expose tokens to JavaScript";
      "Implement token rotation and short expiry windows; handle refresh token revocation";
      "Define an explicit CORS policy; never use wildcard (*) origins in production";
      "Apply parameterised queries or an ORM throughout — never concatenate user input into SQL";
      "Escape all output rendered to HTML to prevent XSS; use a Content Security Policy header" ];
    (* Tier 3 *)
    [ "Encrypt sensitive fields at rest (use AES-256 or equivalent); never store plaintext PII or payment data";
      "Implement audit logging for all data access and mutations to sensitive records";
      "Apply principle of least privilege to all database roles and service accounts";
      "Never log, cache, or transmit raw PII, payment card data, or health records";
      "Enforce strict secret rotation practices with documented rotation schedules" ] ].

Definition TIER_LABELS : list string := ["BASELINE"; "ELEVATED"; "HARDENED"; "MAXIMUM"].

Definition TIER_COLORS : list string := ["comment"; "yellow"; "orange"; "red"].

Definition SECURITY_FLAGS : list string :=
  ["hasAuth"; "storesData"; "hasPayments"; "hasSensitiveData"].

Definition countSecurityYes (a : answers) : nat :=
  length (List.filter (fun key => isStr (get a key) "yes") SECURITY_FLAGS).

Definition determineTier (a : answers) : nat :=
  let yesCount := countSecurityYes a in
  if isStr (get a "hasPayments") "yes" || isStr (get a "hasSensitiveData") "yes" then 3
  else if 2 <=? yesCount then 2
  else if 1 <=? yesCount then 1
  else 0.

Record GuardrailResult : Type := {
  tier : nat;
  label : option string;
  color : option string;
  instructions : list string;
  byTier : list (list string);
  yesCount : nat
}.

Definition determineGuardrails (a : answers) : GuardrailResult :=
  let tier := determineTier a in
  let yesCount := countSecurityYes a in
  let instructions := concat (take (tier + 1) TIER_INSTRUCTIONS) in
  {| tier := tier;
     label := TIER_LABELS !! tier;
     color := TIER_COLORS !! tier;
     instructions := instructions;
     byTier := take (tier + 1) TIER_INSTRUCTIONS;
     yesCount := yesCount |}.

End GuardrailEngine.

(** * roleBuilder.js *)

Module RoleBuilder.

Definition BASE_ROLES : list (string * string) :=
  [ ("web-app", "Senior Full-Stack Engineer");
    ("cli-tool", "Senior Backend Engineer and Systems Developer");
    ("api-backend", "Senior Backend Engineer and API Architect");
    ("data-pipeline", "Senior Data Engineer and Pipeline Architect");
    ("discord-slack-bot", "Senior Backend Engineer and Bot Developer");
    ("mobile-app", "Senior Mobile Engineer");
    ("other", "Senior Software Engineer") ].

Definition STACK_LABELS : list (string * string) :=
  [ ("react", "React"); ("nextjs", "Next.js"); ("vue", "Vue"); ("svelte", "Svelte");
    ("nodejs", "Node.js"); ("python", "Python"); ("go", "Go"); ("java", "Java");
    ("postgres", "PostgreSQL"); ("mysql", "MySQL"); ("mongodb", "MongoDB");
    ("redis", "Redis"); ("docker", "Docker"); ("stripe", "Stripe");
    ("supabase", "Supabase"); ("prisma", "Prisma ORM") ].

Definition RECOMMENDED_STACKS : list (string * list value) :=
  [ ("web-app", [VStr "react"; VStr "nextjs"; VStr "postgres"; VStr "prisma"]);
    ("cli-tool", [VStr "nodejs"; VStr "python"]);
    ("api-backend", [VStr "nodejs"; VStr "postgres"]);
    ("data-pipeline", [VStr "python"; VStr "postgres"]);
    ("discord-slack-bot", [VStr "nodejs"]);
    ("mobile-app", [VStr "react"]);
    ("other", [VStr "nodejs"]) ].

Definition buildSecuritySpecs (a : answers) : list string :=
  (if isStr (get a "hasAuth") "yes"
   then ["secure authentication and session management"] else []) ++
  (if isStr (get a "hasPayments") "yes"
   then ["PCI-DSS-aware payment integration patterns"] else []) ++
  (if isStr (get a "hasSensitiveData") "yes"
   then ["sensitive data handling and privacy-first architecture"] else []).

(** The result is an array, or, for an inherited key, whatever
    [Object.prototype] holds under it. *)
Definition resolveStack (a : answers) : property (list value) :=
  if isStr (get a "stackApproach") "recommend" then
    orElse (readProperty RECOMMENDED_STACKS (get a "projectType")) [VStr "nodejs"]
  else
    match get a "stackTech" with
    | VArr items => Own items
    | _ => Own []
    end.

Definition joinNatural (arr : list string) : string :=
  match arr with
  | [] => ""
  | [x] => x
  | [x; y] => x +:+ " and " +:+ y
  | _ => String.concat ", " (removelast arr) +:+ ", and " +:+ List.last arr ""
  end.

Definition stackSpecsOf (stack : list value) : list (property string) :=
  List.filter isSet (List.map (readProperty STACK_LABELS) stack).

Definition buildRole (a : answers) : outcome string :=
  let baseRole := orElse (readProperty BASE_ROLES (get a "projectType")) "Senior Software Engineer" in
  let* stack := method (resolveStack a) "stack.map" in
  let stackSpecs := stackSpecsOf stack in
  let secSpecs := buildSecuritySpecs a in
  let parts :=
    ["You are a " +:+ text baseRole] ++
    (if 0 <? length stackSpecs
     then ["specializing in " +:+ joinNatural (List.map text stackSpecs)] else []) ++
    (if 0 <? length secSpecs
     then ["with deep expertise in " +:+ joinNatural secSpecs] else []) in
  let role := String.concat ", " parts +:+ "." in
  match get a "projectDescription" with
  | VUndefined | VNull => Ok role
  | VStr d =>
      if negb (String.eqb (trim d) "")
      then Ok (role +:+ nl +:+ nl +:+ "**Project:** " +:+ trim d)
      else Ok role
  | _ => Throw "TypeError: answers.projectDescription?.trim is not a function"
  end.

Record RoleComponents : Type := {
  baseRole : property string;
  stackSpecs : list (property string);
  secSpecs : list string;
  full : string
}.

Definition buildRoleComponents (a : answers) : outcome RoleComponents :=
  let baseRole := orElse (readProperty BASE_ROLES (get a "projectType")) "Senior Software Engineer" in
  let* stack := method (resolveStack a) "stack.map" in
  let stackSpecs := stackSpecsOf stack in
  let secSpecs := buildSecuritySpecs a in
  let* full := buildRole a in
  Ok {| baseRole := baseRole; stackSpecs := stackSpecs; secSpecs := secSpecs; full := full |}.

End RoleBuilder.

(** * skillSelector.js *)

Module SkillSelector.

(** Track 1: deterministic skills by project type *)
Definition PROJECT_TYPE_SKILLS : list (string * list string) :=
  [ ("web-app", ["building-web-apps"; "structuring-components"; "integrating-apis"]);
    ("cli-tool", ["building-cli-tools"; "handling-io-streams"; "error-handling-patterns"]);
    ("api-backend", ["designing-rest-apis"; "request-validation"; "api-error-handling"]);
    ("data-pipeline", ["building-data-pipelines"; "transformation-logic"; "idempotency-patterns"]);
    ("discord-slack-bot", ["building-cli-tools"; "handling-io-streams"; "error-handling-patterns"]);
    ("mobile-app", ["building-web-apps"; "structuring-components"; "integrating-apis"]);
    ("other", ["error-handling-patterns"; "integrating-apis"]) ].

(** Track 2: conditional skills by stack technology *)
Definition STACK_SKILLS : list (string * list string) :=
  [ ("react", ["managing-react-state"; "structuring-react-components"]);
    ("nextjs", ["nextjs-routing-patterns"; "ssr-and-data-fetching"]);
    ("vue", ["managing-vue-state"; "structuring-vue-components"]);
    ("svelte", ["svelte-component-patterns"]);
    ("nodejs", ["nodejs-async-patterns"; "express-middleware"]);
    ("python", ["python-project-structure"; "dependency-management"]);
    ("go", ["go-project-structure"; "go-concurrency-patterns"]);
    ("java", ["java-project-structure"; "spring-patterns"]);
    ("postgres", ["database-query-patterns"; "migration-management"]);
    ("mysql", ["database-query-patterns"; "migration-management"]);
    ("mongodb", ["mongodb-schema-patterns"; "aggregation-pipeline"]);
    ("redis", ["redis-caching-patterns"]);
    ("docker", ["containerisation-patterns"]);
    ("stripe", ["stripe-integration-patterns"]);
    ("supabase", ["supabase-patterns"]);
    ("prisma", ["prisma-schema-patterns"]) ].

(** Track 4 of the header comment: deployment skills *)
Definition DEPLOYMENT_SKILLS : list (string * list string) :=
  [ ("vercel", ["deploying-to-vercel"]);
    ("aws", ["deploying-to-aws"]);
    ("gcp", ["deploying-to-gcp"]);
    ("local-only", []);
    ("not-sure", []) ].

Inductive Track : Type := core | stack | guardrail | deployment.

Record SkillMeta : Type := { label : string; track : Track; accent : string }.

Definition SKILL_METADATA : list (string * SkillMeta) :=
  [ ("building-web-apps", {| label := "Building Web Apps"; track := core; accent := "cyan" |});
    ("structuring-components", {| label := "Structuring Components"; track := core; accent := "cyan" |});
    ("integrating-apis", {| label := "Integrating APIs"; track := core; accent := "cyan" |});
    ("building-cli-tools", {| label := "Building CLI Tools"; track := core; accent := "green" |});
    ("handling-io-streams", {| label := "Handling IO Streams"; track := core; accent := "green" |});
    ("error-handling-patterns", {| label := "Error Handling"; track := core; accent := "green" |});
    ("designing-rest-apis", {| label := "Designing REST APIs"; track := core; accent := "purple" |});
    ("request-validation", {| label := "Request Validation"; track := core; accent := "purple" |});
    ("api-error-handling", {| label := "API Error Handling"; track := core; accent := "purple" |});
    ("building-data-pipelines", {| label := "Building Data Pipelines"; track := core; accent := "yellow" |});
    ("transformation-logic", {| label := "Transformation Logic"; track := core; accent := "yellow" |});
    ("idempotency-patterns", {| label := "Idempotency Patterns"; track := core; accent := "yellow" |});
    ("managing-react-state", {| label := "React State"; track := stack; accent := "cyan" |});
    ("structuring-react-components", {| label := "React Components"; track := stack; accent := "cyan" |});
    ("nextjs-routing-patterns", {| label := "Next.js Routing"; track := stack; accent := "fg" |});
    ("ssr-and-data-fetching", {| label := "SSR & Data Fetching"; track := stack; accent := "fg" |});
    ("managing-vue-state", {| label := "Vue State"; track := stack; accent := "green" |});
    ("structuring-vue-components", {| label := "Vue Components"; track := stack; accent := "green" |});
    ("svelte-component-patterns", {| label := "Svelte Patterns"; track := stack; accent := "orange" |});
    ("nodejs-async-patterns", {| label := "Node.js Async"; track := stack; accent := "green" |});
    ("express-middleware", {| label := "Express Middleware"; track := stack; accent := "green" |});
    ("python-project-structure", {| label := "Python Structure"; track := stack; accent := "yellow" |});
    ("dependency-management", {| label := "Dependency Management"; track := stack; accent := "yellow" |});
    ("go-project-structure", {| label := "Go Structure"; track := stack; accent := "cyan" |});
    ("go-concurrency-patterns", {| label := "Go Concurrency"; track := stack; accent := "cyan" |});
    ("java-project-structure", {| label := "Java Structure"; track := stack; accent := "orange" |});
    ("spring-patterns", {| label := "Spring Patterns"; track := stack; accent := "orange" |});
    ("database-query-patterns", {| label := "Query Patterns"; track := stack; accent := "purple" |});
    ("migration-management", {| label := "DB Migrations"; track := stack; accent := "purple" |});
    ("mongodb-schema-patterns", {| label := "MongoDB Schemas"; track := stack; accent := "green" |});
    ("aggregation-pipeline", {| label := "Aggregation Pipeline"; track := stack; accent := "green" |});
    ("redis-caching-patterns", {| label := "Redis Caching"; track := stack; accent := "red" |});
    ("prisma-schema-patterns", {| label := "Prisma Schema"; track := stack; accent := "pink" |});
    ("supabase-patterns", {| label := "Supabase"; track := stack; accent := "green" |});
    ("containerisation-patterns", {| label := "Containerisation"; track := stack; accent := "cyan" |});
    ("stripe-integration-patterns", {| label := "Stripe Integration"; track := stack; accent := "purple" |});
    ("validating-user-input", {| label := "Input Validation"; track := guardrail; accent := "yellow" |});
    ("implementing-auth-patterns", {| label := "Auth Patterns"; track := guardrail; accent := "orange" |});
    ("managing-cors-policy", {| label := "CORS Policy"; track := guardrail; accent := "orange" |});
    ("managing-secrets-and-env", {| label := "Secrets & Env"; track := guardrail; accent := "red" |});
    ("handling-payment-security", {| label := "Payment Security"; track := guardrail; accent := "red" |});
    ("data-encryption-patterns", {| label := "Data Encryption"; track := guardrail; accent := "red" |});
    ("deploying-to-vercel", {| label := "Deploy → Vercel"; track := deployment; accent := "fg" |});
    ("deploying-to-aws", {| label := "Deploy → AWS"; track := deployment; accent := "orange" |});
    ("deploying-to-gcp", {| label := "Deploy → GCP"; track := deployment; accent := "cyan" |}) ].

Record KeywordRule : Type := { keywords : list string; skill : string }.

Definition DESCRIPTION_KEYWORDS : list KeywordRule :=
  [ {| keywords := ["payment"; "stripe"; "checkout"; "billing"; "subscription"; "purchase"];
       skill := "stripe-integration-patterns" |};
    {| keywords := ["cache"; "caching"; "redis"]; skill := "redis-caching-patterns" |};
    {| keywords := ["supabase"]; skill := "supabase-patterns" |};
    {| keywords := ["prisma"; " orm"]; skill := "prisma-schema-patterns" |};
    {| keywords := ["docker"; "container"; "kubernetes"; "k8s"]; skill := "containerisation-patterns" |};
    {| keywords := ["auth"; "login"; "jwt"; "oauth"; "sso"; "sign in"; "sign up"];
       skill := "implementing-auth-patterns" |};
    {| keywords := ["real-time"; "realtime"; "live update"; "websocket"];
       skill := "redis-caching-patterns" |};
    {| keywords := ["secret"; "api key"; "credential"; ".env"]; skill := "managing-secrets-and-env" |};
    {| keywords := ["encrypt"; "encryption"; "at rest"]; skill := "data-encryption-patterns" |};
    {| keywords := ["mongodb"; "mongo"]; skill := "mongodb-schema-patterns" |} ].

Definition selectFromDescription (description : value) : outcome (list string) :=
  if negb (truthy description) then Ok []
  else
    match description with
    | VStr d =>
        let lower := toLowerCase d in
        Ok (List.map skill
              (List.filter (fun rule => existsb (includes lower) (keywords rule))
                           DESCRIPTION_KEYWORDS))
    | _ => Throw "TypeError: description.toLowerCase is not a function"
    end.

(** The two locals of [selectSkills]: the [seen] set and the [skills] array. *)
Record selection : Type := { seen : gset string; skills : list string }.

Definition start : selection := {| seen := ∅; skills := [] |}.

Definition add (st : selection) (name : string) : selection :=
  if bool_decide (name ∈ seen st) then st
  else {| seen := {[ name ]} ∪ seen st; skills := skills st ++ [name] |}.

(** [xs.forEach(add)] *)
Definition addAll (st : selection) (names : list string) : selection :=
  foldl add st names.

(** Track 2: [stack.forEach(tech => (STACK_SKILLS[tech] ?? []).forEach(add))] *)
Fixpoint addStackSkills (st : selection) (stack : list value) : outcome selection :=
  match stack with
  | [] => Ok st
  | tech :: rest =>
      let* techSkills := method (orElse (readProperty STACK_SKILLS tech) []) "techSkills.forEach" in
      addStackSkills (addAll st techSkills) rest
  end.

(** Track 3: guardrail skills, conditional on the tier and on the answers *)
Definition addGuardrailSkills (a : answers) (tier : nat) (st : selection) : selection :=
  let st := if 1 <=? tier then add st "validating-user-input" else st in
  let st :=
    if 2 <=? tier then
      let st := if isStr (get a "hasAuth") "yes" then add st "implementing-auth-patterns" else st in
      if existsb (isStr (get a "projectType")) ["web-app"; "api-backend"; "mobile-app"]
      then add st "managing-cors-policy" else st
    else st in
  if 3 <=? tier then
    let st := add st "managing-secrets-and-env" in
    let st := if isStr (get a "hasPayments") "yes" then add st "handling-payment-security" else st in
    if isStr (get a "hasSensitiveData") "yes" then add st "data-encryption-patterns" else st
  else st.

(** [selectSkills] up to its [return]: the state of its two locals after the
    five tracks *)
Definition selectState (a : answers) (tier : nat) : outcome selection :=
  let st := start in
  (* Track 1 *)
  let* coreSkills :=
    method (orElse (readProperty PROJECT_TYPE_SKILLS (get a "projectType")) []) "coreSkills.forEach" in
  let st := addAll st coreSkills in
  (* Track 2 *)
  let* stack := method (RoleBuilder.resolveStack a) "stack.forEach" in
  let* st := addStackSkills st stack in
  (* Track 3 *)
  let st := addGuardrailSkills a tier st in
  (* Track 4 *)
  let* described := selectFromDescription (get a "projectDescription") in
  let st := addAll st described in
  (* Track 5 *)
  let* deploySkills :=
    method (orElse (readProperty DEPLOYMENT_SKILLS (get a "deployment")) []) "deploySkills.forEach" in
  Ok (addAll st deploySkills).

Definition selectSkills (a : answers) (tier : nat) : outcome (list string) :=
  let* st := selectState a tier in Ok (skills st).

Record Groups : Type := {
  g_core : list string;
  g_stack : list string;
  g_guardrail : list string;
  g_deployment : list string
}.

(** [SKILL_METADATA[name]?.track ?? 'core'] *)
Definition trackOf (name : string) : Track :=
  match readProperty SKILL_METADATA (VStr name) with
  | Own meta => track meta
  | _ => core
  end.

(** [groups[track].push(name)] *)
Definition push (groups : Groups) (name : string) : Groups :=
  match trackOf name with
  | core => {| g_core := g_core groups ++ [name]; g_stack := g_stack groups;
               g_guardrail := g_guardrail groups; g_deployment := g_deployment groups |}
  | stack => {| g_core := g_core groups; g_stack := g_stack groups ++ [name];
                g_guardrail := g_guardrail groups; g_deployment := g_deployment groups |}
  | guardrail => {| g_core := g_core groups; g_stack := g_stack groups;
                    g_guardrail := g_guardrail groups ++ [name];
                    g_deployment := g_deployment groups |}
  | deployment => {| g_core := g_core groups; g_stack := g_stack groups;
                     g_guardrail := g_guardrail groups;
                     g_deployment := g_deployment groups ++ [name] |}
  end.

Definition selectSkillsByTrack (a : answers) (tier : nat) : outcome Groups :=
  let* all := selectSkills a tier in
  Ok (foldl push {| g_core := []; g_stack := []; g_guardrail := []; g_deployment := [] |} all).

End SkillSelector.

(** * decisionTree.js *)

Module DecisionTree.

Definition OUTPUT_FILES : list (string * string) :=
  [ ("claude-code", "CLAUDE.md");
    ("gemini-cli", "GEMINI.txt");
    ("cursor", ".cursorrules");
    ("windsurf", ".windsurfrules");
    ("other", "PROJECT_CONFIG.md") ].

Definition BEHAVIORAL_DIRECTIVES : list string :=
  [ "Write production-ready code by default — no placeholders, no TODO stubs unless explicitly asked";
    "Prefer editing existing files over creating new ones; avoid file bloat";
    "Read files before modifying them; understand existing patterns before suggesting changes";
    "Use the minimum complexity that satisfies the requirement — resist over-engineering";
    "All clickable elements need cursor-pointer and visible hover feedback";
    "Never skip error handling at system boundaries (user input, external APIs, file I/O)";
    "Ask before taking irreversible or high-blast-radius actions (deleting files, force pushing)" ].

Record Meta : Type := {
  skillCount : nat;
  coreSkills : nat;
  stackSkills : nat;
  guardrailSkills : nat;
  deploySkills : nat;
  metaTier : nat
}.

Record DecisionTreeResult : Type := {
  role : string;
  roleComponents : RoleBuilder.RoleComponents;
  skills : list string;
  skillsByTrack : SkillSelector.Groups;
  guardrailTier : nat;
  guardrailLabel : option string;
  guardrailColor : option string;
  guardrailInstructions : list string;
  guardrailByTier : list (list string);
  behavioralDirectives : list string;
  outputFile : property string;
  resolvedStack : list value;
  meta : Meta
}.

Definition runDecisionTree (a : answers) : outcome DecisionTreeResult :=
  (* 1. Guardrails first *)
  let guardrails := GuardrailEngine.determineGuardrails a in
  (* 2. Role *)
  let* role := RoleBuilder.buildRole a in
  let* roleComponents := RoleBuilder.buildRoleComponents a in
  (* 3. Skills *)
  let* skills := SkillSelector.selectSkills a (GuardrailEngine.tier guardrails) in
  let* skillsByTrack := SkillSelector.selectSkillsByTrack a (GuardrailEngine.tier guardrails) in
  (* 4. Output file *)
  let outputFile := orElse (readProperty OUTPUT_FILES (get a "llmTarget")) "PROJECT_CONFIG.md" in
  (* 5. Resolved stack: an array here, since buildRole has mapped over it *)
  let resolvedStack :=
    match RoleBuilder.resolveStack a with
    | Own items => items
    | _ => []
    end in
  Ok {| role := role;
        roleComponents := roleComponents;
        skills := skills;
        skillsByTrack := skillsByTrack;
        guardrailTier := GuardrailEngine.tier guardrails;
        guardrailLabel := GuardrailEngine.label guardrails;
        guardrailColor := GuardrailEngine.color guardrails;
        guardrailInstructions := GuardrailEngine.instructions guardrails;
        guardrailByTier := GuardrailEngine.byTier guardrails;
        behavioralDirectives := BEHAVIORAL_DIRECTIVES;
        outputFile := outputFile;
        resolvedStack := resolvedStack;
        meta := {| skillCount := length skills;
                   coreSkills := length (SkillSelector.g_core skillsByTrack);
                   stackSkills := length (SkillSelector.g_stack skillsByTrack);
                   guardrailSkills := length (SkillSelector.g_guardrail skillsByTrack);
                   deploySkills := length (SkillSelector.g_deployment skillsByTrack);
                   metaTier := GuardrailEngine.tier guardrails |} |}.

(** [null] is [None]. *)
Definition runPartialDecisionTree (a : answers) : outcome (option DecisionTreeResult) :=
  if negb (truthy (get a "projectType")) then Ok None
  else let* result := runDecisionTree a in Ok (Some result).

End DecisionTree.

(** * configAssembler.js *)

Module ConfigAssembler.

Import DecisionTree.

Definition PROJECT_TYPE_LABELS : list (string * string) :=
  [ ("web-app", "Web Application");
    ("cli-tool", "CLI Tool");
    ("api-backend", "API / Backend Service");
    ("data-pipeline", "Data Pipeline");
    ("discord-slack-bot", "Bot (Discord / Slack)");
    ("mobile-app", "Mobile Application");
    ("other", "Software Project") ].

Definition DEPLOYMENT_LABELS : list (string * string) :=
  [ ("vercel", "Vercel");
    ("aws", "AWS");
    ("gcp", "GCP");
    ("local-only", "Local only (not deployed)");
    ("not-sure", "Deployment target TBD") ].

Definition decimal (n : nat) : string := NilEmpty.string_of_uint (Nat.to_uint n).

Definition buildScaffoldStep (type : value) (stack : list value) (deployment : value) : string :=
  let hasReact := hasItem stack "react" in
  let hasNextjs := hasItem stack "nextjs" in
  let hasPython := hasItem stack "python" in
  let hasNode := hasItem stack "nodejs" in
  let hasGo := hasItem stack "go" in
  if isStr type "web-app" then
    if hasNextjs then "Scaffold the project with `npx create-next-app@latest` using the App Router; configure TypeScript, ESLint, and Tailwind at setup"
    else if hasReact then "Scaffold the project with `npm create vite@latest` (React + TypeScript template); set up ESLint, Prettier, and path aliases immediately"
    else "Scaffold the frontend project; configure the build tool, linter, and code formatter before writing any feature code"
  else if isStr type "api-backend" then
    if hasNode then "Initialise the Node.js project (`npm init`); install Express/Fastify, set up TypeScript, and configure the project structure (routes/, controllers/, services/, middleware/)"
    else if hasPython then "Create a Python virtual environment; install FastAPI/Flask with uvicorn; set up pyproject.toml and the package structure (api/, services/, models/)"
    else if hasGo then "Initialise the Go module (`go mod init`); create the cmd/ and internal/ directory structure; set up the main entry point and dependency injection wiring"
    else "Scaffold the API project; establish the directory structure and dependency management before any route implementation"
  else if isStr type "cli-tool" then
    if hasNode then "Initialise the Node.js project; install commander or yargs; set up the bin/ entry point and src/ module structure"
    else if hasPython then "Set up the Python project with pyproject.toml; install Click or Typer; configure the package entry point and src/ layout"
    else "Scaffold the CLI project; set up the build system and entry point configuration"
  else if isStr type "data-pipeline" then
    if hasPython then "Set up the Python project with pyproject.toml; install pipeline dependencies (pandas, SQLAlchemy, etc.); create the pipeline/, transformers/, and connectors/ directory structure"
    else "Scaffold the data pipeline project; set up the runtime, dependency management, and stage directory structure"
  else if isStr type "discord-slack-bot" then
    if hasNode then "Initialise the Node.js project; install the bot SDK (discord.js / @slack/bolt); set up the commands/, events/, and middleware/ directory structure"
    else "Scaffold the bot project; install the platform SDK and set up the event handler structure"
  else if isStr type "mobile-app" then
    "Scaffold the project with the appropriate CLI (Expo, React Native CLI, or Flutter); configure the development environment and emulator targets"
  else "Scaffold the project; configure the build system, linter, and directory structure before writing any feature code".

Definition buildStructureStep (type : value) (stack : list value) : string :=
  let hasReact := hasItem stack "react" || hasItem stack "nextjs" in
  if isStr type "web-app" && hasReact then
    "Build the design system foundation first: global CSS variables/tokens, base layout components (Navbar, Footer, Page), and the reusable UI primitive components (Button, Card, Input) before any feature pages"
  else if isStr type "api-backend" then
    "Define the data models and API contract (OpenAPI spec or TypeScript interfaces) before implementing any routes; this contract is the source of truth for all subsequent work"
  else if isStr type "data-pipeline" then
    "Define the source and target schemas as typed interfaces/dataclasses before implementing any transformation logic; document the expected data shape at each pipeline stage"
  else "Define the core data models and module boundaries before implementing any features; establish naming conventions and file organisation patterns the whole codebase will follow".

Definition buildDataLayerStep (a : answers) (stack : list value) : string :=
  let hasPrisma := hasItem stack "prisma" in
  let hasSupabase := hasItem stack "supabase" in
  let hasMongo := hasItem stack "mongodb" in
  if hasPrisma then "Define the Prisma schema (prisma/schema.prisma) with all models, relations, and indexes; run `prisma migrate dev` to create the initial migration; implement the singleton Prisma client module"
  else if hasSupabase then "Set up the Supabase project; enable Row Level Security on every table immediately; define RLS policies for each operation (SELECT, INSERT, UPDATE, DELETE) before writing any queries"
  else if hasMongo then "Define Mongoose schemas with validation rules and indexes for every collection; create a database connection singleton; add indexes for all query fields before any data operations"
  else "Set up the database connection and ORM; define the initial schema migration; verify the connection and run the first migration before building any data access logic".

Definition buildMiddleSteps (type : value) (a : answers) (stack : list value) : list string :=
  let hasReact := hasItem stack "react" || hasItem stack "nextjs" in
  let hasNextjs := hasItem stack "nextjs" in
  (if isStr type "web-app" then
     (if hasNextjs then
        [ "Build the route structure with App Router layouts; implement loading.jsx and error.jsx for every data-fetching route before adding content";
          "Build each page as a Server Component by default; only add " +:+ dquote +:+ "use client" +:+ dquote +:+ " to components that require interactivity or browser APIs" ]
      else if hasReact then
        [ "Set up the router and implement the page shell components with placeholder content; verify navigation works before building page content";
          "Implement the data fetching layer (service modules or React Query); connect to real data before polishing UI" ]
      else []) ++
     [ "Build all user-facing features; implement loading states, error states, and empty states for every async operation" ]
   else []) ++
  (if isStr type "api-backend" then
     [ "Implement the route structure with placeholder handlers; verify the server starts and all routes respond with 200 before adding logic";
       "Build each feature from the data layer up: repository → service → controller; test each layer independently";
       "Implement request validation middleware (Zod/Joi/Pydantic) before wiring any handler to real business logic" ]
   else []) ++
  (if isStr type "data-pipeline" then
     [ "Build and test each pipeline stage independently with a small sample dataset before chaining them";
       "Implement idempotency checks and checkpointing; running the pipeline twice must produce the same result";
       "Add structured logging and metrics (records processed, failed, duration) to every stage" ]
   else []) ++
  (if isStr type "cli-tool" then
     [ "Implement the command surface (argument parsing, help text, --version) before any business logic";
       "Build the core logic as pure, testable functions; connect them to the CLI layer only after unit tests pass" ]
   else []) ++
  (if isStr type "discord-slack-bot" then
     [ "Register commands and verify the bot connects and responds to a basic ping before implementing any handlers";
       "Implement each command handler in isolation; test with the bot in a private test server channel" ]
   else []) ++
  (if isStr (get a "hasAuth") "yes" then
     [ "Implement the authentication flow (registration, login, session management) and route protection middleware before building any authenticated features" ]
   else []) ++
  (if isStr (get a "hasPayments") "yes" then
     [ "Integrate the payment provider in test mode first; implement and test the complete payment flow (create session → confirm → webhook → fulfil) end-to-end before writing any UI for it" ]
   else []).

(** The [items] array of [buildSecurityStep] *)
Definition securityItems (a : answers) (tier : nat) : list string :=
  (if 1 <=? tier then ["input validation on all user-facing fields"] else []) ++
  (if isStr (get a "hasAuth") "yes" then ["auth middleware protecting all authenticated routes"] else []) ++
  (if 2 <=? tier then ["CORS policy configuration and security headers (Helmet/equivalents)"] else []) ++
  (if 3 <=? tier then ["secrets audit (no hardcoded values), encryption for sensitive fields"] else []).

Definition buildSecurityStep (a : answers) (tier : nat) : string :=
  "Security hardening pass: verify " +:+ String.concat ", " (securityItems a tier)
  +:+ "; run a dependency audit before deploying".

Definition buildDeployStep (deployment : value) (stack : list value) : string :=
  let hasNode := hasItem stack "nodejs" in
  let hasPython := hasItem stack "python" in
  if isStr deployment "vercel" then "Connect the repository to Vercel; configure environment variables in the Vercel dashboard; verify the Preview deployment for the main branch before enabling production"
  else if isStr deployment "aws" then "Define infrastructure as code (CDK or Terraform); deploy to a staging environment first; verify health checks pass before routing production traffic"
  else if isStr deployment "gcp" then "Build and push the container image to Artifact Registry; deploy to Cloud Run with the correct service account and Secret Manager bindings; verify the health endpoint before going live"
  else "Configure the deployment pipeline; deploy to a staging environment first and verify all critical paths before production".

Definition TESTING_STEP : string :=
  "Write unit tests for all business logic and integration tests for external boundaries before marking any feature complete".

(** The [steps] array of [buildSequence], before it is numbered. *)
Definition buildSteps (a : answers) (result : DecisionTreeResult) : outcome (list string) :=
  let* stack := method (RoleBuilder.resolveStack a) "stack.includes" in
  let hasReact := hasItem stack "react" || hasItem stack "nextjs" in
  let hasNode := hasItem stack "nodejs" in
  let hasPython := hasItem stack "python" in
  let hasDB := existsb (fun t => existsb (isStr t) ["postgres"; "mysql"; "mongodb"]) stack in
  let hasPrisma := hasItem stack "prisma" in
  let hasSupabase := hasItem stack "supabase" in
  let type := get a "projectType" in
  Ok ([buildScaffoldStep type stack (get a "deployment")] ++
      [buildStructureStep type stack] ++
      (if hasDB || hasPrisma || hasSupabase then [buildDataLayerStep a stack] else []) ++
      buildMiddleSteps type a stack ++
      (if 1 <=? guardrailTier result then [buildSecurityStep a (guardrailTier result)] else []) ++
      [TESTING_STEP] ++
      (if truthy (get a "deployment") && negb (isStr (get a "deployment") "local-only")
       then [buildDeployStep (get a "deployment") stack] else [])).

(** [steps.map((step, i) => `${i + 1}. ${step}`).join('\n')] *)
Definition numbered (steps : list string) : string :=
  String.concat nl (imap (fun i step => decimal (i + 1) +:+ ". " +:+ step) steps).

Definition buildSequence (a : answers) (result : DecisionTreeResult) : outcome string :=
  let* steps := buildSteps a result in Ok (numbered steps).

(** ** Section builders *)

Definition sectionRole (result : DecisionTreeResult) : string :=
  "## Role" +:+ nl +:+ nl +:+ role result.

Definition sectionProjectContext (a : answers) : outcome string :=
  let typeLabel :=
    orElse (readProperty PROJECT_TYPE_LABELS (get a "projectType")) "Software Project" in
  let deployLabel := orElse (readProperty DEPLOYMENT_LABELS (get a "deployment")) "" in
  let* description :=
    if truthy (get a "projectDescription") then
      match get a "projectDescription" with
      | VStr d => Ok (trim d)
      | _ => Throw "TypeError: answers.projectDescription.trim is not a function"
      end
    else Ok "_No description provided._" in
  let lines :=
    ["## Project Context"; ""; description; ""; "- **Type:** " +:+ text typeLabel] ++
    (if isSet deployLabel then ["- **Deployment:** " +:+ text deployLabel] else []) in
  Ok (String.concat nl lines).

(** [STACK_LABELS[t] ?? t], as a template literal prints it *)
Definition stackLabel (t : value) : string :=
  match readProperty RoleBuilder.STACK_LABELS t with
  | Own s => s
  | Inherited key => builtinText key
  | Missing => toStr t
  end.

Definition sectionTechStack (a : answers) (result : DecisionTreeResult) : string :=
  let stack := resolvedStack result in
  if length stack =? 0 then
    "## Tech Stack" +:+ nl +:+ nl +:+ "_Stack to be determined._"
  else
    let stackLines := List.map (fun t => "- " +:+ stackLabel t) stack in
    let recommended :=
      if isStr (get a "stackApproach") "recommend"
      then nl +:+ nl +:+ "> Stack was auto-selected by ConfigKit based on project type."
      else "" in
    "## Tech Stack" +:+ nl +:+ nl +:+ String.concat nl stackLines +:+ recommended.

Definition sectionBehavioralDirectives (result : DecisionTreeResult) : string :=
  let lines := List.map (fun d => "- " +:+ d) (behavioralDirectives result) in
  "## Behavioral Directives" +:+ nl +:+ nl +:+ String.concat nl lines.

Definition labelText (l : option string) : string := default "undefined" l.

Definition sectionGuardrails (result : DecisionTreeResult) : string :=
  let header :=
    "## Security Guardrails (Tier " +:+ decimal (guardrailTier result) +:+ ": "
    +:+ labelText (guardrailLabel result) +:+ ")" in
  let lines := List.map (fun i => "- " +:+ i) (guardrailInstructions result) in
  header +:+ nl +:+ nl +:+ String.concat nl lines.

Definition sectionSkillPacks (result : DecisionTreeResult) : string :=
  if length (skills result) =? 0 then
    "## Skill Packs Loaded" +:+ nl +:+ nl +:+ "_No skill packs selected._"
  else
    let lines := List.map (fun s => "- skills/" +:+ s +:+ "/SKILL.md") (skills result) in
    "## Skill Packs Loaded" +:+ nl +:+ nl +:+ String.concat nl lines.

Definition sectionBuildSequence (a : answers) (result : DecisionTreeResult) : outcome string :=
  let* sequence := buildSequence a result in
  Ok ("## Build Sequence" +:+ nl +:+ nl +:+ "Approach this project in the following order:"
      +:+ nl +:+ nl +:+ sequence).

(** ** Main assembler *)

(** The override record [{ role, context, directives, buildSeq }]; a key that
    is not set reads as [undefined]. *)
Record AiSections : Type := {
  aiRole : value;
  aiContext : value;
  aiDirectives : value;
  aiBuildSeq : value
}.

(** [aiSections?.key ? `${heading}\n\n${aiSections.key}` : template] *)
Definition overridden (ai : option AiSections) (key : AiSections -> value)
    (heading : string) (template : outcome string) : outcome string :=
  match ai with
  | Some o =>
      if truthy (key o) then Ok (heading +:+ nl +:+ nl +:+ toStr (key o)) else template
  | None => template
  end.

Definition divider : string := nl +:+ nl +:+ "---" +:+ nl +:+ nl.

Definition header (result : DecisionTreeResult) (ai : option AiSections) (today : string) : string :=
  "<!-- Generated by ConfigKit -->" +:+ nl +:+ "<!-- " +:+ today +:+ " | "
  +:+ text (outputFile result) +:+ " | Guardrail Tier " +:+ decimal (guardrailTier result)
  +:+ ": " +:+ labelText (guardrailLabel result)
  +:+ (if ai is Some _ then " | AI-Enhanced" else "") +:+ " -->".

(** The [sections] array of [assembleConfig]; [today] is the date the header
    prints, [new Date().toISOString().split('T')[0]]. *)
Definition assembleSections (a : answers) (result : DecisionTreeResult)
    (ai : option AiSections) (today : string) : outcome (list string) :=
  let* roleSection := overridden ai aiRole "## Role" (Ok (sectionRole result)) in
  let* contextSection := overridden ai aiContext "## Project Context" (sectionProjectContext a) in
  let* directivesSection :=
    overridden ai aiDirectives "## Behavioral Directives" (Ok (sectionBehavioralDirectives result)) in
  let* buildSeqSection := overridden ai aiBuildSeq "## Build Sequence" (sectionBuildSequence a result) in
  Ok [ header result ai today;
       roleSection;
       contextSection;
       sectionTechStack a result;
       directivesSection;
       sectionGuardrails result;
       sectionSkillPacks result;
       buildSeqSection ].

Definition assembleConfig (a : answers) (result : DecisionTreeResult)
    (ai : option AiSections) (today : string) : outcome string :=
  let* sections := assembleSections a result ai today in
  Ok (String.concat divider sections).



End ConfigAssembler.

(** * outputPackager.js *)

Module OutputPackager.

(** The paths of the output bundle, for the file tree of the preview *)
Definition getFileTree (result : DecisionTree.DecisionTreeResult) : list string :=
  [ "configkit-output/";
    "configkit-output/" +:+ text (DecisionTree.outputFile result);
    "configkit-output/skills/" ] ++
  flat_map (fun skillName =>
              [ "configkit-output/skills/" +:+ skillName +:+ "/";
                "configkit-output/skills/" +:+ skillName +:+ "/SKILL.md" ])
           (DecisionTree.skills result).

Definition AVG_SKILL_BYTES : nat := 650.
Definition AVG_CONFIG_BYTES : nat := 2800.

(** [Math.round(totalBytes / 1024)]: the quotient is exact, and a half rounds up. *)
Definition roundedKb (totalBytes : nat) : nat := (totalBytes + 512) / 1024.

Definition estimateZipSize (result : DecisionTree.DecisionTreeResult) : string :=
  let totalBytes := AVG_CONFIG_BYTES + length (DecisionTree.skills result) * AVG_SKILL_BYTES in
  let kb := roundedKb totalBytes in
  "~" +:+ ConfigAssembler.decimal kb +:+ " KB".

End OutputPackager.

(** * App.jsx: the answers state *)

Module App.

Definition SECURITY_FLAGS : list string :=
  ["hasAuth"; "storesData"; "hasPayments"; "hasSensitiveData"].

(** The initial state of [answers], also the state after a reset *)
Definition INITIAL_ANSWERS : answers :=
  <["hasAuth" := VStr "no"]> (<["storesData" := VStr "no"]>
  (<["hasPayments" := VStr "no"]> (<["hasSensitiveData" := VStr "no"]> ∅))).

(** [value.includes(flag)]: an array looks for the element, a string for the
    substring, and nothing else has the method. *)
Definition valueIncludes (v : value) (flag : string) : outcome bool :=
  match v with
  | VArr items => Ok (hasItem items flag)
  | VStr s => Ok (includes s flag)
  | VUndefined => Throw "TypeError: Cannot read properties of undefined (reading 'includes')"
  | VNull => Throw "TypeError: Cannot read properties of null (reading 'includes')"
  | _ => Throw "TypeError: value.includes is not a function"
  end.

(** [SECURITY_FLAGS.forEach(flag => { next[flag] = value.includes(flag) ? 'yes' : 'no' })] *)
Fixpoint deriveFlags (flags : list string) (v : value) (next : answers) : outcome answers :=
  match flags with
  | [] => Ok next
  | flag :: rest =>
      let* selected := valueIncludes v flag in
      deriveFlags rest v (<[flag := VStr (if selected then "yes" else "no")]> next)
  end.

(** The updater [handleAnswer] passes to [setAnswers] *)
Definition handleAnswer (prev : answers) (questionId : string) (v : value) : outcome answers :=
  let next := <[questionId := v]> prev in
  if String.eqb questionId "securityFlags" then deriveFlags SECURITY_FLAGS v next
  else Ok next.

End App.

(** * ConfigPreview.jsx: the readiness gate of the preview *)

Module ConfigPreview.

Record SectionReady : Type := {
  role : bool;
  context : bool;
  techStack : bool;
  directives : bool;
  guardrails : bool;
  skillPacks : bool;
  buildSeq : bool
}.

Definition getSectionReady (a : answers) : SectionReady :=
  let hasLayer3Any :=
    truthy (get a "hasAuth") || truthy (get a "storesData") ||
    truthy (get a "hasPayments") || truthy (get a "hasSensitiveData") in
  {| role := truthy (get a "projectType");
     context := truthy (get a "projectDescription");
     techStack := truthy (get a "stackApproach");
     directives := true;
     guardrails := hasLayer3Any;
     skillPacks := truthy (get a "projectType");
     buildSeq := truthy (get a "projectType") && truthy (get a "deployment") |}.

End ConfigPreview.

(** * questions.js: the questions of the questionnaire *)

Module Questions.

(** [conditionalOn]: the id of the question it looks at and one of the three
    tests, [value], [notIn] or [in] *)
Record Condition : Type := {
  cond_id : string;
  cond_value : option string;
  cond_notIn : option (list string);
  cond_in : option (list string)
}.

(** A question, without its texts and icons. An option is kept as its
    [value]; [number] is [None] where the source holds the string ['3b']. *)
Record Question : Type := {
  id : string;
  layer : nat;
  number : option nat;
  type : string;
  required : bool;
  conditionalOn : option Condition;
  options : option (list string);
  categories : option (list (list string))
}.

Definition QUESTIONS : list Question :=
  [ {| id := "llmTarget"; layer := 1; number := Some 1; type := "single"; required := true;
       conditionalOn := None;
       options := Some ["claude-code"; "gemini-cli"; "cursor"; "windsurf"; "other"];
       categories := None |};
    {| id := "projectType"; layer := 1; number := Some 2; type := "single"; required := true;
       conditionalOn := None;
       options := Some ["web-app"; "cli-tool"; "api-backend"; "data-pipeline";
                        "discord-slack-bot"; "mobile-app"; "other"];
       categories := None |};
    {| id := "stackApproach"; layer := 1; number := Some 3; type := "single"; required := true;
       conditionalOn := None;
       options := Some ["choose"; "recommend"];
       categories := None |};
    {| id := "stackTech"; layer := 1; number := None; type := "multi"; required := false;
       conditionalOn := Some {| cond_id := "stackApproach"; cond_value := Some "choose";
                                cond_notIn := None; cond_in := None |};
       options := None;
       categories := Some [ ["react"; "nextjs"; "vue"; "svelte"];
                            ["nodejs"; "python"; "go"; "java"];
                            ["postgres"; "mysql"; "mongodb"; "redis"];
                            ["docker"; "stripe"; "supabase"; "prisma"] ] |};
    {| id := "deployment"; layer := 1; number := Some 4; type := "single"; required := true;
       conditionalOn := None;
       options := Some ["vercel"; "aws"; "gcp"; "local-only"; "not-sure"];
       categories := None |};
    {| id := "projectDescription"; layer := 2; number := Some 5; type := "text"; required := true;
       conditionalOn := None; options := None; categories := None |};
    {| id := "securityFlags"; layer := 2; number := Some 6; type := "multi"; required := false;
       conditionalOn := None;
       options := Some ["hasAuth"; "storesData"; "hasPayments"; "hasSensitiveData"];
       categories := None |} ].

(** [list.includes(current)] for a list of string literals *)
Definition listIncludes (l : list string) (current : value) : bool :=
  existsb (isStr current) l.

Definition isQuestionVisible (question : Question) (a : answers) : bool :=
  match conditionalOn question with
  | None => true
  | Some c =>
      let current := get a (cond_id c) in
      match cond_value c with
      | Some v => isStr current v
      | None =>
          match cond_notIn c with
          | Some l => negb (listIncludes l current)
          | None =>
              match cond_in c with
              | Some l => listIncludes l current
              | None => true
              end
          end
      end
  end.

Definition getLayerQuestions (layerNumber : nat) (a : answers) : list Question :=
  List.filter (fun q => Nat.eqb (layer q) layerNumber && isQuestionVisible q a) QUESTIONS.

(** [typeof q.number === 'number'] *)
Definition getStepQuestions : list Question :=
  List.filter (fun q => match number q with Some _ => true | None => false end) QUESTIONS.

Definition getAllOptions (question : Question) : list string :=
  match options question with
  | Some opts => opts
  | None =>
      match categories question with
      | Some cats => concat cats
      | None => []
      end
  end.

(** [Array.isArray(val) ? val.length > 0 : val !== undefined && val !== ''] *)
Definition answered (val : value) : bool :=
  match val with
  | VArr items => negb (Nat.eqb (length items) 0)
  | VUndefined => false
  | VStr s => negb (String.eqb s "")
  | _ => true
  end.

Definition countAnswered (a : answers) : nat :=
  length (List.filter (fun q => answered (get a (id q))) getStepQuestions).

Definition isComplete (a : answers) : bool :=
  let visibleRequired :=
    List.filter (fun q => required q && isQuestionVisible q a) QUESTIONS in
  forallb (fun q => answered (get a (id q))) visibleRequired.

End Questions.

(** * Questionnaire.jsx: the gate of the Next button *)

Module Questionnaire.

Definition isLayerComplete (layerNumber : nat) (a : answers) : bool :=
  let questions := Questions.getLayerQuestions layerNumber a in
  forallb (fun q => Questions.answered (get a (Questions.id q)))
          (List.filter Questions.required questions).

End Questionnaire.

(** * QuestionCard.jsx: what a card passes to [onAnswer] *)

Module QuestionCard.

(** What the user does to a card: a click on the button of an option, or an
    edit that leaves the text of the input as given. *)
Inductive Event : Type :=
| click (optionValue : string)
| change (targetValue : string).

(** [Array.isArray(answer) ? answer : []] *)
Definition selectedOf (answer : value) : list value :=
  match answer with
  | VArr items => items
  | _ => []
  end.

(** [toggle] of [MultiSelect]:
    [selected.includes(value) ? selected.filter(v => v !== value) : [...selected, value]] *)
Definition toggle (selected : list value) (v : string) : list value :=
  if hasItem selected v then List.filter (fun x => negb (isStr x v)) selected
  else selected ++ [VStr v].

(** The value handed to [onAnswer(question.id, _)], or [None] when the card
    renders no control for the event: [SingleSelect] for the types single
    and boolean and [MultiSelect] for multi have one button for each of
    [getAllOptions(question)], [TextInput] for text has the input. *)
Definition onEvent (question : Questions.Question) (answer : value) (e : Event) : option value :=
  let isBool := String.eqb (Questions.type question) "boolean" in
  let isSingle := String.eqb (Questions.type question) "single" in
  let isMulti := String.eqb (Questions.type question) "multi" in
  let isText := String.eqb (Questions.type question) "text" in
  match e with
  | click v =>
      if inList v (Questions.getAllOptions question) then
        if isSingle || isBool then Some (VStr v)
        else if isMulti then Some (VArr (toggle (selectedOf answer) v))
        else None
      else None
  | change s => if isText then Some (VStr s) else None
  end.

End QuestionCard.

(** * Properties *)

(** ** Vocabulary of the properties *)

(** The bucket of one tier *)
Definition bucket (t : nat) : list string := nth t GuardrailEngine.TIER_INSTRUCTIONS [].

(** The invariant of the accumulator: [skills] has no duplicate and [seen]
    holds exactly its elements. *)
Definition consistent (st : SkillSelector.selection) : Prop :=
  NoDup (SkillSelector.skills st) /\
  forall name, name ∈ SkillSelector.seen st <-> name ∈ SkillSelector.skills st.

(** The names the guardrail track passes to [add], in order *)
Definition guardrailChoices (a : answers) (tier : nat) : list string :=
  (if 1 <=? tier then ["validating-user-input"] else []) ++
  (if 2 <=? tier then
     (if isStr (get a "hasAuth") "yes" then ["implementing-auth-patterns"] else []) ++
     (if existsb (isStr (get a "projectType")) ["web-app"; "api-backend"; "mobile-app"]
      then ["managing-cors-policy"] else [])
   else []) ++
  (if 3 <=? tier then
     ["managing-secrets-and-env"] ++
     (if isStr (get a "hasPayments") "yes" then ["handling-payment-security"] else []) ++
     (if isStr (get a "hasSensitiveData") "yes" then ["data-encryption-patterns"] else [])
   else []).

#[local] Instance Track_eq_dec : EqDecision SkillSelector.Track.
Proof. solve_decision. Defined.

Definition onTrack (t : SkillSelector.Track) (names : list string) : list string :=
  filter (fun name => SkillSelector.trackOf name = t) names.

(** A value that, read as a key, names no property of [Object.prototype] *)
Definition plainKey (v : value) : bool :=
  negb (inList (toStr v) OBJECT_PROTOTYPE_KEYS).

Definition textOrAbsent (v : value) : bool :=
  match v with
  | VUndefined | VNull | VStr _ => true
  | _ => false
  end.

(** The project type, the deployment target and the stack entries are plain
    keys, and the description is a string when there is one. *)
Definition wellFormed (a : answers) : bool :=
  plainKey (get a "projectType") && plainKey (get a "deployment") &&
  textOrAbsent (get a "projectDescription") &&
  match get a "stackTech" with
  | VArr items => forallb plainKey items
  | _ => true
  end.

(** The scenario of the specification: an API backend on Node.js and
    PostgreSQL with authentication, deployed to AWS. *)
Definition apiBackendScenario : answers :=
  <["projectType" := VStr "api-backend"]>
  (<["stackApproach" := VStr "choose"]>
  (<["stackTech" := VArr [VStr "nodejs"; VStr "postgres"]]>
  (<["hasAuth" := VStr "yes"]>
  (<["storesData" := VStr "no"]>
  (<["hasPayments" := VStr "no"]>
  (<["hasSensitiveData" := VStr "no"]>
  (<["deployment" := VStr "aws"]> ∅))))))).

(** An override record with only [role] set *)
Definition roleOnly (txt : string) : ConfigAssembler.AiSections :=
  {| ConfigAssembler.aiRole := VStr txt; ConfigAssembler.aiContext := VUndefined;
     ConfigAssembler.aiDirectives := VUndefined; ConfigAssembler.aiBuildSeq := VUndefined |}.





(** A skill id the metadata table knows *)
Definition isKnown (name : string) : bool :=
  match ownProperty SkillSelector.SKILL_METADATA name with
  | Some _ => true
  | None => false
  end.

(** What a looked-up list is once the [??] fallback has been applied *)
Definition listOr (p : property (list string)) : list string :=
  match orElse p [] with
  | Own l => l
  | _ => []
  end.

(** The names each track passes to [add] *)
Definition projectSkills (a : answers) : list string :=
  listOr (readProperty SkillSelector.PROJECT_TYPE_SKILLS (get a "projectType")).

Definition stackSkillNames (stack : list value) : list string :=
  flat_map (fun tech => listOr (readProperty SkillSelector.STACK_SKILLS tech)) stack.

Definition deploymentSkills (a : answers) : list string :=
  listOr (readProperty SkillSelector.DEPLOYMENT_SKILLS (get a "deployment")).

Definition onlyOn (t : SkillSelector.Track) (name : string) : bool :=
  bool_decide (SkillSelector.trackOf name = t).

Definition midTrack (name : string) : bool :=
  onlyOn SkillSelector.stack name || onlyOn SkillSelector.guardrail name.





(** A name without a slash *)
Fixpoint noSlash (s : string) : bool :=
  match s with
  | EmptyString => true
  | String c rest => negb (Ascii.eqb c "/") && noSlash rest
  end.

(** The two paths of a skill in the output bundle *)
Definition skillDir (s : string) : string := "configkit-output/skills/" +:+ s +:+ "/".
Definition skillFile (s : string) : string := "configkit-output/skills/" +:+ s +:+ "/SKILL.md".

(** The names of a selection, in order *)
Definition names (items : list value) : list string :=
  omap (fun x => match x with VStr s => Some s | _ => None end) items.

(** What a card can have stored for its question: nothing yet, one of its
    options, any text for a text question, and for a multi-select a list of
    its options without repetition. *)
Definition validAnswer (q : Questions.Question) (v : value) : Prop :=
  match v with
  | VUndefined => True
  | VStr s =>
      Questions.type q = "text" \/
      ((Questions.type q = "single" \/ Questions.type q = "boolean") /\
       s ∈ Questions.getAllOptions q)
  | VArr items =>
      Questions.type q = "multi" /\ items = VStr <$> names items /\
      names items ⊆ Questions.getAllOptions q /\ NoDup (names items)
  | _ => False
  end.

(** The states of [answers] the questionnaire can bring about: the initial
    one, which is also the one after a reset, and the one after an event on
    the card of a question that a layer shows in the state before. *)
Inductive uiReachable : answers -> Prop :=
| ui_initial : uiReachable App.INITIAL_ANSWERS
| ui_event (prev next : answers) (layerNumber : nat) (question : Questions.Question)
           (e : QuestionCard.Event) (v : value) :
    uiReachable prev ->
    question ∈ Questions.getLayerQuestions layerNumber prev ->
    QuestionCard.onEvent question (get prev (Questions.id question)) e = Some v ->
    App.handleAnswer prev (Questions.id question) v = Ok next ->
    uiReachable next.

(** The flag the app derives for a selection *)
Definition flagOf (selected : list value) (flag : string) : value :=
  VStr (if hasItem selected flag then "yes" else "no").

(** What holds of every state the questionnaire can bring about: each
    question has a valid answer, and the four flags say which options of
    [securityFlags] are selected. *)
Definition uiInvariant (a : answers) : Prop :=
  (forall q, q ∈ Questions.QUESTIONS -> validAnswer q (get a (Questions.id q))) /\
  (forall flag, flag ∈ App.SECURITY_FLAGS ->
     get a flag = flagOf (QuestionCard.selectedOf (get a "securityFlags")) flag).

(** A session run from a state: each event names the layer that is shown,
    the position of the card in it and what the user does. [None] when an
    event is not possible. *)
Fixpoint play (a : answers) (events : list (nat * nat * QuestionCard.Event)) : option answers :=
  match events with
  | [] => Some a
  | (layerNumber, i, e) :: rest =>
      match Questions.getLayerQuestions layerNumber a !! i with
      | Some q =>
          match QuestionCard.onEvent q (get a (Questions.id q)) e with
          | Some v =>
              match App.handleAnswer a (Questions.id q) v with
              | Ok next => play next rest
              | Throw _ => None
              end
          | None => None
          end
      | None => None
      end
  end.

(** A session that completes the questionnaire, with one technology and one
    flag selected and deselected again on the way *)
Definition shopSession : list (nat * nat * QuestionCard.Event) :=
  [ (1, 0, QuestionCard.click "cursor"); (1, 1, QuestionCard.click "web-app");
    (1, 2, QuestionCard.click "choose"); (1, 3, QuestionCard.click "react");
    (1, 3, QuestionCard.click "vue"); (1, 3, QuestionCard.click "postgres");
    (1, 3, QuestionCard.click "vue"); (1, 4, QuestionCard.click "vercel");
    (2, 0, QuestionCard.change "A shop for bikes");
    (2, 1, QuestionCard.click "storesData"); (2, 1, QuestionCard.click "hasAuth");
    (2, 1, QuestionCard.click "storesData"); (2, 1, QuestionCard.click "hasPayments") ].

Definition shopAnswers : answers :=
  <["llmTarget" := VStr "cursor"]> (<["projectType" := VStr "web-app"]>
  (<["stackApproach" := VStr "choose"]>
  (<["stackTech" := VArr [VStr "react"; VStr "postgres"]]>
  (<["deployment" := VStr "vercel"]>
  (<["projectDescription" := VStr "A shop for bikes"]>
  (<["securityFlags" := VArr [VStr "hasAuth"; VStr "hasPayments"]]>
  (<["hasAuth" := VStr "yes"]> (<["storesData" := VStr "no"]>
  (<["hasPayments" := VStr "yes"]> (<["hasSensitiveData" := VStr "no"]> ∅)))))))))).

(** The five answers the questionnaire requires *)
Definition REQUIRED_IDS : list string :=
  ["llmTarget"; "projectType"; "stackApproach"; "deployment"; "projectDescription"].

(** The names of a list in the order of their first occurrence *)
Fixpoint keepFirst (names : list string) : list string :=
  match names with
  | [] => []
  | name :: rest =>
      name :: List.filter (fun other => negb (String.eqb other name)) (keepFirst rest)
  end.

(** The loop of [selectSkillsByTrack] over a list of names *)
Definition groupByTrack (names : list string) : SkillSelector.Groups :=
  foldl SkillSelector.push
        {| SkillSelector.g_core := []; SkillSelector.g_stack := [];
           SkillSelector.g_guardrail := []; SkillSelector.g_deployment := [] |} names.

(** A text of ASCII characters only *)
Fixpoint isAscii (s : string) : bool :=
  match s with
  | EmptyString => true
  | String c rest => (nat_of_ascii c <? 128) && isAscii rest
  end.

Import GuardrailEngine.

(** ** Values and strict equality *)

Lemma isStr_true (v : value) (s : string) : isStr v s = true <-> v = VStr s.
Proof.
  destruct v; simpl; try (split; [discriminate | congruence]).
  rewrite String.eqb_eq. split; [intros ->; reflexivity | congruence].
Qed.

Lemma isStr_false (v : value) (s : string) : isStr v s = false <-> v <> VStr s.
Proof.
  rewrite <- isStr_true. destruct (isStr v s); split; congruence.
Qed.

Lemma get_insert (a : answers) (key : string) (v : value) :
  get (<[key := v]> a) key = v.
Proof. unfold get. by rewrite lookup_insert_eq. Qed.

Lemma get_insert_ne (a : answers) (key other : string) (v : value) :
  key <> other -> get (<[key := v]> a) other = get a other.
Proof. intros Hne. unfold get. by rewrite lookup_insert_ne. Qed.

Lemma get_delete (a : answers) (key : string) : get (delete key a) key = VUndefined.
Proof. unfold get. by rewrite lookup_delete_eq. Qed.

Lemma get_delete_ne (a : answers) (key other : string) :
  key <> other -> get (delete key a) other = get a other.
Proof. intros Hne. unfold get. by rewrite lookup_delete_ne. Qed.

(** ** The guardrail engine *)

(** [countSecurityYes], flag by flag *)
Lemma countSecurityYes_flags (a : answers) :
  countSecurityYes a =
    Nat.b2n (isStr (get a "hasAuth") "yes") + Nat.b2n (isStr (get a "storesData") "yes") +
    Nat.b2n (isStr (get a "hasPayments") "yes") + Nat.b2n (isStr (get a "hasSensitiveData") "yes").
Proof.
  unfold countSecurityYes, SECURITY_FLAGS. simpl.
  destruct (isStr (get a "hasAuth") "yes"), (isStr (get a "storesData") "yes"),
    (isStr (get a "hasPayments") "yes"), (isStr (get a "hasSensitiveData") "yes");
    cbn [app foldl]; reflexivity.
Qed.

Lemma countSecurityYes_le (a : answers) : countSecurityYes a <= 4.
Proof.
  rewrite countSecurityYes_flags.
  destruct (isStr (get a "hasAuth") "yes"), (isStr (get a "storesData") "yes"),
    (isStr (get a "hasPayments") "yes"), (isStr (get a "hasSensitiveData") "yes");
    simpl; lia.
Qed.

Lemma determineTier_le (a : answers) : determineTier a <= 3.
Proof.
  unfold determineTier.
  destruct (_ || _); [lia |].
  destruct (2 <=? _); [lia |]. destruct (1 <=? _); lia.
Qed.

(** C1. The tier is 3 as soon as payments or sensitive data are answered
    "yes", whatever the other flags say; otherwise it is 2 when at least two
    of the four flags are "yes", 1 when exactly one is, and 0 when none is.
    The count is the number of the four flags that are exactly "yes". *)
Theorem determineTier_by_priority (a : answers) :
  let yes key := get a key = VStr "yes" in
  (yes "hasPayments" \/ yes "hasSensitiveData" -> determineTier a = 3) /\
  (~ yes "hasPayments" -> ~ yes "hasSensitiveData" ->
     (2 <= countSecurityYes a -> determineTier a = 2) /\
     (countSecurityYes a = 1 -> determineTier a = 1) /\
     (countSecurityYes a = 0 -> determineTier a = 0)) /\
  countSecurityYes a =
    Nat.b2n (isStr (get a "hasAuth") "yes") + Nat.b2n (isStr (get a "storesData") "yes") +
    Nat.b2n (isStr (get a "hasPayments") "yes") + Nat.b2n (isStr (get a "hasSensitiveData") "yes").
Proof.
  intros yes. subst yes. cbv beta. split; [| split].
  - intros Hyes. unfold determineTier.
    assert (isStr (get a "hasPayments") "yes" || isStr (get a "hasSensitiveData") "yes" = true)
      as ->; [| reflexivity].
    apply orb_true_iff. rewrite !isStr_true. exact Hyes.
  - intros Hpay Hsens. apply isStr_false in Hpay, Hsens.
    unfold determineTier. rewrite Hpay, Hsens. cbn [orb].
    repeat split.
    + intros Hge. apply Nat.leb_le in Hge. by rewrite Hge.
    + intros ->. reflexivity.
    + intros ->. reflexivity.
  - apply countSecurityYes_flags.
Qed.

Lemma determineTier_by_priority_witness :
  determineTier (<["hasPayments" := VStr "yes"]> (<["hasAuth" := VStr "no"]> ∅)) = 3 /\
  determineTier (<["hasAuth" := VStr "yes"]> (<["storesData" := VStr "yes"]> ∅)) = 2.
Proof.
  split.
  - apply (proj1 (determineTier_by_priority
                    (<["hasPayments" := VStr "yes"]> (<["hasAuth" := VStr "no"]> ∅)))).
    left. vm_compute. reflexivity.
  - destruct (determineTier_by_priority
                (<["hasAuth" := VStr "yes"]> (<["storesData" := VStr "yes"]> ∅)))
      as (_ & Hcount & _).
    apply Hcount.
    + vm_compute. discriminate.
    + vm_compute. discriminate.
    + vm_compute. lia.
Defined.

Lemma instructions_prefix_tiers (t1 t2 : nat) :
  t1 <= t2 -> t2 <= 3 ->
  concat (take (t1 + 1) TIER_INSTRUCTIONS) `prefix_of` concat (take (t2 + 1) TIER_INSTRUCTIONS).
Proof.
  intros H12 H3.
  assert (take (t1 + 1) TIER_INSTRUCTIONS `prefix_of` take (t2 + 1) TIER_INSTRUCTIONS)
    as [rest Hrest].
  { exists (take (t2 - t1) (drop (t1 + 1) TIER_INSTRUCTIONS)).
    rewrite take_take_drop. f_equal. lia. }
  rewrite Hrest, concat_app. by apply prefix_app_r.
Qed.

(** C2. The instructions of a result are the buckets 0..tier, concatenated in
    order, and [byTier] is the list of those buckets; hence a lower tier's
    instructions are a prefix of a higher tier's, and every result is a prefix
    of a tier 3 result. *)
Theorem guardrails_additive :
  (forall a : answers,
     let r := determineGuardrails a in
     tier r = determineTier a /\ tier r <= 3 /\
     byTier r = List.map bucket (seq 0 (S (tier r))) /\
     instructions r = flat_map bucket (seq 0 (S (tier r)))) /\
  (forall a1 a2 : answers,
     determineTier a1 < determineTier a2 ->
     instructions (determineGuardrails a1) `prefix_of` instructions (determineGuardrails a2) /\
     length (instructions (determineGuardrails a1)) < length (instructions (determineGuardrails a2))) /\
  (forall a a3 : answers,
     determineTier a3 = 3 ->
     instructions (determineGuardrails a) `prefix_of` instructions (determineGuardrails a3)).
Proof.
  split; [| split].
  - intros a r. subst r. unfold determineGuardrails. cbn [tier byTier instructions].
    pose proof (determineTier_le a) as Hle.
    split; [reflexivity |]. split; [exact Hle |].
    destruct (determineTier a) as [| [| [| [| n]]]]; [| | | | lia]; split; reflexivity.
  - intros a1 a2 Hlt. unfold determineGuardrails. cbn [instructions].
    pose proof (determineTier_le a2) as H2.
    split.
    + apply instructions_prefix_tiers; lia.
    + destruct (determineTier a1) as [| [| [| [| n1]]]], (determineTier a2) as [| [| [| [| n2]]]];
        try lia; vm_compute; lia.
  - intros a a3 H3. unfold determineGuardrails. cbn [instructions]. rewrite H3.
    pose proof (determineTier_le a). apply instructions_prefix_tiers; lia.
Qed.

Lemma guardrails_additive_witness :
  instructions (determineGuardrails (<["hasAuth" := VStr "yes"]> ∅))
    `prefix_of` instructions (determineGuardrails (<["hasPayments" := VStr "yes"]> ∅)).
Proof.
  apply (proj1 (proj2 guardrails_additive)
           (<["hasAuth" := VStr "yes"]> ∅) (<["hasPayments" := VStr "yes"]> ∅)).
  vm_compute. lia.
Defined.

(** The engine reads nothing but whether each flag is exactly "yes". *)
Lemma guardrails_congruence (a b : answers) :
  (forall key, key ∈ SECURITY_FLAGS -> isStr (get a key) "yes" = isStr (get b key) "yes") ->
  countSecurityYes a = countSecurityYes b /\ determineTier a = determineTier b /\
  determineGuardrails a = determineGuardrails b.
Proof.
  intros Hsame.
  assert (countSecurityYes a = countSecurityYes b) as Hcount.
  { rewrite !countSecurityYes_flags.
    rewrite !(Hsame _) by (unfold SECURITY_FLAGS; set_solver). reflexivity. }
  assert (determineTier a = determineTier b) as Htier.
  { unfold determineTier. rewrite Hcount.
    rewrite !(Hsame _) by (unfold SECURITY_FLAGS; set_solver). reflexivity. }
  repeat split; try assumption.
  unfold determineGuardrails. by rewrite Hcount, Htier.
Qed.

(** C10. Only a flag that is exactly the string "yes" counts: two answer maps
    that agree on which of the four flags are "yes" get the same count, tier
    and guardrail result; so a flag set to any other value ("Yes", "no", true,
    a number) gives the same result as that flag set to "no" or left out. *)
Theorem only_exact_yes_counts :
  (forall a b : answers,
     (forall key, key ∈ SECURITY_FLAGS -> (get a key = VStr "yes" <-> get b key = VStr "yes")) ->
     countSecurityYes a = countSecurityYes b /\ determineTier a = determineTier b /\
     determineGuardrails a = determineGuardrails b) /\
  (forall (a : answers) (key : string) (v : value),
     v <> VStr "yes" ->
     determineTier (<[key := v]> a) = determineTier (delete key a) /\
     determineTier (<[key := VStr "no"]> a) = determineTier (delete key a) /\
     determineGuardrails (<[key := v]> a) = determineGuardrails (delete key a) /\
     determineGuardrails (<[key := VStr "no"]> a) = determineGuardrails (delete key a)) /\
  (forall v : value, v <> VStr "yes" ->
     countSecurityYes (<["hasAuth" := v]> (<["storesData" := v]>
                       (<["hasPayments" := v]> (<["hasSensitiveData" := v]> ∅)))) = 0).
Proof.
  split; [| split].
  - intros a b Hsame. apply guardrails_congruence. intros key Hkey.
    specialize (Hsame key Hkey). rewrite <- !isStr_true in Hsame.
    destruct (isStr (get a key) "yes"), (isStr (get b key) "yes"); try reflexivity.
    + symmetry. by apply Hsame.
    + by apply Hsame.
  - intros a key v Hv.
    assert (forall w, w <> VStr "yes" -> forall k,
              isStr (get (<[key := w]> a) k) "yes" = isStr (get (delete key a) k) "yes") as Hflag.
    { intros w Hw k. destruct (decide (key = k)) as [-> | Hne].
      - rewrite get_insert, get_delete. by apply isStr_false.
      - by rewrite get_insert_ne, get_delete_ne. }
    assert (VStr "no" <> VStr "yes") as Hno by discriminate.
    repeat split;
      first [ apply (guardrails_congruence (<[key := v]> a)); intros; by apply Hflag
            | apply (guardrails_congruence (<[key := VStr "no"]> a)); intros; by apply Hflag ].
  - intros v Hv. apply isStr_false in Hv.
    rewrite countSecurityYes_flags. unfold get. simplify_map_eq.
    cbn [default]. by rewrite Hv.
Qed.

Lemma only_exact_yes_counts_witness :
  determineGuardrails (<["hasAuth" := VStr "Yes"]> (<["storesData" := VStr "yes"]> ∅)) =
  determineGuardrails (delete "hasAuth" (<["storesData" := VStr "yes"]> ∅)) /\
  determineGuardrails (<["hasPayments" := VBool true]> ∅) =
  determineGuardrails (delete "hasPayments" ∅) /\
  determineGuardrails (<["hasSensitiveData" := VNum 1]> ∅) =
  determineGuardrails (<["hasSensitiveData" := VStr "no"]> ∅).
Proof.
  split; [| split].
  - apply (proj1 (proj2 only_exact_yes_counts)
             (<["storesData" := VStr "yes"]> ∅) "hasAuth" (VStr "Yes")).
    discriminate.
  - apply (proj1 (proj2 only_exact_yes_counts) ∅ "hasPayments" (VBool true)). discriminate.
  - apply (proj1 only_exact_yes_counts). intros key Hkey. unfold SECURITY_FLAGS in Hkey.
    repeat (apply elem_of_cons in Hkey as [-> | Hkey]);
      [.. | by apply elem_of_nil in Hkey]; vm_compute; split; discriminate.
Defined.

(** ** The skill selector *)

Import SkillSelector.

Lemma start_consistent : consistent start.
Proof. split; [constructor | intros name; simpl; set_solver]. Qed.

Lemma add_skills (st : selection) (name : string) :
  consistent st ->
  skills (add st name) = if decide (name ∈ skills st) then skills st else skills st ++ [name].
Proof.
  intros [_ Hseen]. unfold add.
  destruct (bool_decide_reflect (name ∈ seen st)) as [Hin | Hout];
    destruct (decide (name ∈ skills st)) as [Hin' | Hout']; try reflexivity.
  - apply Hseen in Hin. contradiction.
  - apply Hseen in Hin'. contradiction.
Qed.

Lemma add_consistent (st : selection) (name : string) :
  consistent st -> consistent (add st name).
Proof.
  intros [Hnodup Hseen]. unfold add.
  destruct (bool_decide_reflect (name ∈ seen st)) as [Hin | Hout]; [by split |].
  split; simpl.
  - apply NoDup_app. split; [exact Hnodup |]. split; [| apply NoDup_singleton].
    intros x Hx Hx'. apply list_elem_of_singleton in Hx' as ->. by apply Hout, Hseen.
  - intros x. rewrite elem_of_union, elem_of_singleton, elem_of_app, list_elem_of_singleton, Hseen.
    tauto.
Qed.

Lemma add_elem (st : selection) (name x : string) :
  consistent st -> x ∈ skills (add st name) <-> x ∈ skills st \/ x = name.
Proof.
  intros Hst. rewrite add_skills by assumption.
  destruct (decide (name ∈ skills st)) as [Hin | Hout].
  - split; [tauto | intros [H | ->]; assumption].
  - by rewrite elem_of_app, list_elem_of_singleton.
Qed.

Lemma add_prefix (st : selection) (name : string) : skills st `prefix_of` skills (add st name).
Proof.
  unfold add. destruct (bool_decide _); [reflexivity | by apply prefix_app_r].
Qed.

Lemma addAll_consistent (names : list string) (st : selection) :
  consistent st -> consistent (addAll st names).
Proof.
  revert st. induction names as [| name names IH]; intros st Hst; [exact Hst |].
  apply IH. by apply add_consistent.
Qed.

Lemma addAll_elem (names : list string) (st : selection) (x : string) :
  consistent st -> x ∈ skills (addAll st names) <-> x ∈ skills st \/ x ∈ names.
Proof.
  revert st. induction names as [| name names IH]; intros st Hst.
  - simpl. rewrite elem_of_nil. tauto.
  - unfold addAll. simpl. fold (addAll (add st name) names).
    rewrite IH by (by apply add_consistent).
    rewrite add_elem by assumption. rewrite elem_of_cons. tauto.
Qed.

Lemma addAll_prefix (names : list string) (st : selection) :
  skills st `prefix_of` skills (addAll st names).
Proof.
  revert st. induction names as [| name names IH]; intros st; [reflexivity |].
  etrans; [apply (add_prefix st name) | apply IH].
Qed.

Lemma addStackSkills_sound (stack : list value) (st st' : selection) :
  addStackSkills st stack = Ok st' ->
  consistent st -> consistent st' /\ skills st `prefix_of` skills st'.
Proof.
  revert st. induction stack as [| tech stack IH]; intros st Hrun Hst; simpl in Hrun.
  - injection Hrun as <-. by split.
  - destruct (method _ _) as [techSkills | e]; [| discriminate]. simpl in Hrun.
    destruct (IH _ Hrun) as [Hc Hp]; [by apply addAll_consistent |].
    split; [exact Hc |]. etrans; [apply addAll_prefix | exact Hp].
Qed.

Lemma addGuardrailSkills_addAll (a : answers) (tier : nat) (st : selection) :
  addGuardrailSkills a tier st = addAll st (guardrailChoices a tier).
Proof.
  unfold addGuardrailSkills, guardrailChoices, addAll.
  destruct (1 <=? tier), (2 <=? tier), (3 <=? tier),
    (isStr (get a "hasAuth") "yes"),
    (existsb (isStr (get a "projectType")) ["web-app"; "api-backend"; "mobile-app"]),
    (isStr (get a "hasPayments") "yes"), (isStr (get a "hasSensitiveData") "yes");
    cbn [app foldl]; reflexivity.
Qed.

Lemma elem_of_if (b : bool) (l : list string) (x : string) :
  x ∈ (if b then l else []) <-> b = true /\ x ∈ l.
Proof.
  destruct b; [tauto |]. rewrite elem_of_nil. split; [tauto | intros [H _]; discriminate].
Qed.

Lemma webFacing_spec (v : value) :
  existsb (isStr v) ["web-app"; "api-backend"; "mobile-app"] = true <->
  exists t, t ∈ ["web-app"; "api-backend"; "mobile-app"] /\ v = VStr t.
Proof.
  rewrite existsb_exists. split; intros (t & Hin & Heq); exists t.
  - split; [by apply list_elem_of_In | by apply isStr_true].
  - split; [by apply list_elem_of_In | by apply isStr_true].
Qed.

Lemma guardrailChoices_elem (a : answers) (tier : nat) (name : string) :
  name ∈ guardrailChoices a tier <->
    (name = "validating-user-input" /\ 1 <= tier) \/
    (name = "implementing-auth-patterns" /\ 2 <= tier /\ get a "hasAuth" = VStr "yes") \/
    (name = "managing-cors-policy" /\ 2 <= tier /\
       exists t, t ∈ ["web-app"; "api-backend"; "mobile-app"] /\ get a "projectType" = VStr t) \/
    (name = "managing-secrets-and-env" /\ 3 <= tier) \/
    (name = "handling-payment-security" /\ 3 <= tier /\ get a "hasPayments" = VStr "yes") \/
    (name = "data-encryption-patterns" /\ 3 <= tier /\ get a "hasSensitiveData" = VStr "yes").
Proof.
  unfold guardrailChoices.
  rewrite !elem_of_app, !elem_of_if, !elem_of_app, !elem_of_if, !list_elem_of_singleton.
  rewrite !Nat.leb_le, !isStr_true, webFacing_spec. tauto.
Qed.

Lemma selectState_consistent (a : answers) (tier : nat) (st : selection) :
  selectState a tier = Ok st -> consistent st.
Proof.
  unfold selectState. intros Hrun.
  destruct (method (orElse (readProperty PROJECT_TYPE_SKILLS _) _) _) as [coreSkills | e];
    [| discriminate]. simpl in Hrun.
  destruct (method (RoleBuilder.resolveStack a) _) as [stack | e]; [| discriminate].
  simpl in Hrun.
  destruct (addStackSkills _ stack) as [st2 | e] eqn:Hstack; [| discriminate]. simpl in Hrun.
  destruct (selectFromDescription _) as [described | e]; [| discriminate]. simpl in Hrun.
  destruct (method (orElse (readProperty DEPLOYMENT_SKILLS _) _) _) as [deploySkills | e];
    [| discriminate]. simpl in Hrun.
  injection Hrun as <-.
  apply addStackSkills_sound in Hstack as [Hst2 _];
    [| apply addAll_consistent, start_consistent].
  apply addAll_consistent, addAll_consistent.
  rewrite addGuardrailSkills_addAll. by apply addAll_consistent.
Qed.

(** What the guardrail track added is still there when [selectSkills] returns. *)
Lemma guardrailChoices_selected (a : answers) (tier : nat) (all : list string) (name : string) :
  selectSkills a tier = Ok all -> name ∈ guardrailChoices a tier -> name ∈ all.
Proof.
  unfold selectSkills, selectState. intros Hrun Hname.
  destruct (method (orElse (readProperty PROJECT_TYPE_SKILLS _) _) _) as [coreSkills | e];
    [| discriminate]. simpl in Hrun.
  destruct (method (RoleBuilder.resolveStack a) _) as [stack | e]; [| discriminate].
  simpl in Hrun.
  destruct (addStackSkills _ stack) as [st2 | e] eqn:Hstack; [| discriminate]. simpl in Hrun.
  destruct (selectFromDescription _) as [described | e]; [| discriminate]. simpl in Hrun.
  destruct (method (orElse (readProperty DEPLOYMENT_SKILLS _) _) _) as [deploySkills | e];
    [| discriminate]. simpl in Hrun.
  injection Hrun as <-.
  apply addStackSkills_sound in Hstack as [Hst2 _];
    [| apply addAll_consistent, start_consistent].
  assert (consistent (addGuardrailSkills a tier st2)) as Hst3.
  { rewrite addGuardrailSkills_addAll. by apply addAll_consistent. }
  apply addAll_elem; [by apply addAll_consistent |]. left.
  apply addAll_elem; [assumption |]. left.
  rewrite addGuardrailSkills_addAll. apply addAll_elem; [assumption |]. by right.
Qed.

(** C4. The guardrail track of [selectSkills] keeps what was selected before
    it and adds exactly: the validation skill at tier 1 and above; at tier 2
    and above the auth skill when hasAuth is "yes" and the CORS skill when the
    project type is web-app, api-backend or mobile-app; at tier 3 the secrets
    skill, the payment skill when hasPayments is "yes" and the encryption
    skill when hasSensitiveData is "yes". What it adds is part of the list
    [selectSkills] returns. *)
Theorem guardrail_track_conditions (a : answers) (tier : nat) :
  let chosen name :=
    (name = "validating-user-input" /\ 1 <= tier) \/
    (name = "implementing-auth-patterns" /\ 2 <= tier /\ get a "hasAuth" = VStr "yes") \/
    (name = "managing-cors-policy" /\ 2 <= tier /\
       exists t, t ∈ ["web-app"; "api-backend"; "mobile-app"] /\ get a "projectType" = VStr t) \/
    (name = "managing-secrets-and-env" /\ 3 <= tier) \/
    (name = "handling-payment-security" /\ 3 <= tier /\ get a "hasPayments" = VStr "yes") \/
    (name = "data-encryption-patterns" /\ 3 <= tier /\ get a "hasSensitiveData" = VStr "yes") in
  (forall st : selection,
     consistent st ->
     consistent (addGuardrailSkills a tier st) /\
     skills st `prefix_of` skills (addGuardrailSkills a tier st) /\
     forall name, name ∈ skills (addGuardrailSkills a tier st) <-> name ∈ skills st \/ chosen name) /\
  (forall all name, selectSkills a tier = Ok all -> chosen name -> name ∈ all).
Proof.
  intros chosen. split.
  - intros st Hst. rewrite addGuardrailSkills_addAll.
    split; [by apply addAll_consistent |]. split; [apply addAll_prefix |].
    intros name. rewrite addAll_elem by assumption.
    subst chosen. cbv beta. by rewrite guardrailChoices_elem.
  - intros all name Hrun Hchosen. apply (guardrailChoices_selected a tier all name Hrun).
    apply guardrailChoices_elem. exact Hchosen.
Qed.

Lemma guardrail_track_conditions_witness :
  skills (addGuardrailSkills (<["hasAuth" := VStr "yes"]> {[ "projectType" := VStr "cli-tool" ]}) 2 start)
  = ["validating-user-input"; "implementing-auth-patterns"] /\
  "managing-secrets-and-env" ∈
    skills (addGuardrailSkills (<["hasAuth" := VStr "yes"]> {[ "projectType" := VStr "cli-tool" ]}) 3 start).
Proof.
  split; [vm_compute; reflexivity |].
  apply (proj1 (guardrail_track_conditions
                  (<["hasAuth" := VStr "yes"]> {[ "projectType" := VStr "cli-tool" ]}) 3)
               start start_consistent).
  right. right. right. right. left. split; [reflexivity | lia].
Defined.

(** ** Grouping by track *)

Lemma foldl_push (names : list string) (g : Groups) :
  foldl push g names =
    {| g_core := g_core g ++ onTrack core names;
       g_stack := g_stack g ++ onTrack stack names;
       g_guardrail := g_guardrail g ++ onTrack guardrail names;
       g_deployment := g_deployment g ++ onTrack deployment names |}.
Proof.
  revert g. induction names as [| name names IH]; intros g.
  - simpl. unfold onTrack. rewrite !filter_nil, !app_nil_r. by destruct g.
  - simpl. rewrite IH. unfold push, onTrack. rewrite !filter_cons.
    destruct (trackOf name) eqn:Htrack; simpl;
      repeat case_decide; try congruence; by rewrite <- ?app_assoc.
Qed.

Lemma onTrack_elem (t : Track) (names : list string) (x : string) :
  x ∈ onTrack t names <-> x ∈ names /\ trackOf x = t.
Proof. unfold onTrack. rewrite list_elem_of_filter. tauto. Qed.

Lemma onTrack_partition (names : list string) :
  NoDup names ->
  NoDup (onTrack core names ++ onTrack stack names ++ onTrack guardrail names
         ++ onTrack deployment names) /\
  forall x, x ∈ names <->
    x ∈ onTrack core names ++ onTrack stack names ++ onTrack guardrail names
        ++ onTrack deployment names.
Proof.
  intros Hnodup. split.
  - repeat (apply NoDup_app; split; [by apply NoDup_filter |]; split;
            [intros x; rewrite ?elem_of_app, !onTrack_elem; intros [_ Ht]; rewrite Ht;
             intuition discriminate |]).
    by apply NoDup_filter.
  - intros x. rewrite !elem_of_app, !onTrack_elem.
    destruct (trackOf x); intuition discriminate.
Qed.

Lemma trackOf_unmapped (name : string) :
  ownProperty SKILL_METADATA name = None -> trackOf name = core.
Proof.
  unfold trackOf, readProperty. cbn [toStr]. intros ->.
  by destruct (inList name OBJECT_PROTOTYPE_KEYS).
Qed.

(** ** Answers on which nothing is inherited *)

Lemma wellFormed_parts (a : answers) :
  wellFormed a = true ->
  plainKey (get a "projectType") = true /\ plainKey (get a "deployment") = true /\
  textOrAbsent (get a "projectDescription") = true /\
  (forall items, get a "stackTech" = VArr items -> forallb plainKey items = true).
Proof.
  unfold wellFormed. rewrite !andb_true_iff. intros [[[Hp Hd] Ht] Hs].
  repeat split; try assumption. intros items Hitems. by rewrite Hitems in Hs.
Qed.

Lemma method_plain {A : Type} (table : list (string * A)) (v : value) (d : A) (call : string) :
  plainKey v = true -> exists x, method (orElse (readProperty table v) d) call = Ok x.
Proof.
  unfold plainKey, readProperty. intros Hplain. apply negb_true_iff in Hplain.
  destruct (ownProperty table (toStr v)) as [x |]; [by exists x |].
  rewrite Hplain. by exists d.
Qed.

Lemma ownProperty_In {A : Type} (table : list (string * A)) (key : string) (x : A) :
  ownProperty table key = Some x -> exists k, In (k, x) table.
Proof.
  induction table as [| [k y] table IH]; simpl; [discriminate |].
  destruct (String.eqb k key).
  - intros [= ->]. exists k. by left.
  - intros H. destruct (IH H) as [k' Hk']. exists k'. by right.
Qed.

Lemma resolveStack_wellFormed (a : answers) :
  wellFormed a = true ->
  exists items, RoleBuilder.resolveStack a = Own items /\ forallb plainKey items = true.
Proof.
  intros Hwf. apply wellFormed_parts in Hwf as (Hp & _ & _ & Hs).
  unfold RoleBuilder.resolveStack. destruct (isStr (get a "stackApproach") "recommend").
  - unfold plainKey in Hp. apply negb_true_iff in Hp. unfold readProperty.
    destruct (ownProperty RoleBuilder.RECOMMENDED_STACKS _) as [items |] eqn:Hown.
    + exists items. split; [reflexivity |].
      apply ownProperty_In in Hown as [k Hk].
      assert (forallb (fun kv => forallb plainKey (snd kv)) RoleBuilder.RECOMMENDED_STACKS = true)
        as Hall by (vm_compute; reflexivity).
      rewrite forallb_forall in Hall. exact (Hall _ Hk).
    + rewrite Hp. by exists [VStr "nodejs"].
  - destruct (get a "stackTech") as [| | | | | items] eqn:Hst;
      try (by exists []). exists items. split; [reflexivity | by apply Hs].
Qed.

Lemma addStackSkills_returns (stack : list value) (st : selection) :
  forallb plainKey stack = true -> exists st', addStackSkills st stack = Ok st'.
Proof.
  revert st. induction stack as [| tech stack IH]; intros st Hplain; [by exists st |].
  simpl in Hplain. apply andb_true_iff in Hplain as [Htech Hrest]. simpl.
  destruct (method_plain STACK_SKILLS tech [] "techSkills.forEach" Htech) as [x ->]. simpl.
  by apply IH.
Qed.

Lemma selectFromDescription_returns (v : value) :
  textOrAbsent v = true -> exists l, selectFromDescription v = Ok l.
Proof.
  unfold selectFromDescription.
  destruct v; try discriminate; intros _; cbn [truthy negb]; try (eexists; reflexivity).
  destruct (String.eqb s ""); cbn [negb]; eexists; reflexivity.
Qed.

Lemma selectSkills_returns (a : answers) (tier : nat) :
  wellFormed a = true -> exists all, selectSkills a tier = Ok all.
Proof.
  intros Hwf. destruct (resolveStack_wellFormed a Hwf) as (items & Hstack & Hitems).
  apply wellFormed_parts in Hwf as (Hp & Hd & Ht & _).
  unfold selectSkills, selectState.
  destruct (method_plain PROJECT_TYPE_SKILLS _ [] "coreSkills.forEach" Hp) as [c ->]. simpl.
  rewrite Hstack. simpl.
  destruct (addStackSkills_returns items (addAll start c) Hitems) as [st2 ->]. simpl.
  destruct (selectFromDescription_returns _ Ht) as [l ->]. simpl.
  destruct (method_plain DEPLOYMENT_SKILLS _ [] "deploySkills.forEach" Hd) as [d ->]. simpl.
  eauto.
Qed.

(** ** The stack resolver *)

Import RoleBuilder.

(** In "recommend" mode a project type the table knows gets its curated list,
    whatever [stackTech] holds. *)
Lemma resolveStack_recommend_known (a : answers) (curated : list value) :
  get a "stackApproach" = VStr "recommend" ->
  ownProperty RECOMMENDED_STACKS (toStr (get a "projectType")) = Some curated ->
  forall tech, resolveStack (<["stackTech" := tech]> a) = Own curated /\ resolveStack a = Own curated.
Proof.
  intros Hmode Hown tech. unfold resolveStack.
  rewrite !get_insert_ne by discriminate. rewrite Hmode. simpl.
  unfold readProperty. rewrite Hown. by split.
Qed.

(** In "recommend" mode an unknown project type that inherits nothing falls
    back to the one-element default stack. *)
Lemma resolveStack_recommend_fallback (a : answers) :
  get a "stackApproach" = VStr "recommend" ->
  ownProperty RECOMMENDED_STACKS (toStr (get a "projectType")) = None ->
  plainKey (get a "projectType") = true ->
  resolveStack a = Own [VStr "nodejs"].
Proof.
  intros Hmode Hown Hplain. unfold resolveStack. rewrite Hmode. simpl.
  unfold readProperty. rewrite Hown. unfold plainKey in Hplain.
  apply negb_true_iff in Hplain. by rewrite Hplain.
Qed.

(** In any other mode the answer's own list is returned as given, and the
    empty list when [stackTech] is absent or is no list. *)
Lemma resolveStack_choose (a : answers) :
  get a "stackApproach" <> VStr "recommend" ->
  (forall items, get a "stackTech" = VArr items -> resolveStack a = Own items) /\
  ((forall items, get a "stackTech" <> VArr items) -> resolveStack a = Own []).
Proof.
  intros Hmode. apply isStr_false in Hmode. unfold resolveStack. rewrite Hmode. split.
  - by intros items ->.
  - intros Hnone. destruct (get a "stackTech"); try reflexivity. by destruct (Hnone items).
Qed.

(** C5, at the input where the code departs from it: in "recommend" mode with
    the project type "constructor", which no table knows, [resolveStack]
    returns what every object inherits under that name and not the default
    stack; the first array method called on it raises. *)
Theorem resolveStack_inherited_key :
  let a : answers :=
    <["stackApproach" := VStr "recommend"]> {[ "projectType" := VStr "constructor" ]} in
  ownProperty RECOMMENDED_STACKS "constructor" = None /\
  resolveStack a = Inherited "constructor" /\
  resolveStack a <> Own [VStr "nodejs"] /\
  buildRole a = Throw "TypeError: stack.map is not a function".
Proof.
  cbv zeta. split; [reflexivity |]. split; [vm_compute; reflexivity |].
  split; [vm_compute; discriminate | vm_compute; reflexivity].
Qed.

(** ** The orchestrator *)

Import DecisionTree.

Lemma buildRole_returns (a : answers) :
  wellFormed a = true -> exists r, buildRole a = Ok r.
Proof.
  intros Hwf. destruct (resolveStack_wellFormed a Hwf) as (items & Hstack & _).
  apply wellFormed_parts in Hwf as (_ & _ & Ht & _).
  unfold buildRole. rewrite Hstack. cbn [method bind].
  destruct (get a "projectDescription"); try discriminate; eauto.
  destruct (negb (String.eqb (trim s) "")); eauto.
Qed.

(** On well-formed answers the whole derivation returns a result. *)
Lemma runDecisionTree_returns (a : answers) :
  wellFormed a = true -> exists result, runDecisionTree a = Ok result.
Proof.
  intros Hwf. unfold runDecisionTree.
  destruct (buildRole_returns a Hwf) as [r Hr]. rewrite Hr. cbn [bind].
  unfold buildRoleComponents. rewrite Hr.
  destruct (resolveStack_wellFormed a Hwf) as (items & Hstack & _).
  rewrite Hstack. cbn [method bind].
  destruct (selectSkills_returns a (tier (determineGuardrails a)) Hwf) as [all Hall].
  rewrite Hall. cbn [bind]. unfold selectSkillsByTrack. rewrite Hall. cbn [bind].
  eauto.
Qed.

(** The stack a result carries is the one [resolveStack] gives. *)
Lemma runDecisionTree_stack (a : answers) (result : DecisionTreeResult) :
  runDecisionTree a = Ok result -> resolveStack a = Own (resolvedStack result).
Proof.
  unfold runDecisionTree.
  destruct (buildRole a) as [r | e] eqn:Hrole; [| discriminate]. cbn [bind].
  destruct (buildRoleComponents a) as [c | e]; [| discriminate]. cbn [bind].
  destruct (selectSkills a _) as [all | e]; [| discriminate]. cbn [bind].
  destruct (selectSkillsByTrack a _) as [g | e]; [| discriminate]. cbn [bind].
  intros [= <-]. cbn [resolvedStack].
  unfold buildRole in Hrole. destruct (resolveStack a) as [items | key |]; try discriminate.
  reflexivity.
Qed.

(** On well-formed answers the document is assembled too, whatever the
    overrides. *)
Lemma assembleConfig_returns (a : answers) (result : DecisionTreeResult)
    (ai : option ConfigAssembler.AiSections) (today : string) :
  wellFormed a = true -> exists document, ConfigAssembler.assembleConfig a result ai today = Ok document.
Proof.
  intros Hwf.
  assert (exists ctx, ConfigAssembler.sectionProjectContext a = Ok ctx) as [ctx Hctx].
  { pose proof (wellFormed_parts a Hwf) as (_ & _ & Ht & _).
    unfold ConfigAssembler.sectionProjectContext.
    destruct (get a "projectDescription"); try discriminate;
      cbn [truthy bind]; try (eexists; reflexivity).
    destruct (negb (String.eqb s "")); cbn [bind]; eexists; reflexivity. }
  assert (exists bs, ConfigAssembler.sectionBuildSequence a result = Ok bs) as [bs Hbs].
  { destruct (resolveStack_wellFormed a Hwf) as (items & Hstack & _).
    unfold ConfigAssembler.sectionBuildSequence, ConfigAssembler.buildSequence,
      ConfigAssembler.buildSteps.
    rewrite Hstack. cbn [method bind]. eexists. reflexivity. }
  unfold ConfigAssembler.assembleConfig, ConfigAssembler.assembleSections,
    ConfigAssembler.overridden.
  rewrite Hctx, Hbs.
  destruct ai as [o |]; cbn [bind]; [| eexists; reflexivity].
  destruct (truthy (ConfigAssembler.aiRole o)), (truthy (ConfigAssembler.aiContext o)),
    (truthy (ConfigAssembler.aiDirectives o)), (truthy (ConfigAssembler.aiBuildSeq o));
    cbn [bind]; eexists; reflexivity.
Qed.

(** C8, at inputs where the code departs from it. An answer that is a string
    the tables do not know, but that names a property every object inherits,
    is found by the lookup, so the fallback after [??] is not taken and the
    array method called on the result raises: for the project type in
    [selectSkills], for a stack entry in [selectSkills], for the project type
    in "recommend" mode in [resolveStack]'s callers. A description that is
    not a string raises in [buildRole] and in [selectFromDescription]. *)
Theorem runDecisionTree_throws :
  runDecisionTree {[ "projectType" := VStr "constructor" ]}
    = Throw "TypeError: coreSkills.forEach is not a function" /\
  selectSkills {[ "projectType" := VStr "constructor" ]} 0
    = Throw "TypeError: coreSkills.forEach is not a function" /\
  runDecisionTree {[ "stackTech" := VArr [VStr "toString"] ]}
    = Throw "TypeError: techSkills.forEach is not a function" /\
  runDecisionTree {[ "deployment" := VStr "valueOf" ]}
    = Throw "TypeError: deploySkills.forEach is not a function" /\
  runDecisionTree (<["stackApproach" := VStr "recommend"]> {[ "projectType" := VStr "constructor" ]})
    = Throw "TypeError: stack.map is not a function" /\
  runDecisionTree {[ "projectDescription" := VNum 42 ]}
    = Throw "TypeError: answers.projectDescription?.trim is not a function" /\
  selectFromDescription (VNum 42) = Throw "TypeError: description.toLowerCase is not a function".
Proof.
  repeat split; vm_compute; reflexivity.
Qed.

(** ** The build sequence *)

Import ConfigAssembler.

(** C7. On the scenario the tier is 1, the flat skill list is the nine names
    of the specification in their order, and the build sequence has a
    security step, which names input validation and the auth middleware and
    has no CORS, secrets or encryption clause. *)
Theorem api_backend_scenario :
  determineTier apiBackendScenario = 1 /\
  selectSkills apiBackendScenario 1 =
    Ok [ "designing-rest-apis"; "request-validation"; "api-error-handling";
         "nodejs-async-patterns"; "express-middleware";
         "database-query-patterns"; "migration-management";
         "validating-user-input"; "deploying-to-aws" ] /\
  exists (result : DecisionTreeResult) (steps : list string) (sequence : string),
    runDecisionTree apiBackendScenario = Ok result /\
    guardrailTier result = 1 /\
    [ "designing-rest-apis"; "request-validation"; "api-error-handling";
      "nodejs-async-patterns"; "express-middleware";
      "database-query-patterns"; "migration-management";
      "validating-user-input"; "deploying-to-aws" ] `prefix_of` DecisionTree.skills result /\
    buildSteps apiBackendScenario result = Ok steps /\
    steps !! 7 = Some (buildSecurityStep apiBackendScenario (guardrailTier result)) /\
    buildSecurityStep apiBackendScenario (guardrailTier result) =
      "Security hardening pass: verify input validation on all user-facing fields, auth middleware protecting all authenticated routes; run a dependency audit before deploying" /\
    includes (toLowerCase (buildSecurityStep apiBackendScenario (guardrailTier result))) "cors" = false /\
    includes (toLowerCase (buildSecurityStep apiBackendScenario (guardrailTier result))) "encrypt" = false /\
    includes (toLowerCase (buildSecurityStep apiBackendScenario (guardrailTier result))) "secret" = false /\
    buildSequence apiBackendScenario result = Ok sequence /\
    includes sequence
      ("8. " +:+ buildSecurityStep apiBackendScenario (guardrailTier result)) = true /\
    includes (toLowerCase sequence) "cors" = false /\
    includes (toLowerCase sequence) "encrypt" = false.
Proof.
  split; [vm_compute; reflexivity |]. split; [vm_compute; reflexivity |].
  eexists. eexists. eexists.
  split; [vm_compute; reflexivity |].
  split; [reflexivity |].
  split; [by exists [] |].
  split; [vm_compute; reflexivity |].
  split; [vm_compute; reflexivity |].
  split; [vm_compute; reflexivity |].
  split; [vm_compute; reflexivity |].
  split; [vm_compute; reflexivity |].
  split; [vm_compute; reflexivity |].
  split; [vm_compute; reflexivity |].
  split; [vm_compute; reflexivity |].
  split; vm_compute; reflexivity.
Qed.

(** ** Overrides *)

Lemma truthy_text (txt : string) : txt <> "" -> truthy (VStr txt) = true.
Proof.
  intros Hne. simpl. apply negb_true_iff. by apply String.eqb_neq.
Qed.

Lemma assembleSections_roleOnly (a : answers) (result : DecisionTreeResult) (today txt : string) :
  txt <> "" ->
  assembleSections a result (Some (roleOnly txt)) today =
    let* contextSection := sectionProjectContext a in
    let* buildSeqSection := sectionBuildSequence a result in
    Ok [ header result (Some (roleOnly txt)) today;
         "## Role" +:+ nl +:+ nl +:+ txt;
         contextSection;
         sectionTechStack a result;
         sectionBehavioralDirectives result;
         sectionGuardrails result;
         sectionSkillPacks result;
         buildSeqSection ].
Proof.
  intros Hne. unfold assembleSections, overridden.
  cbn [roleOnly aiRole aiContext aiDirectives aiBuildSeq].
  rewrite (truthy_text txt Hne). cbn [truthy toStr bind]. reflexivity.
Qed.

Lemma assembleSections_template (a : answers) (result : DecisionTreeResult) (today : string) :
  assembleSections a result None today =
    let* contextSection := sectionProjectContext a in
    let* buildSeqSection := sectionBuildSequence a result in
    Ok [ header result None today;
         sectionRole result;
         contextSection;
         sectionTechStack a result;
         sectionBehavioralDirectives result;
         sectionGuardrails result;
         sectionSkillPacks result;
         buildSeqSection ].
Proof. reflexivity. Qed.

Lemma assembleSections_deterministic (a : answers) (result : DecisionTreeResult)
    (ai : option AiSections) (today : string) (sections : list string) :
  assembleSections a result ai today = Ok sections ->
  length sections = 8 /\
  sections !! 3 = Some (sectionTechStack a result) /\
  sections !! 5 = Some (sectionGuardrails result) /\
  sections !! 6 = Some (sectionSkillPacks result).
Proof.
  unfold assembleSections. intros Hrun.
  destruct (overridden ai aiRole _ _) as [s1 | e]; [| discriminate]. cbn [bind] in Hrun.
  destruct (overridden ai aiContext _ _) as [s2 | e]; [| discriminate]. cbn [bind] in Hrun.
  destruct (overridden ai aiDirectives _ _) as [s3 | e]; [| discriminate]. cbn [bind] in Hrun.
  destruct (overridden ai aiBuildSeq _ _) as [s4 | e]; [| discriminate]. cbn [bind] in Hrun.
  injection Hrun as <-. repeat split.
Qed.

(** C6. With an override record in which only [role] is set, to a non-empty
    string, the assembled document has the override text, verbatim, under the
    "## Role" heading, and every section after it, the Tech Stack, Security
    Guardrails and Skill Packs sections among them, is the one the template
    gives without overrides; the document is assembled exactly when the
    template one is. Whatever the override record holds, those three sections
    are the deterministic ones. *)
Theorem role_override_precedence
    (a : answers) (result : DecisionTreeResult) (today txt : string) :
  txt <> "" ->
  (forall sections,
     assembleSections a result (Some (roleOnly txt)) today = Ok sections ->
     assembleConfig a result (Some (roleOnly txt)) today = Ok (String.concat divider sections) /\
     sections !! 1 = Some ("## Role" +:+ nl +:+ nl +:+ txt) /\
     exists template,
       assembleSections a result None today = Ok template /\
       sections !! 3 = template !! 3 /\
       sections !! 5 = template !! 5 /\
       sections !! 6 = template !! 6 /\
       forall i, 2 <= i -> sections !! i = template !! i) /\
  (returns (assembleSections a result (Some (roleOnly txt)) today) =
   returns (assembleSections a result None today)) /\
  (forall ai sections,
     assembleSections a result ai today = Ok sections ->
     sections !! 3 = Some (sectionTechStack a result) /\
     sections !! 5 = Some (sectionGuardrails result) /\
     sections !! 6 = Some (sectionSkillPacks result)).
Proof.
  intros Hne. split; [| split].
  - intros sections Hrun. split.
    { unfold assembleConfig. by rewrite Hrun. }
    rewrite (assembleSections_roleOnly a result today txt Hne) in Hrun.
    rewrite assembleSections_template.
    destruct (sectionProjectContext a) as [ctx | e]; [| discriminate]. cbn [bind] in *.
    destruct (sectionBuildSequence a result) as [bs | e]; [| discriminate]. cbn [bind] in *.
    injection Hrun as <-. split; [reflexivity |].
    eexists. split; [reflexivity |]. repeat split.
    intros [| [| i]] Hi; [lia | lia | reflexivity].
  - rewrite (assembleSections_roleOnly a result today txt Hne), assembleSections_template.
    destruct (sectionProjectContext a) as [ctx | e]; [| reflexivity]. cbn [bind].
    by destruct (sectionBuildSequence a result).
  - intros ai sections Hrun.
    by destruct (assembleSections_deterministic a result ai today sections Hrun) as (_ & H).
Qed.

Lemma role_override_precedence_witness :
  exists result sections,
    runDecisionTree apiBackendScenario = Ok result /\
    assembleSections apiBackendScenario result (Some (roleOnly "You review pull requests."))
      "2026-01-01" = Ok sections /\
    sections !! 1 = Some ("## Role" +:+ nl +:+ nl +:+ "You review pull requests.") /\
    sections !! 5 = Some (sectionGuardrails result).
Proof.
  eexists. eexists.
  split; [vm_compute; reflexivity |].
  split; [vm_compute; reflexivity |].
  match goal with
  | |- ?sections !! 1 = _ /\ _ = Some (sectionGuardrails ?result) =>
      destruct (role_override_precedence apiBackendScenario result "2026-01-01"
                  "You review pull requests." ltac:(discriminate)) as (Hrole & _ & Hfixed);
      destruct (Hrole sections ltac:(vm_compute; reflexivity)) as (_ & Hrole1 & _);
      destruct (Hfixed (Some (roleOnly "You review pull requests.")) sections
                  ltac:(vm_compute; reflexivity)) as (_ & Hguard & _)
  end.
  split; [exact Hrole1 | exact Hguard].
Defined.

(** ** The deployment step *)














(** * Further properties *)

(** ** The guardrail engine *)

Ltac flag_cases H :=
  unfold SECURITY_FLAGS in H;
  repeat (apply elem_of_cons in H as [-> | H]); [.. | by apply elem_of_nil in H].

(** X1. Answering "yes" to one more security question never lowers the tier. *)
Theorem determineTier_monotone (a : answers) (key : string) :
  key ∈ SECURITY_FLAGS -> determineTier a <= determineTier (<[key := VStr "yes"]> a).
Proof.
  intros Hkey. flag_cases Hkey;
    unfold determineTier; rewrite !countSecurityYes_flags;
    rewrite get_insert; rewrite !get_insert_ne by discriminate;
    destruct (isStr (get a "hasAuth") "yes"), (isStr (get a "storesData") "yes"),
      (isStr (get a "hasPayments") "yes"), (isStr (get a "hasSensitiveData") "yes");
    simpl; lia.
Qed.

Lemma determineTier_monotone_witness :
  determineTier (<["storesData" := VStr "yes"]> (<["hasAuth" := VStr "yes"]> ∅)) >=
  determineTier (<["hasAuth" := VStr "yes"]> ∅).
Proof.
  apply (determineTier_monotone (<["hasAuth" := VStr "yes"]> ∅) "storesData").
  unfold SECURITY_FLAGS. set_solver.
Defined.

(** X2. The result record is well formed for every answers map: the label and the
    colour are those of the tier (the index is always inside the two
    four-entry tables), [byTier] has one bucket per tier up to the tier, no
    instruction is listed twice, the count is at most four, the tier is 0
    exactly when no flag is "yes", and two or more flags give tier 2 at least. *)
Theorem determineGuardrails_well_formed (a : answers) :
  let r := determineGuardrails a in
  GuardrailEngine.label r = Some (nth (GuardrailEngine.tier r) TIER_LABELS "") /\
  GuardrailEngine.color r = Some (nth (GuardrailEngine.tier r) TIER_COLORS "") /\
  length (byTier r) = GuardrailEngine.tier r + 1 /\
  NoDup (instructions r) /\
  yesCount r <= 4 /\
  (GuardrailEngine.tier r = 0 <-> yesCount r = 0) /\
  (2 <= yesCount r -> 2 <= GuardrailEngine.tier r) /\
  length (instructions r) =
    nth (GuardrailEngine.tier r) [4; 8; 13; 18] 0.
Proof.
  cbv zeta. unfold determineGuardrails.
  cbn [GuardrailEngine.label GuardrailEngine.color GuardrailEngine.tier byTier instructions yesCount].
  pose proof (determineTier_le a) as Hle. pose proof (countSecurityYes_le a) as Hcount.
  assert (determineTier a = 0 <-> countSecurityYes a = 0) as Hzero.
  { unfold determineTier. rewrite countSecurityYes_flags.
    destruct (isStr (get a "hasAuth") "yes"), (isStr (get a "storesData") "yes"),
      (isStr (get a "hasPayments") "yes"), (isStr (get a "hasSensitiveData") "yes");
      simpl; split; lia. }
  assert (2 <= countSecurityYes a -> 2 <= determineTier a) as Htwo.
  { unfold determineTier. destruct (_ || _); [lia |].
    intros H2. apply Nat.leb_le in H2. rewrite H2. lia. }
  assert (NoDup (concat (take (determineTier a + 1) TIER_INSTRUCTIONS))) as Hnodup.
  { destruct (determineTier a) as [| [| [| [| n]]]]; [| | | | lia];
      apply (bool_decide_unpack _); vm_compute; reflexivity. }
  destruct (determineTier a) as [| [| [| [| n]]]]; [| | | | lia];
    repeat split; try assumption; try reflexivity; try (apply Hzero); try (apply Htwo).
Qed.

(** ** Strings *)

(** [trim] strips white space beyond ASCII at both ends, keeps it inside
    the text, and leaves U+200B, which is no white space, where it is. *)
Lemma trim_beyond_ascii :
  let nbsp := String "194" (String "160" "") in
  let ideographicSpace := String "227" (String "128" (String "128" "")) in
  let lineSeparator := String "226" (String "128" (String "168" "")) in
  let zeroWidthSpace := String "226" (String "128" (String "139" "")) in
  trim (nbsp +:+ ideographicSpace +:+ " a" +:+ nbsp +:+ "b " +:+ lineSeparator +:+ nbsp)
    = "a" +:+ nbsp +:+ "b" /\
  trim (zeroWidthSpace +:+ "a ") = zeroWidthSpace +:+ "a".
Proof. split; vm_compute; reflexivity. Qed.

Lemma append_cons (c : ascii) (s t : string) : String c s +:+ t = String c (s +:+ t).
Proof. reflexivity. Qed.

Lemma append_nil_r (s : string) : s +:+ "" = s.
Proof. induction s as [| c s IH]; [reflexivity |]. by rewrite append_cons, IH. Qed.

Lemma append_assoc (s t u : string) : (s +:+ t) +:+ u = s +:+ (t +:+ u).
Proof. induction s as [| c s IH]; [reflexivity |]. by rewrite !append_cons, IH. Qed.

Lemma prefix_refl (s : string) : String.prefix s s = true.
Proof.
  induction s as [| c s IH]; [reflexivity |]. simpl.
  destruct (ascii_dec c c); [exact IH | contradiction].
Qed.

Lemma prefix_append (kw s t : string) :
  String.prefix kw s = true -> String.prefix kw (s +:+ t) = true.
Proof.
  revert s. induction kw as [| c kw IH]; intros s H; [by destruct (s +:+ t) |].
  destruct s as [| d s]; [discriminate |]. rewrite append_cons. simpl in *.
  destruct (ascii_dec c d); [by apply IH | discriminate].
Qed.

Lemma prefix_append_self (s t : string) : String.prefix s (s +:+ t) = true.
Proof. apply prefix_append, prefix_refl. Qed.

Lemma includes_unfold (s kw : string) :
  includes s kw =
    String.prefix kw s || match s with
                          | EmptyString => false
                          | String _ rest => includes rest kw
                          end.
Proof. by destruct s. Qed.

Lemma includes_prefix (s kw : string) : String.prefix kw s = true -> includes s kw = true.
Proof. intros H. rewrite includes_unfold, H. reflexivity. Qed.

Lemma includes_self (s : string) : includes s s = true.
Proof. apply includes_prefix, prefix_refl. Qed.

Lemma includes_append_r (s t kw : string) : includes t kw = true -> includes (s +:+ t) kw = true.
Proof.
  intros H. induction s as [| c s IH]; [exact H |].
  rewrite append_cons, includes_unfold, IH. apply orb_true_r.
Qed.

Lemma includes_append_l (s t kw : string) : includes s kw = true -> includes (s +:+ t) kw = true.
Proof.
  induction s as [| c s IH]; intros H.
  - rewrite includes_unfold, orb_false_r in H. by apply includes_prefix, (prefix_append kw "" t).
  - rewrite includes_unfold in H. apply orb_true_iff in H as [H | H].
    + by apply includes_prefix, prefix_append.
    + rewrite append_cons, includes_unfold, (IH H). apply orb_true_r.
Qed.

Lemma concat_cons (sep x : string) (rest : list string) :
  String.concat sep (x :: rest) =
    match rest with
    | [] => x
    | _ => x +:+ sep +:+ String.concat sep rest
    end.
Proof. by destruct rest. Qed.

Lemma includes_concat (sep : string) (items : list string) (x : string) :
  x ∈ items -> includes (String.concat sep items) x = true.
Proof.
  induction items as [| y items IH]; intros Hin; [by apply elem_of_nil in Hin |].
  rewrite concat_cons. apply elem_of_cons in Hin as [-> | Hin].
  - destruct items; [apply includes_self | apply includes_append_l, includes_self].
  - destruct items as [| z items]; [by apply elem_of_nil in Hin |].
    by apply includes_append_r, includes_append_r, IH.
Qed.

(** ** The role builder *)

(** X3. [joinNatural] loses no item: every item of the list is part of the
    joined text. *)
Theorem joinNatural_keeps_items (arr : list string) (x : string) :
  x ∈ arr -> includes (joinNatural arr) x = true.
Proof.
  intros Hin. destruct arr as [| a [| b [| c rest]]].
  - by apply elem_of_nil in Hin.
  - apply list_elem_of_singleton in Hin as ->. apply includes_self.
  - unfold joinNatural. apply elem_of_cons in Hin as [-> | Hin].
    + apply includes_append_l, includes_self.
    + apply list_elem_of_singleton in Hin as ->.
      apply includes_append_r, includes_append_r, includes_self.
  - unfold joinNatural.
    assert (a :: b :: c :: rest <> []) as Hne by discriminate.
    rewrite (app_removelast_last "" Hne) in Hin.
    apply elem_of_app in Hin as [Hin | Hin].
    + by apply includes_append_l, includes_concat.
    + apply list_elem_of_singleton in Hin as ->.
      apply includes_append_r, includes_append_r, includes_self.
Qed.

Lemma joinNatural_keeps_items_witness :
  includes (joinNatural ["React"; "Node.js"; "PostgreSQL"]) "Node.js" = true.
Proof. apply joinNatural_keeps_items. set_solver. Defined.

Ltac in_list := repeat (apply elem_of_cons; first [by left | right]).

Lemma resolveStack_insert_ne (a : answers) (key : string) (v : value) :
  key ∉ ["projectType"; "stackApproach"; "stackTech"] ->
  resolveStack (<[key := v]> a) = resolveStack a.
Proof.
  intros Hkey. unfold resolveStack.
  rewrite !get_insert_ne by (intros ->; apply Hkey; in_list). reflexivity.
Qed.

(** X4. The role reads seven answers and nothing else: changing any other answer
    (the storesData flag, the deployment target, the LLM target, ...) changes
    neither the role nor its components. *)
Theorem buildRole_frame (a : answers) (key : string) (v : value) :
  key ∉ ["projectType"; "stackApproach"; "stackTech"; "hasAuth"; "hasPayments";
         "hasSensitiveData"; "projectDescription"] ->
  buildRole (<[key := v]> a) = buildRole a /\
  buildRoleComponents (<[key := v]> a) = buildRoleComponents a.
Proof.
  intros Hkey.
  assert (buildRole (<[key := v]> a) = buildRole a) as Hrole.
  { unfold buildRole, buildSecuritySpecs.
    rewrite resolveStack_insert_ne by (intros Hin; apply Hkey; revert Hin; rewrite !elem_of_cons; tauto).
    rewrite !get_insert_ne by (intros ->; apply Hkey; in_list). reflexivity. }
  split; [exact Hrole |].
  unfold buildRoleComponents, buildSecuritySpecs. rewrite Hrole.
  rewrite resolveStack_insert_ne by (intros Hin; apply Hkey; revert Hin; rewrite !elem_of_cons; tauto).
  rewrite !get_insert_ne by (intros ->; apply Hkey; in_list). reflexivity.
Qed.

Lemma buildRole_frame_witness :
  buildRole (<["storesData" := VStr "yes"]> apiBackendScenario) = buildRole apiBackendScenario.
Proof.
  apply (buildRole_frame apiBackendScenario "storesData" (VStr "yes")).
  intros Hin. repeat (apply elem_of_cons in Hin as [Hin | Hin]; [discriminate Hin |]).
  by apply elem_of_nil in Hin.
Defined.

(** X5. The role is one sentence, "You are a ... .", the role of the same answers
    without a description; a description that is not blank is appended to it,
    trimmed, as a "**Project:**" paragraph, and a blank one changes nothing. *)
Theorem buildRole_shape (a : answers) (r : string) :
  buildRole a = Ok r ->
  exists sentence body : string,
    buildRole (delete "projectDescription" a) = Ok sentence /\
    sentence = "You are a " +:+ body +:+ "." /\
    match get a "projectDescription" with
    | VStr d =>
        if String.eqb (trim d) "" then r = sentence
        else r = sentence +:+ nl +:+ nl +:+ "**Project:** " +:+ trim d
    | _ => r = sentence
    end.
Proof.
  unfold buildRole, buildSecuritySpecs.
  assert (resolveStack (delete "projectDescription" a) = resolveStack a) as ->.
  { unfold resolveStack. by rewrite !get_delete_ne by discriminate. }
  rewrite get_delete. rewrite !get_delete_ne by discriminate.
  destruct (method (resolveStack a) "stack.map") as [stack | e]; [| discriminate].
  cbn [bind]. cbv zeta.
  match goal with
  | |- context [String.concat ", " ([?h] ++ ?rest)] =>
      set (parts := rest); change ([h] ++ parts) with (h :: parts)
  end.
  set (base := text _).
  assert (exists tail, String.concat ", " (("You are a " +:+ base) :: parts) +:+ "." =
                       "You are a " +:+ (base +:+ tail) +:+ ".") as [tail Htail].
  { rewrite concat_cons. destruct parts as [| p parts'].
    - exists "". by rewrite append_nil_r.
    - exists (", " +:+ String.concat ", " (p :: parts')). by rewrite !append_assoc. }
  intros Hrun. eexists. exists (base +:+ tail). split; [reflexivity |].
  split; [exact Htail |].
  destruct (get a "projectDescription") as [| | | | d |]; try discriminate;
    try (by injection Hrun as <-).
  destruct (String.eqb (trim d) ""); cbn [negb] in Hrun; injection Hrun as <-; [reflexivity |].
  by rewrite !append_assoc.
Qed.

Lemma buildRole_shape_witness :
  exists sentence body : string,
    buildRole (delete "projectDescription" (<["projectDescription" := VStr "  A shop.  "]> ∅))
      = Ok sentence /\
    sentence = "You are a " +:+ body +:+ ".".
Proof.
  assert (buildRole (<["projectDescription" := VStr "  A shop.  "]> ∅) =
          Ok ("You are a Senior Software Engineer." +:+ nl +:+ nl +:+ "**Project:** A shop."))
    as Hrun by (vm_compute; reflexivity).
  destruct (buildRole_shape _ _ Hrun) as (sentence & body & H1 & H2 & _).
  exists sentence, body. by split.
Defined.

(** X6. A stack entry without a label is dropped from the role without a trace:
    the role is the one of the stack without that entry. *)
Theorem buildRole_drops_unlabelled (a : answers) (before after : list value) (t : value) :
  get a "stackApproach" <> VStr "recommend" ->
  get a "stackTech" = VArr (before ++ t :: after) ->
  readProperty STACK_LABELS t = Missing ->
  buildRole a = buildRole (<["stackTech" := VArr (before ++ after)]> a).
Proof.
  intros Hmode Hstack Hmissing. apply isStr_false in Hmode.
  unfold buildRole, buildSecuritySpecs, resolveStack.
  rewrite get_insert. rewrite !get_insert_ne by discriminate. rewrite Hmode, Hstack.
  cbn [method bind]. cbv zeta.
  assert (stackSpecsOf (before ++ t :: after) = stackSpecsOf (before ++ after)) as ->;
    [| reflexivity].
  unfold stackSpecsOf. rewrite !map_app, !List.filter_app. cbn [List.map List.filter].
  by rewrite Hmissing.
Qed.

Lemma buildRole_drops_unlabelled_witness :
  buildRole (<["stackTech" := VArr [VStr "react"; VStr "htmx"; VStr "go"]]> ∅) =
  buildRole (<["stackTech" := VArr [VStr "react"; VStr "go"]]>
               (<["stackTech" := VArr [VStr "react"; VStr "htmx"; VStr "go"]]> ∅)).
Proof.
  apply (buildRole_drops_unlabelled
           (<["stackTech" := VArr [VStr "react"; VStr "htmx"; VStr "go"]]> ∅)
           [VStr "react"] [VStr "go"] (VStr "htmx")).
  - vm_compute. discriminate.
  - vm_compute. reflexivity.
  - vm_compute. reflexivity.
Defined.

(** ** The skill selector, track by track *)

Lemma addAll_app (st : selection) (l1 l2 : list string) :
  addAll st (l1 ++ l2) = addAll (addAll st l1) l2.
Proof. unfold addAll. apply foldl_app. Qed.

Lemma method_listOr (p : property (list string)) (call : string) (l : list string) :
  method (orElse p []) call = Ok l -> l = listOr p.
Proof. unfold listOr. destruct p; simpl; congruence. Qed.

Lemma addStackSkills_names (stack : list value) (st st' : selection) :
  addStackSkills st stack = Ok st' -> st' = addAll st (stackSkillNames stack).
Proof.
  revert st. induction stack as [| tech stack IH]; intros st Hrun; simpl in Hrun.
  - by injection Hrun as <-.
  - destruct (method _ _) as [techSkills | e] eqn:Htech; [| discriminate]. simpl in Hrun.
    apply method_listOr in Htech as ->.
    unfold stackSkillNames. cbn [flat_map]. rewrite addAll_app. by apply IH.
Qed.

(** The state [selectSkills] ends in is the accumulator fed, in this order,
    with the names of the five tracks. *)
Lemma selectState_names (a : answers) (tier : nat) (st : selection) :
  selectState a tier = Ok st ->
  exists stack described,
    resolveStack a = Own stack /\
    selectFromDescription (get a "projectDescription") = Ok described /\
    st = addAll start (projectSkills a ++ stackSkillNames stack ++ guardrailChoices a tier
                       ++ described ++ deploymentSkills a).
Proof.
  unfold selectState. intros Hrun.
  destruct (method (orElse (readProperty PROJECT_TYPE_SKILLS _) _) _) as [coreSkills | e] eqn:Hcore;
    [| discriminate]. cbn [bind] in Hrun.
  destruct (resolveStack a) as [stack | key |] eqn:Hstack; try discriminate.
  cbn [method bind] in Hrun.
  destruct (addStackSkills _ stack) as [st2 | e] eqn:Hst2; [| discriminate]. cbn [bind] in Hrun.
  destruct (selectFromDescription _) as [described | e]; [| discriminate]. cbn [bind] in Hrun.
  destruct (method (orElse (readProperty DEPLOYMENT_SKILLS _) _) _) as [deploySkills | e] eqn:Hdep;
    [| discriminate]. cbn [bind] in Hrun.
  injection Hrun as <-. exists stack, described. split; [reflexivity |]. split; [reflexivity |].
  apply method_listOr in Hcore as ->. apply method_listOr in Hdep as ->.
  apply addStackSkills_names in Hst2 as ->.
  rewrite addGuardrailSkills_addAll. by rewrite !addAll_app.
Qed.

Lemma selectSkills_elem (a : answers) (tier : nat) (all : list string) :
  selectSkills a tier = Ok all ->
  exists stack described,
    resolveStack a = Own stack /\
    selectFromDescription (get a "projectDescription") = Ok described /\
    forall x, x ∈ all <->
      x ∈ projectSkills a \/ x ∈ stackSkillNames stack \/ x ∈ guardrailChoices a tier \/
      x ∈ described \/ x ∈ deploymentSkills a.
Proof.
  unfold selectSkills. destruct (selectState a tier) as [st | e] eqn:Hst; [| discriminate].
  cbn [bind]. intros [= <-].
  destruct (selectState_names a tier st Hst) as (stack & described & Hs & Hd & ->).
  exists stack, described. split; [exact Hs |]. split; [exact Hd |].
  intros x. rewrite addAll_elem by apply start_consistent.
  cbn [SkillSelector.skills start]. rewrite !elem_of_app, elem_of_nil. tauto.
Qed.

Lemma selectSkills_NoDup (a : answers) (tier : nat) (all : list string) :
  selectSkills a tier = Ok all -> NoDup all.
Proof.
  unfold selectSkills. destruct (selectState a tier) as [st | e] eqn:Hst; [| discriminate].
  intros [= <-]. by apply selectState_consistent in Hst as [Hnd _].
Qed.

(** *** The flat list and its groups *)

Lemma inList_elem (x : string) (l : list string) : inList x l = true <-> x ∈ l.
Proof.
  unfold inList. rewrite existsb_exists. split.
  - intros (y & Hy & Heq). apply String.eqb_eq in Heq. subst. by apply list_elem_of_In.
  - intros Hx. exists x. split; [by apply list_elem_of_In | apply String.eqb_refl].
Qed.

Lemma filter_filter_and {A : Type} (P Q : A -> bool) (l : list A) :
  List.filter P (List.filter Q l) = List.filter (fun y => Q y && P y) l.
Proof.
  induction l as [| y l IH]; [reflexivity |]. cbn [List.filter].
  destruct (Q y); cbn [andb List.filter]; [| exact IH]. destruct (P y); by rewrite IH.
Qed.

(** The accumulator after [forEach(add)]: what it held, then the new names
    of the list in the order of their first occurrence. *)
Lemma addAll_keepFirst (names : list string) (st : selection) :
  consistent st ->
  SkillSelector.skills (addAll st names) =
    SkillSelector.skills st ++
    List.filter (fun x => negb (inList x (SkillSelector.skills st))) (keepFirst names).
Proof.
  revert st. induction names as [| x names IH]; intros st Hst.
  - cbn. by rewrite app_nil_r.
  - change (addAll st (x :: names)) with (addAll (add st x) names).
    rewrite (IH _ (add_consistent st x Hst)), (add_skills st x Hst).
    cbn [keepFirst List.filter]. destruct (decide (x ∈ SkillSelector.skills st)) as [Hin | Hout].
    + rewrite (proj2 (inList_elem _ _) Hin). cbn [negb]. f_equal.
      rewrite filter_filter_and. apply filter_ext_in. intros y _.
      destruct (String.eqb_spec y x) as [-> | Hne]; cbn [negb andb]; [| reflexivity].
      by rewrite (proj2 (inList_elem _ _) Hin).
    + assert (inList x (SkillSelector.skills st) = false) as ->.
      { apply not_true_is_false. by rewrite inList_elem. }
      cbn [negb]. rewrite <- app_assoc. cbn [app]. do 2 f_equal.
      rewrite filter_filter_and. apply filter_ext. intros y.
      unfold inList. rewrite existsb_app. cbn [existsb]. rewrite orb_false_r, negb_orb.
      apply andb_comm.
Qed.

Lemma selectSkills_keepFirst (a : answers) (tier : nat) (all : list string) :
  selectSkills a tier = Ok all ->
  exists stack described,
    resolveStack a = Own stack /\
    selectFromDescription (get a "projectDescription") = Ok described /\
    all = keepFirst (projectSkills a ++ stackSkillNames stack ++ guardrailChoices a tier
                     ++ described ++ deploymentSkills a).
Proof.
  unfold selectSkills. destruct (selectState a tier) as [st | e] eqn:Hst; [| discriminate].
  cbn [bind]. intros [= <-].
  destruct (selectState_names a tier st Hst) as (stack & described & Hs & Hd & ->).
  exists stack, described. split; [exact Hs |]. split; [exact Hd |].
  rewrite (addAll_keepFirst _ start start_consistent). cbn [SkillSelector.skills start app].
  induction (keepFirst _) as [| y l IH]; [reflexivity |].
  cbn [List.filter inList existsb negb]. by rewrite IH at 1.
Qed.

Lemma groupByTrack_onTrack (names : list string) :
  groupByTrack names =
    {| g_core := onTrack core names; g_stack := onTrack stack names;
       g_guardrail := onTrack guardrail names; g_deployment := onTrack deployment names |}.
Proof. unfold groupByTrack. by rewrite foldl_push. Qed.

(** C3. The list [selectSkills] returns has no duplicate, and a name stands
    where it was added first: the list is the names the five tracks pass to
    [add], project type, stack, guardrails, description, deployment, in the
    order of their first occurrence; [add] leaves the list as it is for a
    name already in it and appends a new one at the end. The groups of
    [selectSkillsByTrack] are the loop of the function over that list and
    partition it: together they hold each of its names once and nothing
    else, and each group lists its names in the order of the flat list. A
    name that is not in the metadata table has the track core, and the loop
    puts it into the core group and into no other, whatever list it runs
    over. On well-formed answers both functions return. *)
Theorem skills_unique_and_partitioned (a : answers) (tier : nat) :
  (wellFormed a = true ->
     returns (selectSkills a tier) = true /\ returns (selectSkillsByTrack a tier) = true) /\
  (forall (st : selection) (name : string),
     consistent st ->
     SkillSelector.skills (add st name) =
       if decide (name ∈ SkillSelector.skills st) then SkillSelector.skills st
       else SkillSelector.skills st ++ [name]) /\
  (forall all : list string,
     selectSkills a tier = Ok all ->
     NoDup all /\
     (exists stack described,
        resolveStack a = Own stack /\
        selectFromDescription (get a "projectDescription") = Ok described /\
        all = keepFirst (projectSkills a ++ stackSkillNames stack ++ guardrailChoices a tier
                         ++ described ++ deploymentSkills a)) /\
     exists g : Groups,
       selectSkillsByTrack a tier = Ok g /\
       g = groupByTrack all /\
       NoDup (g_core g ++ g_stack g ++ g_guardrail g ++ g_deployment g) /\
       (forall name,
          name ∈ all <-> name ∈ g_core g ++ g_stack g ++ g_guardrail g ++ g_deployment g) /\
       g_core g `sublist_of` all /\ g_stack g `sublist_of` all /\
       g_guardrail g `sublist_of` all /\ g_deployment g `sublist_of` all) /\
  (forall (names : list string) (name : string),
     name ∈ names -> ownProperty SKILL_METADATA name = None ->
     trackOf name = core /\
     name ∈ g_core (groupByTrack names) /\
     name ∉ g_stack (groupByTrack names) ++ g_guardrail (groupByTrack names)
            ++ g_deployment (groupByTrack names)).
Proof.
  split; [| split; [| split]].
  - intros Hwf. destruct (selectSkills_returns a tier Hwf) as [all Hall].
    unfold selectSkillsByTrack. by rewrite Hall.
  - intros st name Hst. by apply add_skills.
  - intros all Hall. pose proof (selectSkills_NoDup a tier all Hall) as Hnodup.
    split; [exact Hnodup |]. split; [by apply selectSkills_keepFirst |].
    exists (groupByTrack all). split.
    { unfold selectSkillsByTrack. by rewrite Hall. }
    split; [reflexivity |]. rewrite groupByTrack_onTrack.
    cbn [g_core g_stack g_guardrail g_deployment].
    destruct (onTrack_partition all Hnodup) as [Hparts Hcover].
    split; [exact Hparts |]. split; [exact Hcover |].
    repeat (split; [apply sublist_filter |]). apply sublist_filter.
  - intros names name Hin Hnone. pose proof (trackOf_unmapped name Hnone) as Htrack.
    split; [exact Htrack |]. rewrite groupByTrack_onTrack.
    cbn [g_core g_stack g_guardrail g_deployment]. split.
    + apply onTrack_elem. by split.
    + rewrite !elem_of_app, !onTrack_elem. rewrite Htrack.
      intros [[_ H] | [[_ H] | [_ H]]]; discriminate H.
Qed.

Lemma skills_unique_and_partitioned_witness :
  returns (selectSkills (<["projectType" := VStr "web-app"]>
            {[ "stackTech" := VArr [VStr "mysql"; VStr "postgres"] ]}) 2) = true /\
  NoDup ["building-web-apps"; "structuring-components"; "integrating-apis";
         "database-query-patterns"; "migration-management";
         "validating-user-input"; "managing-cors-policy"] /\
  "my-own-skill" ∈ g_core (groupByTrack ["building-web-apps"; "my-own-skill"]).
Proof.
  split; [| split].
  - apply (proj1 (skills_unique_and_partitioned
                    (<["projectType" := VStr "web-app"]>
                       {[ "stackTech" := VArr [VStr "mysql"; VStr "postgres"] ]}) 2)).
    vm_compute. reflexivity.
  - apply (proj1 (proj2 (proj2 (skills_unique_and_partitioned
                    (<["projectType" := VStr "web-app"]>
                       {[ "stackTech" := VArr [VStr "mysql"; VStr "postgres"] ]}) 2)))).
    vm_compute. reflexivity.
  - apply (proj2 (proj2 (proj2 (skills_unique_and_partitioned ∅ 0)))
             ["building-web-apps"; "my-own-skill"] "my-own-skill").
    + in_list.
    + vm_compute. reflexivity.
Defined.

(** Whether [selectSkills] returns does not depend on the tier. *)
Lemma selectSkills_returns_any_tier (a : answers) (t1 t2 : nat) :
  returns (selectSkills a t1) = returns (selectSkills a t2).
Proof.
  unfold selectSkills, selectState.
  destruct (method (orElse (readProperty PROJECT_TYPE_SKILLS _) _) _); [| reflexivity].
  cbn [bind]. destruct (method (resolveStack a) _); [| reflexivity]. cbn [bind].
  destruct (addStackSkills _ _); [| reflexivity]. cbn [bind].
  destruct (selectFromDescription _); [| reflexivity]. cbn [bind].
  by destruct (method (orElse (readProperty DEPLOYMENT_SKILLS _) _) _).
Qed.

(** X7. A higher tier only adds skills: every skill selected at a tier is
    selected at every higher tier, and the selection returns at the one
    exactly when it returns at the other. *)
Theorem selectSkills_tier_monotone (a : answers) (t1 t2 : nat) (all1 : list string) :
  t1 <= t2 -> selectSkills a t1 = Ok all1 ->
  exists all2, selectSkills a t2 = Ok all2 /\ all1 ⊆ all2 /\ length all1 <= length all2.
Proof.
  intros Hle Hrun1.
  pose proof (selectSkills_returns_any_tier a t1 t2) as Hret. rewrite Hrun1 in Hret.
  destruct (selectSkills a t2) as [all2 | e] eqn:Hrun2; [| discriminate].
  exists all2. split; [reflexivity |].
  destruct (selectSkills_elem a t1 all1 Hrun1) as (stack & described & Hs & Hd & Hin1).
  destruct (selectSkills_elem a t2 all2 Hrun2) as (stack' & described' & Hs' & Hd' & Hin2).
  rewrite Hs in Hs'. injection Hs' as <-. rewrite Hd in Hd'. injection Hd' as <-.
  assert (all1 ⊆ all2) as Hsub.
  { intros x Hx. apply Hin2. apply Hin1 in Hx.
    destruct Hx as [H | [H | [H | H]]]; [tauto | tauto | | tauto].
    right. right. left. apply guardrailChoices_elem. apply guardrailChoices_elem in H.
    destruct H as [[? ?] | [[? [? ?]] | [[? [? ?]] | [[? ?] | [[? [? ?]] | [? [? ?]]]]]]];
      [left | right; left | right; right; left | right; right; right; left
       | right; right; right; right; left | right; right; right; right; right];
      repeat split; try assumption; lia. }
  split; [exact Hsub |].
  apply submseteq_length, NoDup_submseteq; [| exact Hsub].
  by apply (selectSkills_NoDup a t1).
Qed.

Lemma selectSkills_tier_monotone_witness :
  exists all2, selectSkills apiBackendScenario 3 = Ok all2 /\
    [ "designing-rest-apis"; "request-validation"; "api-error-handling";
      "nodejs-async-patterns"; "express-middleware";
      "database-query-patterns"; "migration-management";
      "validating-user-input"; "deploying-to-aws" ] ⊆ all2.
Proof.
  assert (selectSkills apiBackendScenario 1 =
            Ok [ "designing-rest-apis"; "request-validation"; "api-error-handling";
                 "nodejs-async-patterns"; "express-middleware";
                 "database-query-patterns"; "migration-management";
                 "validating-user-input"; "deploying-to-aws" ]) as Hrun
    by (vm_compute; reflexivity).
  destruct (selectSkills_tier_monotone apiBackendScenario 1 3 _ ltac:(lia) Hrun)
    as (all2 & H2 & Hsub & _).
  exists all2. by split.
Defined.

(** *** Every selected skill is in the metadata table *)

Lemma isKnown_tables :
  forallb (fun kv => forallb isKnown (snd kv)) PROJECT_TYPE_SKILLS = true /\
  forallb (fun kv => forallb isKnown (snd kv)) STACK_SKILLS = true /\
  forallb (fun kv => forallb isKnown (snd kv)) DEPLOYMENT_SKILLS = true /\
  forallb (fun rule => isKnown (skill rule)) DESCRIPTION_KEYWORDS = true.
Proof. repeat split; vm_compute; reflexivity. Qed.

Lemma listOr_Forall (P : string -> bool) (table : list (string * list string)) (key : value) :
  forallb (fun kv => forallb P (snd kv)) table = true ->
  forall x, x ∈ listOr (readProperty table key) -> P x = true.
Proof.
  intros Htable x. unfold listOr, readProperty.
  destruct (ownProperty table (toStr key)) as [l |] eqn:Hown.
  - cbn [orElse]. apply ownProperty_In in Hown as [k Hk].
    rewrite forallb_forall in Htable. specialize (Htable _ Hk). cbn [snd] in Htable.
    rewrite forallb_forall in Htable. intros Hx. by apply Htable, list_elem_of_In.
  - destruct (inList _ _); cbn [orElse]; intros Hx; by apply elem_of_nil in Hx.
Qed.

Lemma stackSkillNames_Forall (P : string -> bool) (stack : list value) :
  forallb (fun kv => forallb P (snd kv)) STACK_SKILLS = true ->
  forall x, x ∈ stackSkillNames stack -> P x = true.
Proof.
  intros Htable x Hx. unfold stackSkillNames in Hx.
  apply list_elem_of_In, in_flat_map in Hx as (tech & _ & Hx).
  by apply (listOr_Forall P STACK_SKILLS tech Htable), list_elem_of_In.
Qed.

Lemma guardrailChoices_Forall (P : string -> bool) (a : answers) (tier : nat) :
  forallb P [ "validating-user-input"; "implementing-auth-patterns"; "managing-cors-policy";
              "managing-secrets-and-env"; "handling-payment-security";
              "data-encryption-patterns" ] = true ->
  forall x, x ∈ guardrailChoices a tier -> P x = true.
Proof.
  intros Hall x Hx. rewrite forallb_forall in Hall. apply Hall.
  apply guardrailChoices_elem in Hx.
  destruct Hx as [[-> _] | [[-> _] | [[-> _] | [[-> _] | [[-> _] | [-> _]]]]]];
    cbn; tauto.
Qed.

Lemma matched_Forall (P : string -> bool) (table : list KeywordRule) (lower : string) :
  forallb (fun rule => P (skill rule)) table = true ->
  forall x,
    x ∈ List.map skill (List.filter (fun rule => existsb (includes lower) (keywords rule)) table) ->
    P x = true.
Proof.
  intros Htable x Hx.
  apply list_elem_of_In, in_map_iff in Hx as (rule & <- & Hrule).
  apply filter_In in Hrule as [Hrule _].
  rewrite forallb_forall in Htable. by apply Htable.
Qed.

Lemma selectFromDescription_cases (v : value) (found : list string) :
  selectFromDescription v = Ok found ->
  found = [] \/
  exists d, v = VStr d /\
    found = List.map skill
              (List.filter (fun rule => existsb (includes (toLowerCase d)) (keywords rule))
                           DESCRIPTION_KEYWORDS).
Proof.
  unfold selectFromDescription.
  destruct (negb (truthy v)); [intros [= <-]; by left |].
  destruct v; try discriminate. intros [= <-]. right. by eexists.
Qed.

Lemma selectFromDescription_Forall (P : string -> bool) (v : value) (found : list string) :
  forallb (fun rule => P (skill rule)) DESCRIPTION_KEYWORDS = true ->
  selectFromDescription v = Ok found -> forall x, x ∈ found -> P x = true.
Proof.
  intros Htable Hrun x Hx.
  apply selectFromDescription_cases in Hrun as [-> | (d & _ & ->)].
  - by apply elem_of_nil in Hx.
  - by apply (matched_Forall P DESCRIPTION_KEYWORDS (toLowerCase d)).
Qed.

Lemma selectSkills_isKnown (a : answers) (tier : nat) (all : list string) :
  selectSkills a tier = Ok all -> forall x, x ∈ all -> isKnown x = true.
Proof.
  intros Hrun.
  destruct (selectSkills_elem a tier all Hrun) as (stack & described & _ & Hd & Hin).
  destruct isKnown_tables as (Hp & Hs & Hdp & Hk).
  intros x Hx. apply Hin in Hx. destruct Hx as [H | [H | [H | [H | H]]]].
  - by apply (listOr_Forall isKnown PROJECT_TYPE_SKILLS (get a "projectType") Hp).
  - by apply (stackSkillNames_Forall isKnown stack Hs).
  - apply (guardrailChoices_Forall isKnown a tier); [vm_compute; reflexivity | exact H].
  - by apply (selectFromDescription_Forall isKnown _ described Hk Hd).
  - by apply (listOr_Forall isKnown DEPLOYMENT_SKILLS (get a "deployment") Hdp).
Qed.

Lemma selectSkills_length (a : answers) (tier : nat) (all : list string) :
  selectSkills a tier = Ok all -> length all <= length SKILL_METADATA.
Proof.
  intros Hrun. pose proof (selectSkills_isKnown a tier all Hrun) as Hknown.
  assert (all ⊆ List.map fst SKILL_METADATA) as Hsub.
  { intros x Hx. specialize (Hknown x Hx). unfold isKnown in Hknown.
    destruct (ownProperty SKILL_METADATA x) as [meta |] eqn:Hown; [| discriminate].
    clear -Hown. induction SKILL_METADATA as [| [k m] table IH]; [discriminate |].
    cbn [ownProperty] in Hown. destruct (String.eqb_spec k x) as [-> | Hne].
    - cbn. apply elem_of_cons. by left.
    - cbn. apply elem_of_cons. right. by apply IH. }
  rewrite <- (length_map fst SKILL_METADATA).
  apply submseteq_length, NoDup_submseteq; [| exact Hsub].
  by apply (selectSkills_NoDup a tier).
Qed.

(** X8. Every skill [selectSkills] returns is a key of the metadata table, so the
    grouped view never needs its default group for them; and there are at
    most as many skills as the table has entries. *)
Theorem selectSkills_known (a : answers) (tier : nat) (all : list string) :
  selectSkills a tier = Ok all ->
  (forall x, x ∈ all -> exists meta, ownProperty SKILL_METADATA x = Some meta /\
                                   trackOf x = track meta) /\
  length all <= length SKILL_METADATA.
Proof.
  intros Hrun. split; [| by apply (selectSkills_length a tier)].
  intros x Hx. pose proof (selectSkills_isKnown a tier all Hrun x Hx) as Hknown.
  unfold isKnown in Hknown.
  destruct (ownProperty SKILL_METADATA x) as [meta |] eqn:Hown; [| discriminate].
  exists meta. split; [reflexivity |].
  unfold trackOf, readProperty. cbn [toStr]. by rewrite Hown.
Qed.

Lemma selectSkills_known_witness :
  length [ "designing-rest-apis"; "request-validation"; "api-error-handling";
           "nodejs-async-patterns"; "express-middleware";
           "database-query-patterns"; "migration-management";
           "validating-user-input"; "deploying-to-aws" ] <= length SKILL_METADATA.
Proof.
  apply (proj2 (selectSkills_known apiBackendScenario 1 _ ltac:(vm_compute; reflexivity))).
Defined.

(** *** The order of the flat list *)

Lemma addAll_extends (names : list string) (st : selection) :
  consistent st ->
  exists extra, SkillSelector.skills (addAll st names) = SkillSelector.skills st ++ extra /\
                forall x, x ∈ extra -> x ∈ names.
Proof.
  intros Hst. destruct (addAll_prefix names st) as [extra Hextra].
  exists extra. split; [exact Hextra |].
  intros x Hx. pose proof (addAll_consistent names st Hst) as [Hnodup _].
  rewrite Hextra in Hnodup. apply NoDup_app in Hnodup as (_ & Hdisj & _).
  assert (x ∈ SkillSelector.skills (addAll st names)) as Hin
    by (rewrite Hextra; apply elem_of_app; by right).
  apply addAll_elem in Hin as [Hin | Hin]; [| assumption | assumption].
  by destruct (Hdisj x Hin).
Qed.

Lemma addAll_fresh (names : list string) (st : selection) :
  consistent st -> NoDup names -> (forall x, x ∈ names -> x ∉ SkillSelector.skills st) ->
  SkillSelector.skills (addAll st names) = SkillSelector.skills st ++ names.
Proof.
  revert st. induction names as [| name names IH]; intros st Hst Hnodup Hfresh.
  - by rewrite app_nil_r.
  - apply NoDup_cons in Hnodup as [Hname Hnodup].
    unfold addAll. cbn [foldl]. fold (addAll (add st name) names).
    assert (SkillSelector.skills (add st name) = SkillSelector.skills st ++ [name]) as Hadd.
    { rewrite add_skills by assumption.
      destruct (decide (name ∈ SkillSelector.skills st)) as [Hin | _]; [| reflexivity].
      destruct (Hfresh name); [by left | exact Hin]. }
    rewrite IH; [| by apply add_consistent | exact Hnodup |].
    + by rewrite Hadd, <- app_assoc.
    + intros x Hx. rewrite Hadd, elem_of_app, list_elem_of_singleton.
      intros [Hin | ->]; [| contradiction].
      destruct (Hfresh x); [by right | exact Hin].
Qed.

Lemma track_tables :
  forallb (fun kv => forallb (onlyOn core) (snd kv)) PROJECT_TYPE_SKILLS = true /\
  forallb (fun kv => forallb midTrack (snd kv)) STACK_SKILLS = true /\
  forallb (fun kv => forallb (onlyOn deployment) (snd kv)) DEPLOYMENT_SKILLS = true /\
  forallb (fun rule => midTrack (skill rule)) DESCRIPTION_KEYWORDS = true /\
  forallb (fun kv => bool_decide (NoDup (snd kv))) PROJECT_TYPE_SKILLS = true /\
  forallb (fun kv => bool_decide (NoDup (snd kv))) DEPLOYMENT_SKILLS = true.
Proof. repeat split; vm_compute; reflexivity. Qed.

Lemma listOr_NoDup (table : list (string * list string)) (key : value) :
  forallb (fun kv => bool_decide (NoDup (snd kv))) table = true ->
  NoDup (listOr (readProperty table key)).
Proof.
  intros Htable. unfold listOr, readProperty.
  destruct (ownProperty table (toStr key)) as [l |] eqn:Hown.
  - cbn [orElse]. apply ownProperty_In in Hown as [k Hk].
    rewrite forallb_forall in Htable. specialize (Htable _ Hk).
    by apply bool_decide_eq_true in Htable.
  - destruct (inList _ _); cbn [orElse]; constructor.
Qed.

Lemma onTrack_all (t : Track) (names : list string) :
  (forall x, x ∈ names -> trackOf x = t) -> onTrack t names = names.
Proof.
  induction names as [| name names IH]; intros Hall; [reflexivity |].
  unfold onTrack. rewrite filter_cons_True by (apply Hall; by left).
  f_equal. apply IH. intros x Hx. apply Hall. by right.
Qed.

Lemma onTrack_none (t : Track) (names : list string) :
  (forall x, x ∈ names -> trackOf x <> t) -> onTrack t names = [].
Proof.
  induction names as [| name names IH]; intros Hall; [reflexivity |].
  unfold onTrack. rewrite filter_cons_False by (apply Hall; by left).
  apply IH. intros x Hx. apply Hall. by right.
Qed.

Lemma onTrack_app (t : Track) (l1 l2 : list string) :
  onTrack t (l1 ++ l2) = onTrack t l1 ++ onTrack t l2.
Proof. unfold onTrack. apply filter_app. Qed.

(** X9. The flat list starts with the skills of the project type, in the order
    of their table entry, and ends with the skill of the deployment target;
    what lies between belongs to the stack and guardrail groups. The core and
    deployment groups of the grouped view are those two ends. *)
Theorem selectSkills_core_first_deployment_last (a : answers) (tier : nat) (all : list string) :
  selectSkills a tier = Ok all ->
  exists mid,
    all = projectSkills a ++ mid ++ deploymentSkills a /\
    (forall x, x ∈ mid -> trackOf x = stack \/ trackOf x = guardrail) /\
    onTrack core all = projectSkills a /\
    onTrack deployment all = deploymentSkills a.
Proof.
  unfold selectSkills. destruct (selectState a tier) as [st | e] eqn:Hst; [| discriminate].
  cbn [bind]. intros [= <-].
  destruct (selectState_names a tier st Hst) as (stk & described & _ & Hd & ->).
  destruct track_tables as (Hcore & Hstack & Hdep & Hkw & Hnd1 & Hnd2).
  assert (forall x, x ∈ projectSkills a -> trackOf x = core) as HP.
  { intros x Hx. apply (bool_decide_eq_true_1 (trackOf x = core)).
    by apply (listOr_Forall (onlyOn core) PROJECT_TYPE_SKILLS (get a "projectType")). }
  assert (forall x, x ∈ deploymentSkills a -> trackOf x = deployment) as HD.
  { intros x Hx. apply (bool_decide_eq_true_1 (trackOf x = deployment)).
    by apply (listOr_Forall (onlyOn deployment) DEPLOYMENT_SKILLS (get a "deployment")). }
  assert (forall x, x ∈ stackSkillNames stk ++ guardrailChoices a tier ++ described ->
                    trackOf x = stack \/ trackOf x = guardrail) as HM.
  { intros x Hx.
    assert (midTrack x = true) as Hmid.
    { rewrite !elem_of_app in Hx. destruct Hx as [Hx | [Hx | Hx]].
      - by apply (stackSkillNames_Forall midTrack stk).
      - apply (guardrailChoices_Forall midTrack a tier); [vm_compute; reflexivity | exact Hx].
      - by apply (selectFromDescription_Forall midTrack _ described Hkw Hd). }
    unfold midTrack, onlyOn in Hmid. apply orb_true_iff in Hmid.
    by rewrite !bool_decide_eq_true in Hmid. }
  rewrite addAll_app.
  assert (SkillSelector.skills (addAll start (projectSkills a)) = projectSkills a) as H1.
  { rewrite addAll_fresh; [reflexivity | apply start_consistent | | ].
    - by apply listOr_NoDup.
    - intros x _ Hx. by apply elem_of_nil in Hx. }
  pose proof (addAll_consistent (projectSkills a) start start_consistent) as Hc1.
  rewrite (app_assoc (stackSkillNames stk)), (app_assoc (stackSkillNames stk ++ _)), addAll_app.
  destruct (addAll_extends (((stackSkillNames stk ++ guardrailChoices a tier) ++ described))
              (addAll start (projectSkills a)) Hc1) as (mid & Hmid & Hsub).
  pose proof (addAll_consistent ((stackSkillNames stk ++ guardrailChoices a tier) ++ described)
                _ Hc1) as Hc2.
  assert (forall x, x ∈ mid -> trackOf x = stack \/ trackOf x = guardrail) as Hmidtrack.
  { intros x Hx. apply HM. rewrite app_assoc. by apply Hsub. }
  rewrite addAll_fresh; [| exact Hc2 | by apply listOr_NoDup |].
  2:{ intros x Hx. rewrite Hmid, H1, elem_of_app. intros [Hin | Hin].
      - apply HP in Hin. apply HD in Hx. congruence.
      - apply Hmidtrack in Hin. apply HD in Hx. destruct Hin; congruence. }
  rewrite Hmid, H1, <- app_assoc.
  exists mid. split; [reflexivity |]. split; [exact Hmidtrack |].
  rewrite !onTrack_app. split.
  - rewrite (onTrack_all core (projectSkills a) HP).
    rewrite (onTrack_none core mid), (onTrack_none core (deploymentSkills a)).
    + by rewrite !app_nil_r.
    + intros x Hx. apply HD in Hx. congruence.
    + intros x Hx. apply Hmidtrack in Hx. destruct Hx; congruence.
  - rewrite (onTrack_all deployment (deploymentSkills a) HD).
    rewrite (onTrack_none deployment mid), (onTrack_none deployment (projectSkills a)).
    + reflexivity.
    + intros x Hx. apply HP in Hx. congruence.
    + intros x Hx. apply Hmidtrack in Hx. destruct Hx; congruence.
Qed.

Lemma selectSkills_core_first_deployment_last_witness :
  exists mid,
    [ "designing-rest-apis"; "request-validation"; "api-error-handling";
      "nodejs-async-patterns"; "express-middleware";
      "database-query-patterns"; "migration-management";
      "validating-user-input"; "deploying-to-aws" ] =
    projectSkills apiBackendScenario ++ mid ++ deploymentSkills apiBackendScenario.
Proof.
  destruct (selectSkills_core_first_deployment_last apiBackendScenario 1 _
              ltac:(vm_compute; reflexivity)) as (mid & Hall & _).
  by exists mid.
Defined.

(** *** Keyword inference *)

Lemma lowerAscii_idem (c : ascii) : lowerAscii (lowerAscii c) = lowerAscii c.
Proof. destruct c as [[] [] [] [] [] [] [] []]; reflexivity. Qed.

Lemma toLowerCase_idem (s : string) : toLowerCase (toLowerCase s) = toLowerCase s.
Proof.
  induction s as [| c s IH]; [reflexivity |]. cbn [toLowerCase]. by rewrite lowerAscii_idem, IH.
Qed.

Lemma toLowerCase_empty (s : string) : String.eqb (toLowerCase s) "" = String.eqb s "".
Proof. by destruct s. Qed.

Lemma filter_sublist {A : Type} (f : A -> bool) (l : list A) : List.filter f l `sublist_of` l.
Proof.
  induction l as [| x l IH]; [constructor |]. cbn [List.filter].
  destruct (f x); [by apply sublist_skip | by apply sublist_cons].
Qed.

Lemma keywords_nonempty :
  forallb (fun rule => forallb (fun kw => negb (String.eqb kw "")) (keywords rule))
          DESCRIPTION_KEYWORDS = true.
Proof. vm_compute. reflexivity. Qed.

Lemma no_hit_in_empty (table : list KeywordRule) :
  forallb (fun rule => forallb (fun kw => negb (String.eqb kw "")) (keywords rule)) table = true ->
  List.filter (fun rule => existsb (includes (toLowerCase "")) (keywords rule)) table = [].
Proof.
  induction table as [| rule table IH]; [reflexivity |].
  cbn [forallb List.filter]. intros Hne. apply andb_true_iff in Hne as [Hrule Htable].
  rewrite (IH Htable).
  assert (existsb (includes (toLowerCase "")) (keywords rule) = false) as ->; [| reflexivity].
  induction (keywords rule) as [| kw kws IHk]; [reflexivity |].
  cbn [forallb existsb] in *. apply andb_true_iff in Hrule as [Hkw Hkws].
  rewrite (IHk Hkws), orb_false_r. destruct kw; [discriminate | reflexivity].
Qed.

Lemma count_hits (x : string) (hit : KeywordRule -> bool) (table : list KeywordRule) :
  length (List.filter (String.eqb x) (List.map skill (List.filter hit table))) =
  length (List.filter (fun rule => String.eqb x (skill rule) && hit rule) table).
Proof.
  induction table as [| rule table IH]; [reflexivity |]. cbn [List.filter].
  destruct (hit rule); cbn [List.map List.filter].
  - destruct (String.eqb x (skill rule)); cbn [andb length]; by rewrite IH.
  - by rewrite andb_false_r.
Qed.

Lemma toLowerCase_ascii (s : string) : isAscii s = true -> isAscii (toLowerCase s) = true.
Proof.
  induction s as [| c s IH]; [reflexivity |]. cbn [isAscii toLowerCase].
  rewrite !andb_true_iff. intros [Hc Hs]. split; [| by apply IH].
  destruct c as [[] [] [] [] [] [] [] []]; first [reflexivity | discriminate Hc].
Qed.

(** X10. The keyword scan of a description of ASCII text. It returns the skill
    of each rule of which a keyword occurs in the lower-cased text, in the
    order of the table and once for each such rule, so that a skill two
    rules name is listed once for each of them that matches; the letter
    case of the description does not matter; and without a description
    (absent, null or empty) it returns nothing. *)
Theorem selectFromDescription_scan (d : string) :
  isAscii d = true ->
  exists found,
    selectFromDescription (VStr d) = Ok found /\
    found = List.map skill
              (List.filter (fun rule => existsb (includes (toLowerCase d)) (keywords rule))
                           DESCRIPTION_KEYWORDS) /\
    (forall x, x ∈ found <->
       exists rule kw, rule ∈ DESCRIPTION_KEYWORDS /\ skill rule = x /\
                       kw ∈ keywords rule /\ includes (toLowerCase d) kw = true) /\
    (forall x,
       length (List.filter (String.eqb x) found) =
       length (List.filter
                 (fun rule => String.eqb x (skill rule) &&
                              existsb (includes (toLowerCase d)) (keywords rule))
                 DESCRIPTION_KEYWORDS)) /\
    isAscii (toLowerCase d) = true /\
    selectFromDescription (VStr (toLowerCase d)) = Ok found /\
    selectFromDescription VUndefined = Ok [] /\
    selectFromDescription VNull = Ok [] /\
    selectFromDescription (VStr "") = Ok [].
Proof.
  intros Hascii.
  set (hit := fun rule => existsb (includes (toLowerCase d)) (keywords rule)).
  exists (List.map skill (List.filter hit DESCRIPTION_KEYWORDS)).
  assert (forall x, x ∈ List.map skill (List.filter hit DESCRIPTION_KEYWORDS) <->
            exists rule kw, rule ∈ DESCRIPTION_KEYWORDS /\ skill rule = x /\
                            kw ∈ keywords rule /\ includes (toLowerCase d) kw = true) as Hiff.
  { intros x. rewrite list_elem_of_In, in_map_iff. split.
    - intros (rule & Hx & Hrule). apply filter_In in Hrule as [Hrule Hhit].
      unfold hit in Hhit. apply existsb_exists in Hhit as (kw & Hkw & Hinc).
      exists rule, kw. rewrite !list_elem_of_In. by repeat split.
    - intros (rule & kw & Hrule & Hx & Hkw & Hinc). exists rule. split; [exact Hx |].
      apply filter_In. split; [by apply list_elem_of_In |].
      unfold hit. apply existsb_exists. exists kw. split; [by apply list_elem_of_In | exact Hinc]. }
  assert (d = "" -> List.filter hit DESCRIPTION_KEYWORDS = []) as Hempty.
  { intros ->. apply no_hit_in_empty, keywords_nonempty. }
  assert (selectFromDescription (VStr d) = Ok (List.map skill (List.filter hit DESCRIPTION_KEYWORDS)))
    as Hrun.
  { unfold selectFromDescription. cbn [truthy]. rewrite negb_involutive.
    destruct (String.eqb_spec d "") as [Hd | Hd]; [| reflexivity].
    by rewrite (Hempty Hd). }
  split; [exact Hrun |]. split; [reflexivity |]. split; [exact Hiff |].
  split; [intros x; apply count_hits |]. split; [by apply toLowerCase_ascii |].
  split; [| by repeat split].
  unfold selectFromDescription. cbn [truthy]. rewrite negb_involutive, toLowerCase_empty.
  destruct (String.eqb_spec d "") as [Hd | Hd].
  - by rewrite (Hempty Hd).
  - by rewrite toLowerCase_idem.
Qed.

Lemma selectFromDescription_scan_witness :
  isAscii "Redis CACHE behind a WebSocket gateway" = true /\
  selectFromDescription (VStr "Redis CACHE behind a WebSocket gateway") =
    Ok ["redis-caching-patterns"; "redis-caching-patterns"].
Proof.
  split; [reflexivity |].
  destruct (selectFromDescription_scan "Redis CACHE behind a WebSocket gateway" eq_refl)
    as (found & Hrun & -> & _).
  exact Hrun.
Defined.

(** *** What the selector reads *)

(** X11. The skill list reads eight answers and nothing else: at a given tier, the
    storesData flag and the LLM target have no influence on it. *)
Theorem selectSkills_frame (a : answers) (tier : nat) (key : string) (v : value) :
  key ∉ ["projectType"; "stackApproach"; "stackTech"; "hasAuth"; "hasPayments";
         "hasSensitiveData"; "projectDescription"; "deployment"] ->
  selectSkills (<[key := v]> a) tier = selectSkills a tier /\
  selectSkillsByTrack (<[key := v]> a) tier = selectSkillsByTrack a tier.
Proof.
  intros Hkey.
  assert (selectSkills (<[key := v]> a) tier = selectSkills a tier) as Hsame.
  { unfold selectSkills, selectState, addGuardrailSkills.
    rewrite resolveStack_insert_ne
      by (intros Hin; apply Hkey; revert Hin; rewrite !elem_of_cons; tauto).
    rewrite !get_insert_ne by (intros ->; apply Hkey; in_list). reflexivity. }
  split; [exact Hsame |]. unfold selectSkillsByTrack. by rewrite Hsame.
Qed.

Lemma selectSkills_frame_witness :
  selectSkills (<["storesData" := VStr "yes"]> apiBackendScenario) 1 =
  selectSkills apiBackendScenario 1.
Proof.
  apply (selectSkills_frame apiBackendScenario 1 "storesData" (VStr "yes")).
  intros Hin. repeat (apply elem_of_cons in Hin as [Hin | Hin]; [discriminate Hin |]).
  by apply elem_of_nil in Hin.
Defined.

(** ** The orchestrator *)

Lemma onTrack_lengths (names : list string) :
  length names =
    length (onTrack core names) + length (onTrack stack names) +
    length (onTrack guardrail names) + length (onTrack deployment names).
Proof.
  induction names as [| name names IH]; [reflexivity |].
  unfold onTrack in *. rewrite !filter_cons.
  destruct (trackOf name); repeat case_decide; try congruence; cbn [length]; lia.
Qed.

(** X12. The fields of a result agree with the components they come from and
    with each other: the tier, label and instructions are the guardrail
    engine's, the role is [buildRole]'s and the [full] of the role components,
    the skills and their groups are the selector's at that tier, the stack is
    the resolved one, and the counts add up: the skill count is the length of
    the skill list and the sum of the four group counts. *)
Theorem runDecisionTree_coherent (a : answers) (result : DecisionTreeResult) :
  runDecisionTree a = Ok result ->
  guardrailTier result = determineTier a /\
  guardrailLabel result = GuardrailEngine.label (determineGuardrails a) /\
  guardrailInstructions result = instructions (determineGuardrails a) /\
  guardrailByTier result = byTier (determineGuardrails a) /\
  buildRole a = Ok (DecisionTree.role result) /\
  full (roleComponents result) = DecisionTree.role result /\
  selectSkills a (determineTier a) = Ok (DecisionTree.skills result) /\
  selectSkillsByTrack a (determineTier a) = Ok (skillsByTrack result) /\
  resolveStack a = Own (resolvedStack result) /\
  skillCount (meta result) = length (DecisionTree.skills result) /\
  skillCount (meta result) =
    coreSkills (meta result) + stackSkills (meta result) +
    guardrailSkills (meta result) + deploySkills (meta result) /\
  metaTier (meta result) = guardrailTier result.
Proof.
  intros Hrun. pose proof (runDecisionTree_stack a result Hrun) as Hstack.
  unfold runDecisionTree in Hrun.
  destruct (buildRole a) as [r | e] eqn:Hrole; [| discriminate]. cbn [bind] in Hrun.
  destruct (buildRoleComponents a) as [c | e] eqn:Hcomp; [| discriminate]. cbn [bind] in Hrun.
  change (GuardrailEngine.tier (determineGuardrails a)) with (determineTier a) in Hrun.
  destruct (selectSkills a (determineTier a)) as [all | e] eqn:Hall; [| discriminate].
  cbn [bind] in Hrun.
  destruct (selectSkillsByTrack a (determineTier a)) as [g | e] eqn:Hg; [| discriminate].
  cbn [bind] in Hrun. injection Hrun as <-.
  cbn [guardrailTier guardrailLabel guardrailInstructions guardrailByTier DecisionTree.role
       roleComponents DecisionTree.skills skillsByTrack resolvedStack meta skillCount
       coreSkills stackSkills guardrailSkills deploySkills metaTier] in *.
  repeat (split; [reflexivity |]).
  split.
  { unfold buildRoleComponents in Hcomp. rewrite Hrole in Hcomp.
    destruct (method (resolveStack a) _); [| discriminate]. cbn [bind] in Hcomp.
    by injection Hcomp as <-. }
  repeat (split; [reflexivity |]). split; [exact Hstack |]. split; [reflexivity |].
  split; [| reflexivity].
  unfold selectSkillsByTrack in Hg. rewrite Hall in Hg. cbn [bind] in Hg.
  injection Hg as <-. rewrite foldl_push. cbn [g_core g_stack g_guardrail g_deployment app].
  apply onTrack_lengths.
Qed.

Lemma runDecisionTree_coherent_witness :
  exists result, runDecisionTree apiBackendScenario = Ok result /\
                 skillCount (meta result) = 9 /\
                 coreSkills (meta result) + stackSkills (meta result) +
                 guardrailSkills (meta result) + deploySkills (meta result) = 9.
Proof.
  assert (exists result, runDecisionTree apiBackendScenario = Ok result) as [result Hrun]
    by (eexists; vm_compute; reflexivity).
  exists result. split; [exact Hrun |].
  destruct (runDecisionTree_coherent apiBackendScenario result Hrun)
    as (_ & _ & _ & _ & _ & _ & Hskills & _ & _ & Hcount & Hsum & _).
  assert (length (DecisionTree.skills result) = 9) as Hnine.
  { assert (selectSkills apiBackendScenario (determineTier apiBackendScenario) =
            Ok [ "designing-rest-apis"; "request-validation"; "api-error-handling";
                 "nodejs-async-patterns"; "express-middleware";
                 "database-query-patterns"; "migration-management";
                 "validating-user-input"; "deploying-to-aws" ]) as Hexp
      by (vm_compute; reflexivity).
    rewrite Hskills in Hexp. by injection Hexp as ->. }
  split; [by rewrite Hcount | by rewrite <- Hsum, Hcount].
Defined.

(** ** The build sequence, step by step *)

(** X14. Which clauses the security step has: input validation from tier 1, the
    auth middleware exactly when hasAuth is "yes", the CORS policy from
    tier 2, the secrets audit and encryption from tier 3; and from tier 1 on
    the list of clauses is never empty. *)
Theorem buildSecurityStep_clauses (a : answers) (tier : nat) :
  let step := buildSecurityStep a tier in
  includes step "input validation" = (1 <=? tier) /\
  includes step "auth middleware" = isStr (get a "hasAuth") "yes" /\
  includes step "CORS policy" = (2 <=? tier) /\
  includes step "secrets audit" = (3 <=? tier) /\
  includes step "encryption" = (3 <=? tier) /\
  length (securityItems a tier) =
    Nat.b2n (1 <=? tier) + Nat.b2n (isStr (get a "hasAuth") "yes") +
    Nat.b2n (2 <=? tier) + Nat.b2n (3 <=? tier) /\
  String.prefix "Security hardening pass: verify " step = true.
Proof.
  cbv zeta. unfold buildSecurityStep, securityItems.
  destruct (1 <=? tier), (2 <=? tier), (3 <=? tier), (isStr (get a "hasAuth") "yes");
    repeat split; vm_compute; reflexivity.
Qed.








Lemma Ok_inj {A : Type} (x y : A) : Ok x = Ok y -> x = y.
Proof. by intros [= ->]. Qed.











(** ** Overrides *)







(** ** The output bundle *)

Lemma slash_split (s t u v : string) :
  noSlash s = true -> noSlash t = true ->
  s +:+ "/" +:+ u = t +:+ "/" +:+ v -> s = t /\ u = v.
Proof.
  revert t. induction s as [| c s IH]; intros [| d t] Hs Ht Heq.
  - injection Heq as Heq. change (u = v) in Heq. by subst.
  - injection Heq as <- _.
    cbn [noSlash] in Ht. by rewrite Ascii.eqb_refl in Ht.
  - injection Heq as -> _.
    cbn [noSlash] in Hs. by rewrite Ascii.eqb_refl in Hs.
  - injection Heq as -> Heq.
    cbn [noSlash] in Hs, Ht. apply andb_true_iff in Hs as [_ Hs], Ht as [_ Ht].
    destruct (IH t Hs Ht Heq) as [-> ->]. by split.
Qed.

Lemma skill_path_inj (s t u v : string) :
  noSlash s = true -> noSlash t = true ->
  "configkit-output/skills/" +:+ s +:+ "/" +:+ u =
  "configkit-output/skills/" +:+ t +:+ "/" +:+ v -> s = t /\ u = v.
Proof.
  intros Hs Ht Heq. apply (inj (String.append "configkit-output/skills/")) in Heq.
  by apply slash_split.
Qed.

Lemma skill_paths_NoDup (names : list string) :
  NoDup names -> (forall s, s ∈ names -> noSlash s = true) ->
  NoDup (flat_map (fun s => [skillDir s; skillFile s]) names).
Proof.
  induction names as [| s names IH]; intros Hnodup Hslash; [constructor |].
  apply NoDup_cons in Hnodup as [Hs Hnodup]. cbn [flat_map app].
  assert (forall p u, p ∈ flat_map (fun s => [skillDir s; skillFile s]) names ->
            p <> "configkit-output/skills/" +:+ s +:+ "/" +:+ u) as Hother.
  { intros p u Hp Heq. apply list_elem_of_In, in_flat_map in Hp as (t & Ht & Hp).
    apply list_elem_of_In in Ht.
    assert (s = t) as <-; [| contradiction].
    assert (noSlash s = true) by (apply Hslash; by left).
    assert (noSlash t = true) by (apply Hslash; by right).
    destruct Hp as [<- | [<- | []]].
    - symmetry in Heq. by apply (skill_path_inj s t u "") in Heq as [-> _].
    - symmetry in Heq. by apply (skill_path_inj s t u "SKILL.md") in Heq as [-> _]. }
  apply NoDup_cons. split.
  - intros Hin. apply elem_of_cons in Hin as [Heq | Hin].
    + apply (skill_path_inj s s "" "SKILL.md") in Heq as [_ Heq];
        [discriminate | |]; apply Hslash; by left.
    + by apply (Hother _ "" Hin).
  - apply NoDup_cons. split.
    + intros Hin. by apply (Hother _ "SKILL.md" Hin).
    + apply IH; [exact Hnodup |]. intros t Ht. apply Hslash. by right.
Qed.

Lemma fileTree_NoDup (out : string) (names : list string) :
  out <> "" -> String.prefix "skills/" out = false ->
  NoDup names -> (forall s, s ∈ names -> noSlash s = true) ->
  NoDup ([ "configkit-output/"; "configkit-output/" +:+ out; "configkit-output/skills/" ] ++
         flat_map (fun s => [skillDir s; skillFile s]) names).
Proof.
  intros Hout Hprefix Hnodup Hslash.
  assert (forall p, p ∈ flat_map (fun s => [skillDir s; skillFile s]) names ->
            exists rest, p = "configkit-output/" +:+ "skills/" +:+ rest /\ rest <> "") as Hshape.
  { intros p Hp. apply list_elem_of_In, in_flat_map in Hp as (t & _ & Hp).
    destruct Hp as [<- | [<- | []]]; eexists; (split; [reflexivity |]);
      destruct t; discriminate. }
  apply NoDup_app. split; [| split; [| by apply skill_paths_NoDup]].
  - apply NoDup_cons. split.
    { rewrite !elem_of_cons, elem_of_nil. intros [Heq | [Heq | []]]; [| discriminate Heq].
      apply (inj (String.append "configkit-output/") "" out) in Heq. by apply Hout. }
    apply NoDup_cons. split; [| apply NoDup_singleton].
    rewrite list_elem_of_singleton. intros Heq.
    apply (inj (String.append "configkit-output/") out "skills/") in Heq.
    by rewrite Heq in Hprefix.
  - intros p Hp Hin. destruct (Hshape p Hin) as (rest & -> & Hrest).
    rewrite !elem_of_cons, elem_of_nil in Hp. destruct Hp as [Heq | [Heq | [Heq | []]]].
    + discriminate Heq.
    + apply (inj (String.append "configkit-output/")) in Heq.
      rewrite <- Heq in Hprefix. by rewrite prefix_append_self in Hprefix.
    + apply (inj (String.append "configkit-output/skills/") rest "") in Heq. by apply Hrest.
Qed.

Lemma noSlash_known : forallb (fun kv => noSlash (fst kv)) SKILL_METADATA = true.
Proof. vm_compute. reflexivity. Qed.

Lemma outputFile_texts :
  forallb (fun kv => negb (String.eqb (snd kv) "") && negb (String.prefix "skills/" (snd kv)))
          OUTPUT_FILES = true.
Proof. vm_compute. reflexivity. Qed.

Lemma ownProperty_key_In {A : Type} (table : list (string * A)) (key : string) (x : A) :
  ownProperty table key = Some x -> In (key, x) table.
Proof.
  induction table as [| [k y] table IH]; cbn [ownProperty]; [discriminate |].
  destruct (String.eqb_spec k key) as [-> | _].
  - intros [= ->]. by left.
  - intros H. right. by apply IH.
Qed.

Lemma runDecisionTree_skills (a : answers) (result : DecisionTreeResult) :
  runDecisionTree a = Ok result ->
  selectSkills a (determineTier a) = Ok (DecisionTree.skills result).
Proof.
  unfold runDecisionTree.
  destruct (buildRole a); [| discriminate]. cbn [bind].
  destruct (buildRoleComponents a); [| discriminate]. cbn [bind].
  change (GuardrailEngine.tier (determineGuardrails a)) with (determineTier a).
  destruct (selectSkills a (determineTier a)); [| discriminate]. cbn [bind].
  destruct (selectSkillsByTrack a _); [| discriminate]. cbn [bind].
  intros Hrun. apply Ok_inj in Hrun. by subst result.
Qed.

(** X20. The file tree of a result has three fixed entries and two for each
    skill. Every skill has its directory and its SKILL.md path in the tree,
    and the line of that path in the Skill Packs section of the document;
    and for a result of the derivation no path is listed twice. *)
Theorem getFileTree_paths (a : answers) (result : DecisionTreeResult) :
  length (OutputPackager.getFileTree result) = 3 + 2 * length (DecisionTree.skills result) /\
  (forall s, s ∈ DecisionTree.skills result ->
     "configkit-output/skills/" +:+ s +:+ "/" ∈ OutputPackager.getFileTree result /\
     "configkit-output/skills/" +:+ s +:+ "/SKILL.md" ∈ OutputPackager.getFileTree result /\
     includes (sectionSkillPacks result) ("- skills/" +:+ s +:+ "/SKILL.md") = true) /\
  (runDecisionTree a = Ok result -> NoDup (OutputPackager.getFileTree result)).
Proof.
  unfold OutputPackager.getFileTree. split; [| split].
  - rewrite length_app. cbn [length].
    induction (DecisionTree.skills result) as [| s l IH]; [reflexivity |].
    cbn [flat_map length app]. lia.
  - intros s Hs. split; [| split].
    + apply elem_of_app. right. apply list_elem_of_In, in_flat_map.
      exists s. split; [by apply list_elem_of_In | by left].
    + apply elem_of_app. right. apply list_elem_of_In, in_flat_map.
      exists s. split; [by apply list_elem_of_In | right; by left].
    + unfold sectionSkillPacks.
      destruct (DecisionTree.skills result) as [| s0 l] eqn:Hl; [by apply elem_of_nil in Hs |].
      cbn [length Nat.eqb]. rewrite <- Hl in *.
      apply includes_append_r, includes_append_r, includes_append_r, includes_concat.
      apply list_elem_of_In, in_map_iff. exists s. split; [reflexivity | by apply list_elem_of_In].
  - intros Hrun.
    pose proof (runDecisionTree_skills a result Hrun) as Hskills.
    apply (fileTree_NoDup (text (outputFile result)) (DecisionTree.skills result)).
    + unfold runDecisionTree in Hrun.
      destruct (buildRole a); [| discriminate]. cbn [bind] in Hrun.
      destruct (buildRoleComponents a); [| discriminate]. cbn [bind] in Hrun.
      destruct (selectSkills a _); [| discriminate]. cbn [bind] in Hrun.
      destruct (selectSkillsByTrack a _); [| discriminate]. cbn [bind] in Hrun.
      apply Ok_inj in Hrun. subst result. cbn [outputFile].
      unfold readProperty. destruct (ownProperty OUTPUT_FILES _) as [file |] eqn:Hown.
      * apply ownProperty_In in Hown as [k Hk]. pose proof outputFile_texts as Htexts.
        rewrite forallb_forall in Htexts. specialize (Htexts _ Hk). cbn [snd orElse text] in *.
        apply andb_true_iff in Htexts as [Hne _]. apply negb_true_iff in Hne.
        by apply String.eqb_neq.
      * destruct (inList _ _); cbn [orElse text]; [| discriminate].
        unfold builtinText. by destruct (String.eqb _ "__proto__").
    + unfold runDecisionTree in Hrun.
      destruct (buildRole a); [| discriminate]. cbn [bind] in Hrun.
      destruct (buildRoleComponents a); [| discriminate]. cbn [bind] in Hrun.
      destruct (selectSkills a _); [| discriminate]. cbn [bind] in Hrun.
      destruct (selectSkillsByTrack a _); [| discriminate]. cbn [bind] in Hrun.
      apply Ok_inj in Hrun. subst result. cbn [outputFile].
      unfold readProperty. destruct (ownProperty OUTPUT_FILES _) as [file |] eqn:Hown.
      * apply ownProperty_In in Hown as [k Hk]. pose proof outputFile_texts as Htexts.
        rewrite forallb_forall in Htexts. specialize (Htexts _ Hk). cbn [snd orElse text] in *.
        apply andb_true_iff in Htexts as [_ Hp]. by apply negb_true_iff in Hp.
      * destruct (inList _ _); cbn [orElse text]; [| reflexivity].
        unfold builtinText. by destruct (String.eqb _ "__proto__").
    + by apply (selectSkills_NoDup a (determineTier a)).
    + intros s Hs. pose proof (selectSkills_isKnown a (determineTier a) _ Hskills s Hs) as Hk.
      unfold isKnown in Hk. destruct (ownProperty SKILL_METADATA s) as [m |] eqn:Hown;
        [| discriminate].
      apply ownProperty_key_In in Hown. pose proof noSlash_known as Hall.
      rewrite forallb_forall in Hall. exact (Hall _ Hown).
Qed.

(** ** The questionnaire and the answers state *)

Ltac question_cases H :=
  unfold Questions.QUESTIONS in H;
  repeat (apply elem_of_cons in H as [-> | H]); [.. | by apply elem_of_nil in H].

Lemma names_fmap (ns : list string) : names (VStr <$> ns) = ns.
Proof. induction ns as [| s ns IH]; [reflexivity |]. cbn. f_equal. exact IH. Qed.

Lemma hasItem_fmap (ns : list string) (v : string) :
  hasItem (VStr <$> ns) v = true <-> v ∈ ns.
Proof.
  unfold hasItem. rewrite existsb_exists. split.
  - intros (x & Hin & Hx). apply list_elem_of_In, list_elem_of_fmap in Hin as (s & -> & Hs).
    cbn [isStr] in Hx. apply String.eqb_eq in Hx. by subst.
  - intros Hv. exists (VStr v). split.
    + apply list_elem_of_In, list_elem_of_fmap. eauto.
    + cbn [isStr]. apply String.eqb_refl.
Qed.

Lemma toggle_fmap (ns : list string) (v : string) :
  QuestionCard.toggle (VStr <$> ns) v =
  VStr <$> (if hasItem (VStr <$> ns) v
            then List.filter (fun s => negb (String.eqb s v)) ns
            else ns ++ [v]).
Proof.
  unfold QuestionCard.toggle. destruct (hasItem _ v).
  - induction ns as [| s ns IH]; [reflexivity |].
    cbn [fmap list_fmap List.filter isStr]. destruct (negb (String.eqb s v)).
    + cbn [fmap list_fmap]. f_equal. exact IH.
    + exact IH.
  - by rewrite fmap_app.
Qed.

Lemma NoDup_list_filter {A : Type} (f : A -> bool) (l : list A) :
  NoDup l -> NoDup (List.filter f l).
Proof.
  induction 1 as [| x l Hx Hl IH]; cbn [List.filter]; [constructor |].
  destruct (f x); [| exact IH]. apply NoDup_cons. split; [| exact IH].
  intros Hin. apply list_elem_of_In, filter_In in Hin as [Hin _]. by apply Hx, list_elem_of_In.
Qed.

Lemma selectedOf_valid (q : Questions.Question) (answer : value) :
  validAnswer q answer ->
  exists ns, QuestionCard.selectedOf answer = VStr <$> ns /\
             ns ⊆ Questions.getAllOptions q /\ NoDup ns.
Proof.
  intros Hvalid.
  destruct answer as [| | | | | items];
    try (exists []; split; [reflexivity | split; [by intros x Hx; apply elem_of_nil in Hx | constructor]]).
  destruct Hvalid as (_ & Heq & Hsub & Hnodup). by exists (names items).
Qed.

Lemma toggle_valid (q : Questions.Question) (answer : value) (v : string) :
  validAnswer q answer -> Questions.type q = "multi" -> v ∈ Questions.getAllOptions q ->
  validAnswer q (VArr (QuestionCard.toggle (QuestionCard.selectedOf answer) v)).
Proof.
  intros Hvalid Hmulti Hv.
  destruct (selectedOf_valid q answer Hvalid) as (ns & -> & Hsub & Hnodup).
  rewrite toggle_fmap. cbn [validAnswer]. rewrite names_fmap.
  split; [exact Hmulti |]. split; [reflexivity |].
  destruct (hasItem (VStr <$> ns) v) eqn:Hhas.
  - split.
    + intros x Hx. apply list_elem_of_In, filter_In in Hx as [Hx _].
      by apply Hsub, list_elem_of_In.
    + by apply NoDup_list_filter.
  - split.
    + intros x Hx. apply elem_of_app in Hx as [Hx | Hx]; [by apply Hsub |].
      apply list_elem_of_singleton in Hx. by subst.
    + apply NoDup_app. split; [exact Hnodup |]. split; [| apply NoDup_singleton].
      intros x Hx Hxv. apply list_elem_of_singleton in Hxv. subst x.
      apply hasItem_fmap in Hx. congruence.
Qed.

Lemma onEvent_valid (q : Questions.Question) (answer : value) (e : QuestionCard.Event)
    (v : value) :
  validAnswer q answer -> QuestionCard.onEvent q answer e = Some v -> validAnswer q v.
Proof.
  intros Hvalid. unfold QuestionCard.onEvent. destruct e as [o | s].
  - destruct (inList o _) eqn:Ho; [| discriminate].
    assert (o ∈ Questions.getAllOptions q) as Hin.
    { unfold inList in Ho. apply existsb_exists in Ho as (x & Hx & Heq).
      apply String.eqb_eq in Heq. subst. by apply list_elem_of_In. }
    destruct (String.eqb_spec (Questions.type q) "single") as [Hs | Hs]; cbn [orb].
    { intros [= <-]. right. split; [by left | exact Hin]. }
    destruct (String.eqb_spec (Questions.type q) "boolean") as [Hb | Hb].
    { intros [= <-]. right. split; [by right | exact Hin]. }
    destruct (String.eqb_spec (Questions.type q) "multi") as [Hm | Hm]; [| discriminate].
    intros [= <-]. by apply toggle_valid.
  - destruct (String.eqb_spec (Questions.type q) "text") as [Ht | Ht]; [| discriminate].
    intros [= <-]. by left.
Qed.

Lemma onEvent_multi (q : Questions.Question) (answer : value) (e : QuestionCard.Event)
    (v : value) :
  Questions.type q = "multi" -> QuestionCard.onEvent q answer e = Some v ->
  exists items, v = VArr items.
Proof.
  intros Hmulti. unfold QuestionCard.onEvent. rewrite Hmulti. destruct e as [o | s].
  - destruct (inList o _); [| discriminate]. cbn. intros [= <-]. eauto.
  - discriminate.
Qed.

Lemma question_ids_distinct (q q' : Questions.Question) :
  q ∈ Questions.QUESTIONS -> q' ∈ Questions.QUESTIONS ->
  Questions.id q = Questions.id q' -> q = q'.
Proof.
  intros Hq Hq'. question_cases Hq; question_cases Hq'; cbn [Questions.id];
    intros Heq; first [reflexivity | discriminate Heq].
Qed.

Lemma question_ids_not_flags (q : Questions.Question) (flag : string) :
  q ∈ Questions.QUESTIONS -> flag ∈ App.SECURITY_FLAGS -> Questions.id q <> flag.
Proof.
  intros Hq Hflag. unfold App.SECURITY_FLAGS in Hflag.
  question_cases Hq; repeat (apply elem_of_cons in Hflag as [-> | Hflag]);
    first [discriminate | by apply elem_of_nil in Hflag].
Qed.

Lemma securityFlags_multi (q : Questions.Question) :
  q ∈ Questions.QUESTIONS -> Questions.id q = "securityFlags" -> Questions.type q = "multi".
Proof. intros Hq. question_cases Hq; cbn; first [discriminate | reflexivity]. Qed.

Lemma getLayerQuestions_sub (n : nat) (a : answers) (q : Questions.Question) :
  q ∈ Questions.getLayerQuestions n a -> q ∈ Questions.QUESTIONS.
Proof.
  unfold Questions.getLayerQuestions. intros Hq.
  apply list_elem_of_In, filter_In in Hq as [Hq _]. by apply list_elem_of_In.
Qed.

Lemma handleAnswer_other (prev : answers) (questionId : string) (v : value) :
  questionId <> "securityFlags" ->
  App.handleAnswer prev questionId v = Ok (<[questionId := v]> prev).
Proof.
  intros Hne. unfold App.handleAnswer. by destruct (String.eqb_spec questionId "securityFlags").
Qed.

Lemma handleAnswer_selection (prev : answers) (items : list value) :
  App.handleAnswer prev "securityFlags" (VArr items) =
  Ok (<["hasSensitiveData" := flagOf items "hasSensitiveData"]>
      (<["hasPayments" := flagOf items "hasPayments"]>
      (<["storesData" := flagOf items "storesData"]>
      (<["hasAuth" := flagOf items "hasAuth"]>
      (<["securityFlags" := VArr items]> prev))))).
Proof. reflexivity. Qed.

Ltac get_simpl :=
  repeat first [ rewrite get_insert | rewrite get_insert_ne by (first [discriminate | congruence]) ].

Lemma selection_flags (prev : answers) (items : list value) (flag : string) :
  flag ∈ App.SECURITY_FLAGS ->
  get (<["hasSensitiveData" := flagOf items "hasSensitiveData"]>
      (<["hasPayments" := flagOf items "hasPayments"]>
      (<["storesData" := flagOf items "storesData"]>
      (<["hasAuth" := flagOf items "hasAuth"]>
      (<["securityFlags" := VArr items]> prev))))) flag = flagOf items flag.
Proof.
  intros Hflag. unfold App.SECURITY_FLAGS in Hflag.
  repeat (apply elem_of_cons in Hflag as [-> | Hflag]); [.. | by apply elem_of_nil in Hflag];
    get_simpl; reflexivity.
Qed.

Lemma selection_others (prev : answers) (items : list value) (key : string) :
  key <> "securityFlags" -> (forall flag, flag ∈ App.SECURITY_FLAGS -> key <> flag) ->
  get (<["hasSensitiveData" := flagOf items "hasSensitiveData"]>
      (<["hasPayments" := flagOf items "hasPayments"]>
      (<["storesData" := flagOf items "storesData"]>
      (<["hasAuth" := flagOf items "hasAuth"]>
      (<["securityFlags" := VArr items]> prev))))) key = get prev key.
Proof.
  intros Hne Hflags.
  assert (key <> "hasAuth") by (apply Hflags; in_list).
  assert (key <> "storesData") by (apply Hflags; in_list).
  assert (key <> "hasPayments") by (apply Hflags; in_list).
  assert (key <> "hasSensitiveData") by (apply Hflags; in_list).
  by rewrite !get_insert_ne by congruence.
Qed.

Lemma uiInvariant_step (prev next : answers) (n : nat) (q : Questions.Question)
    (e : QuestionCard.Event) (v : value) :
  uiInvariant prev ->
  q ∈ Questions.getLayerQuestions n prev ->
  QuestionCard.onEvent q (get prev (Questions.id q)) e = Some v ->
  App.handleAnswer prev (Questions.id q) v = Ok next ->
  uiInvariant next.
Proof.
  intros [Hanswers Hflags] Hq Hevent Hstep. apply getLayerQuestions_sub in Hq.
  pose proof (onEvent_valid q _ e v (Hanswers q Hq) Hevent) as Hv.
  destruct (String.eqb_spec (Questions.id q) "securityFlags") as [Hid | Hid].
  - destruct (onEvent_multi q _ e v (securityFlags_multi q Hq Hid) Hevent) as [items ->].
    rewrite Hid, handleAnswer_selection in Hstep. apply Ok_inj in Hstep. subst next. split.
    + intros q' Hq'. destruct (String.eqb_spec (Questions.id q') "securityFlags") as [Hid' | Hid'].
      * assert (q' = q) as -> by (apply question_ids_distinct; congruence).
        rewrite Hid. by get_simpl.
      * rewrite selection_others; [by apply Hanswers | exact Hid' |].
        intros flag. by apply question_ids_not_flags.
    + intros flag Hflag. rewrite selection_flags by exact Hflag.
      by get_simpl.
  - rewrite handleAnswer_other in Hstep by exact Hid. apply Ok_inj in Hstep. subst next. split.
    + intros q' Hq'. destruct (String.eqb_spec (Questions.id q) (Questions.id q')) as [Heq | Hne].
      * assert (q' = q) as -> by (apply question_ids_distinct; congruence).
        by rewrite get_insert.
      * rewrite get_insert_ne by exact Hne. by apply Hanswers.
    + intros flag Hflag. rewrite !get_insert_ne; [by apply Hflags | exact Hid |].
      by apply question_ids_not_flags.
Qed.

Lemma uiReachable_invariant (a : answers) : uiReachable a -> uiInvariant a.
Proof.
  induction 1 as [| prev next n q e v _ IH Hq Hevent Hstep].
  - split.
    + intros q Hq. question_cases Hq; exact I.
    + intros flag Hflag. unfold App.SECURITY_FLAGS in Hflag.
      repeat (apply elem_of_cons in Hflag as [-> | Hflag]); [.. | by apply elem_of_nil in Hflag];
        reflexivity.
  - by apply (uiInvariant_step prev next n q e v).
Qed.

Lemma play_reachable (events : list (nat * nat * QuestionCard.Event)) (a b : answers) :
  uiReachable a -> play a events = Some b -> uiReachable b.
Proof.
  revert a. induction events as [| [[n i] e] rest IH]; intros a Ha; cbn [play].
  - by intros [= <-].
  - destruct (Questions.getLayerQuestions n a !! i) as [q |] eqn:Hq; [| discriminate].
    destruct (QuestionCard.onEvent q _ e) as [v |] eqn:Hv; [| discriminate].
    destruct (App.handleAnswer a _ v) as [next | err] eqn:Hnext; [| discriminate].
    apply IH. apply (ui_event a next n q e v); try assumption.
    by apply (list_elem_of_lookup_2 _ i).
Qed.

Lemma shopAnswers_reachable : uiReachable shopAnswers.
Proof.
  apply (play_reachable shopSession App.INITIAL_ANSWERS); [constructor |].
  reflexivity.
Qed.

Lemma options_plain :
  forallb (fun q => forallb (fun s => plainKey (VStr s)) (Questions.getAllOptions q))
          Questions.QUESTIONS = true.
Proof. vm_compute. reflexivity. Qed.

Lemma option_plain (q : Questions.Question) (s : string) :
  q ∈ Questions.QUESTIONS -> s ∈ Questions.getAllOptions q -> plainKey (VStr s) = true.
Proof.
  intros Hq Hs. pose proof options_plain as Hall. rewrite forallb_forall in Hall.
  specialize (Hall q (proj1 (list_elem_of_In _ _) Hq)). rewrite forallb_forall in Hall.
  apply Hall. by apply list_elem_of_In.
Qed.

Lemma single_answer (a : answers) (q : Questions.Question) :
  uiInvariant a -> q ∈ Questions.QUESTIONS -> Questions.type q = "single" ->
  get a (Questions.id q) = VUndefined \/
  exists s, get a (Questions.id q) = VStr s /\ s ∈ Questions.getAllOptions q.
Proof.
  intros [Hanswers _] Hq Hsingle. specialize (Hanswers q Hq).
  destruct (get a (Questions.id q)) as [| | | | s | items]; cbn [validAnswer] in Hanswers;
    try contradiction.
  - by left.
  - right. exists s. split; [reflexivity |].
    destruct Hanswers as [Htext | [_ Hs]]; [| exact Hs]. rewrite Hsingle in Htext. discriminate.
  - destruct Hanswers as [Hmulti _]. rewrite Hsingle in Hmulti. discriminate.
Qed.

Lemma text_answer (a : answers) (q : Questions.Question) :
  uiInvariant a -> q ∈ Questions.QUESTIONS -> Questions.type q = "text" ->
  get a (Questions.id q) = VUndefined \/ exists s, get a (Questions.id q) = VStr s.
Proof.
  intros [Hanswers _] Hq Htext. specialize (Hanswers q Hq).
  destruct (get a (Questions.id q)) as [| | | | s | items]; cbn [validAnswer] in Hanswers;
    try contradiction.
  - by left.
  - right. by exists s.
  - destruct Hanswers as [Hmulti _]. rewrite Htext in Hmulti. discriminate.
Qed.

Lemma multi_answer (a : answers) (q : Questions.Question) (items : list value) :
  uiInvariant a -> q ∈ Questions.QUESTIONS -> get a (Questions.id q) = VArr items ->
  exists ns, items = VStr <$> ns /\ ns ⊆ Questions.getAllOptions q /\ NoDup ns.
Proof.
  intros [Hanswers _] Hq Hget. specialize (Hanswers q Hq). rewrite Hget in Hanswers.
  destruct Hanswers as (_ & Heq & Hsub & Hnodup). by exists (names items).
Qed.

Ltac question i := apply (list_elem_of_lookup_2 Questions.QUESTIONS i); reflexivity.

Lemma uiInvariant_wellFormed (a : answers) : uiInvariant a -> wellFormed a = true.
Proof.
  intros Hinv. unfold wellFormed. rewrite !andb_true_iff. repeat split.
  - destruct (single_answer a _ Hinv ltac:(question 1) eq_refl) as [Hget | (s & Hget & Hs)];
      cbn [Questions.id] in Hget; rewrite Hget; [reflexivity |].
    by apply (option_plain _ s ltac:(question 1)).
  - destruct (single_answer a _ Hinv ltac:(question 4) eq_refl) as [Hget | (s & Hget & Hs)];
      cbn [Questions.id] in Hget; rewrite Hget; [reflexivity |].
    by apply (option_plain _ s ltac:(question 4)).
  - destruct (text_answer a _ Hinv ltac:(question 5) eq_refl) as [Hget | (s & Hget)];
      cbn [Questions.id] in Hget; by rewrite Hget.
  - destruct (get a "stackTech") as [| | | | | items] eqn:Hget; try reflexivity.
    destruct (multi_answer a _ items Hinv ltac:(question 3) Hget) as (ns & -> & Hsub & _).
    apply forallb_forall. intros x Hx.
    apply list_elem_of_In, list_elem_of_fmap in Hx as (s & -> & Hs).
    apply (option_plain _ s ltac:(question 3)). by apply Hsub.
Qed.

Lemma runDecisionTree_outputFile (a : answers) (result : DecisionTreeResult) :
  runDecisionTree a = Ok result ->
  outputFile result = orElse (readProperty OUTPUT_FILES (get a "llmTarget")) "PROJECT_CONFIG.md".
Proof.
  unfold runDecisionTree.
  destruct (buildRole a); [| discriminate]. cbn [bind].
  destruct (buildRoleComponents a); [| discriminate]. cbn [bind].
  destruct (selectSkills a _); [| discriminate]. cbn [bind].
  destruct (selectSkillsByTrack a _); [| discriminate]. cbn [bind].
  intros Hrun. apply Ok_inj in Hrun. by subst result.
Qed.

(** X21. In every state the questionnaire can bring about, the derivation and the
    assembly of the document return: no click or text of the user makes them
    throw. The file of the result is one of the table's own names. *)
Theorem ui_answers_derive (a : answers) :
  uiReachable a ->
  exists result,
    runDecisionTree a = Ok result /\
    (exists file, outputFile result = Own file /\ file ∈ (snd <$> OUTPUT_FILES)) /\
    forall ai today, exists document, assembleConfig a result ai today = Ok document.
Proof.
  intros Hreach. pose proof (uiReachable_invariant a Hreach) as Hinv.
  pose proof (uiInvariant_wellFormed a Hinv) as Hwf.
  destruct (runDecisionTree_returns a Hwf) as [result Hrun]. exists result.
  split; [exact Hrun |]. split.
  - rewrite (runDecisionTree_outputFile a result Hrun).
    destruct (single_answer a _ Hinv ltac:(question 0) eq_refl) as [Hget | (s & Hget & Hs)];
      cbn [Questions.id] in Hget; rewrite Hget.
    + eexists. split; [reflexivity |]. cbn. in_list.
    + cbn in Hs. repeat (apply elem_of_cons in Hs as [-> | Hs]);
        [.. | by apply elem_of_nil in Hs]; (eexists; split; [reflexivity |]; cbn; in_list).
  - intros ai today. by apply assembleConfig_returns.
Qed.

Lemma ui_answers_derive_witness :
  uiReachable shopAnswers /\ exists result, runDecisionTree shopAnswers = Ok result.
Proof.
  split; [exact shopAnswers_reachable |].
  destruct (ui_answers_derive shopAnswers shopAnswers_reachable) as (result & Hrun & _).
  by exists result.
Defined.

Lemma flagOf_yes (selected : list value) (flag : string) :
  isStr (flagOf selected flag) "yes" = hasItem selected flag.
Proof. unfold flagOf. by destruct (hasItem selected flag). Qed.

Lemma flagOf_truthy (selected : list value) (flag : string) :
  truthy (flagOf selected flag) = true.
Proof. unfold flagOf. by destruct (hasItem selected flag). Qed.

Lemma selection_count (ns flags : list string) :
  NoDup ns -> NoDup flags -> ns ⊆ flags ->
  length (List.filter (fun flag => hasItem (VStr <$> ns) flag) flags) = length ns.
Proof.
  intros Hns Hflags Hsub. apply Permutation_length, NoDup_Permutation.
  - by apply NoDup_list_filter.
  - exact Hns.
  - intros x. rewrite list_elem_of_In, filter_In, <- list_elem_of_In, hasItem_fmap.
    split; [by intros [_ Hx] | intros Hx; split; [by apply Hsub | exact Hx]].
Qed.

(** X22. In every state the questionnaire can bring about, each of the four flags
    is the string yes or no and says whether its option is selected in
    [securityFlags]; the count of the guardrail engine is the number of
    selected options; and the guardrails section of the preview is ready,
    a no being a non-empty string. *)
Theorem ui_flags_follow_selection (a : answers) :
  uiReachable a ->
  (forall flag, flag ∈ App.SECURITY_FLAGS ->
     get a flag =
       VStr (if hasItem (QuestionCard.selectedOf (get a "securityFlags")) flag
             then "yes" else "no")) /\
  countSecurityYes a = length (QuestionCard.selectedOf (get a "securityFlags")) /\
  ConfigPreview.guardrails (ConfigPreview.getSectionReady a) = true.
Proof.
  intros Hreach. pose proof (uiReachable_invariant a Hreach) as Hinv.
  pose proof Hinv as [Hanswers Hflags]. split; [exact Hflags |]. split.
  - destruct (selectedOf_valid _ _ (Hanswers _ ltac:(question 6))) as (ns & Hsel & Hsub & Hnodup).
    cbn [Questions.id] in Hsel. unfold countSecurityYes.
    rewrite (filter_ext_in _ (fun flag => hasItem (VStr <$> ns) flag)).
    + rewrite Hsel, length_fmap. apply selection_count; [exact Hnodup | | exact Hsub].
      unfold SECURITY_FLAGS.
      repeat (apply NoDup_cons_2; [rewrite ?elem_of_cons, elem_of_nil; intuition discriminate |]).
      apply NoDup_nil_2.
    + intros flag Hflag. rewrite (Hflags flag) by (by apply list_elem_of_In).
      by rewrite flagOf_yes, Hsel.
  - unfold ConfigPreview.getSectionReady. cbn [ConfigPreview.guardrails].
    rewrite (Hflags "hasAuth") by in_list. by rewrite flagOf_truthy.
Qed.

Lemma ui_flags_follow_selection_witness :
  uiReachable shopAnswers /\ countSecurityYes shopAnswers = 2.
Proof.
  split; [exact shopAnswers_reachable |].
  exact (proj1 (proj2 (ui_flags_follow_selection shopAnswers shopAnswers_reachable))).
Defined.

Lemma answered_truthy (q : Questions.Question) (v : value) :
  validAnswer q v -> Questions.type q <> "multi" -> Questions.answered v = truthy v.
Proof.
  intros Hvalid Hne. destruct v; cbn [validAnswer] in Hvalid; try contradiction; try reflexivity.
  destruct Hvalid as [Hmulti _]. contradiction.
Qed.

Lemma isComplete_required (a : answers) :
  Questions.isComplete a = forallb (fun key => Questions.answered (get a key)) REQUIRED_IDS.
Proof. reflexivity. Qed.

(** X23. The questionnaire is complete exactly when the five required answers
    are there, whatever else the state holds, and exactly when both of its
    layers are complete. *)
Theorem isComplete_layers (a : answers) :
  Questions.isComplete a =
    forallb (fun key => Questions.answered (get a key)) REQUIRED_IDS /\
  Questions.isComplete a =
    Questionnaire.isLayerComplete 1 a && Questionnaire.isLayerComplete 2 a.
Proof.
  split; [reflexivity |].
  unfold Questions.isComplete, Questionnaire.isLayerComplete, Questions.getLayerQuestions,
    Questions.QUESTIONS, Questions.isQuestionVisible.
  cbn [List.filter Questions.required Questions.layer Questions.conditionalOn Questions.id
       Questions.cond_id Questions.cond_value Nat.eqb andb forallb].
  destruct (isStr (get a "stackApproach") "choose");
    cbn [List.filter Questions.required Questions.layer Questions.conditionalOn Questions.id
         Nat.eqb andb forallb];
    destruct (Questions.answered (get a "llmTarget")),
      (Questions.answered (get a "projectType")),
      (Questions.answered (get a "stackApproach")),
      (Questions.answered (get a "deployment")),
      (Questions.answered (get a "projectDescription")); reflexivity.
Qed.

(** X24. When the questionnaire is complete in a state it can bring about, every
    section of the preview is ready, the partial derivation returns a
    result, and the progress counter shows at least five and at most the
    number of step questions. *)
Theorem complete_questionnaire_ready (a : answers) :
  uiReachable a -> Questions.isComplete a = true ->
  ConfigPreview.getSectionReady a =
    {| ConfigPreview.role := true; ConfigPreview.context := true;
       ConfigPreview.techStack := true; ConfigPreview.directives := true;
       ConfigPreview.guardrails := true; ConfigPreview.skillPacks := true;
       ConfigPreview.buildSeq := true |} /\
  (exists result, runPartialDecisionTree a = Ok (Some result)) /\
  5 <= Questions.countAnswered a <= length Questions.getStepQuestions.
Proof.
  intros Hreach Hcomplete. pose proof (uiReachable_invariant a Hreach) as Hinv.
  pose proof Hinv as [Hanswers Hflags].
  rewrite isComplete_required in Hcomplete. unfold REQUIRED_IDS in Hcomplete.
  cbn [forallb] in Hcomplete. rewrite !andb_true_iff in Hcomplete.
  destruct Hcomplete as (Hllm & Htype & Happroach & Hdeploy & Hdesc & _).
  assert (truthy (get a "projectType") = true) as Ttype.
  { pose proof (answered_truthy _ _ (Hanswers _ ltac:(question 1))) as Heq.
    cbn [Questions.id Questions.type] in Heq. rewrite <- Heq; [exact Htype | discriminate]. }
  assert (truthy (get a "stackApproach") = true) as Tapproach.
  { pose proof (answered_truthy _ _ (Hanswers _ ltac:(question 2))) as Heq.
    cbn [Questions.id Questions.type] in Heq. rewrite <- Heq; [exact Happroach | discriminate]. }
  assert (truthy (get a "deployment") = true) as Tdeploy.
  { pose proof (answered_truthy _ _ (Hanswers _ ltac:(question 4))) as Heq.
    cbn [Questions.id Questions.type] in Heq. rewrite <- Heq; [exact Hdeploy | discriminate]. }
  assert (truthy (get a "projectDescription") = true) as Tdesc.
  { pose proof (answered_truthy _ _ (Hanswers _ ltac:(question 5))) as Heq.
    cbn [Questions.id Questions.type] in Heq. rewrite <- Heq; [exact Hdesc | discriminate]. }
  split; [| split].
  - unfold ConfigPreview.getSectionReady. rewrite Ttype, Tapproach, Tdeploy, Tdesc.
    rewrite (Hflags "hasAuth") by in_list. by rewrite flagOf_truthy.
  - unfold runPartialDecisionTree. rewrite Ttype. cbn [negb].
    destruct (runDecisionTree_returns a (uiInvariant_wellFormed a Hinv)) as [result ->].
    by exists result.
  - unfold Questions.countAnswered, Questions.getStepQuestions, Questions.QUESTIONS.
    cbn [List.filter Questions.number Questions.id]. rewrite Hllm, Htype, Happroach, Hdeploy, Hdesc.
    destruct (Questions.answered (get a "securityFlags")); cbn [length]; lia.
Qed.

Lemma complete_questionnaire_ready_witness :
  uiReachable shopAnswers /\ Questions.isComplete shopAnswers = true /\
  exists result, runPartialDecisionTree shopAnswers = Ok (Some result).
Proof.
  split; [exact shopAnswers_reachable |]. split; [reflexivity |].
  exact (proj1 (proj2 (complete_questionnaire_ready shopAnswers shopAnswers_reachable eq_refl))).
Defined.

Lemma hasItem_toggle (selected : list value) (v w : string) :
  hasItem (QuestionCard.toggle selected v) w =
  if String.eqb w v then negb (hasItem selected v) else hasItem selected w.
Proof.
  unfold QuestionCard.toggle. destruct (hasItem selected v) eqn:Hhas.
  - clear Hhas. unfold hasItem. destruct (String.eqb w v) eqn:Hwv.
    + apply String.eqb_eq in Hwv. subst w. cbn [negb].
      induction selected as [| x l IH]; [reflexivity |]. cbn [List.filter].
      destruct (isStr x v) eqn:Hxv; cbn [negb existsb]; [exact IH |]. by rewrite Hxv, IH.
    + induction selected as [| x l IH]; [reflexivity |]. cbn [List.filter existsb].
      destruct (isStr x v) eqn:Hxv; cbn [negb existsb]; [| by rewrite IH].
      rewrite IH. destruct x; try discriminate Hxv. cbn [isStr] in *.
      apply String.eqb_eq in Hxv. subst s. by rewrite String.eqb_sym, Hwv.
  - unfold hasItem in *. rewrite existsb_app. cbn [existsb isStr]. rewrite orb_false_r.
    rewrite (String.eqb_sym v w). destruct (String.eqb w v) eqn:Hwv.
    + apply String.eqb_eq in Hwv. subst w. by rewrite Hhas.
    + apply orb_false_r.
Qed.

(** X25. A click on the option of a flag in the securityFlags card, in any
    state: the app stores the toggled selection under securityFlags, in
    which the option is selected exactly when it was not before and every
    other option is as before; the flag of the option flips between yes and
    no; each other flag says whether its option was selected before; and no
    other answer changes. *)
Theorem toggle_flips_flag (prev : answers) (flag : string) :
  flag ∈ App.SECURITY_FLAGS ->
  exists next,
    App.handleAnswer prev "securityFlags"
      (VArr (QuestionCard.toggle (QuestionCard.selectedOf (get prev "securityFlags")) flag))
      = Ok next /\
    get next "securityFlags" =
      VArr (QuestionCard.toggle (QuestionCard.selectedOf (get prev "securityFlags")) flag) /\
    (forall option,
       hasItem (QuestionCard.selectedOf (get next "securityFlags")) option =
       if String.eqb option flag
       then negb (hasItem (QuestionCard.selectedOf (get prev "securityFlags")) flag)
       else hasItem (QuestionCard.selectedOf (get prev "securityFlags")) option) /\
    get next flag =
      VStr (if hasItem (QuestionCard.selectedOf (get prev "securityFlags")) flag
            then "no" else "yes") /\
    (forall other, other ∈ App.SECURITY_FLAGS -> other <> flag ->
       get next other =
         VStr (if hasItem (QuestionCard.selectedOf (get prev "securityFlags")) other
               then "yes" else "no")) /\
    (forall key, key <> "securityFlags" -> key ∉ App.SECURITY_FLAGS ->
       get next key = get prev key).
Proof.
  intros Hflag. eexists. split; [apply handleAnswer_selection |].
  assert (forall items,
            get (<["hasSensitiveData" := flagOf items "hasSensitiveData"]>
                (<["hasPayments" := flagOf items "hasPayments"]>
                (<["storesData" := flagOf items "storesData"]>
                (<["hasAuth" := flagOf items "hasAuth"]>
                (<["securityFlags" := VArr items]> prev))))) "securityFlags" = VArr items)
    as Hstored.
  { intros items. by get_simpl. }
  split; [apply Hstored |]. split; [| split; [| split]].
  - intros option. rewrite Hstored. cbn [QuestionCard.selectedOf]. apply hasItem_toggle.
  - rewrite selection_flags by exact Hflag. unfold flagOf.
    rewrite hasItem_toggle, String.eqb_refl. by destruct (hasItem _ flag).
  - intros other Hother Hne. rewrite selection_flags by exact Hother. unfold flagOf.
    rewrite hasItem_toggle. apply String.eqb_neq in Hne. by rewrite Hne.
  - intros key Hkey Hflags. apply selection_others; [exact Hkey |].
    intros f Hf ->. contradiction.
Qed.

Lemma toggle_flips_flag_witness :
  "hasAuth" ∈ App.SECURITY_FLAGS /\
  exists next,
    App.handleAnswer shopAnswers "securityFlags" (VArr [VStr "hasPayments"]) = Ok next /\
    get next "securityFlags" = VArr [VStr "hasPayments"] /\
    get next "hasAuth" = VStr "no".
Proof.
  split; [in_list |].
  destruct (toggle_flips_flag shopAnswers "hasAuth" ltac:(in_list))
    as (next & Hstep & Hstored & _ & Hflag & _).
  exists next. split; [exact Hstep |]. split; [exact Hstored | exact Hflag].
Defined.

(** X26. A click on the option of a flag, in a state the questionnaire can bring
    about: selecting the option adds one to the count of the guardrail
    engine and never lowers the tier; deselecting it takes one off and never
    raises the tier. *)
Theorem toggle_moves_tier (prev : answers) (flag : string) :
  uiReachable prev -> flag ∈ App.SECURITY_FLAGS ->
  exists next,
    App.handleAnswer prev "securityFlags"
      (VArr (QuestionCard.toggle (QuestionCard.selectedOf (get prev "securityFlags")) flag))
      = Ok next /\
    if hasItem (QuestionCard.selectedOf (get prev "securityFlags")) flag
    then countSecurityYes prev = S (countSecurityYes next) /\
         determineTier next <= determineTier prev
    else countSecurityYes next = S (countSecurityYes prev) /\
         determineTier prev <= determineTier next.
Proof.
  intros Hreach Hflag. destruct (uiReachable_invariant prev Hreach) as [_ Hflags].
  eexists. split; [apply handleAnswer_selection |].
  set (sel := QuestionCard.selectedOf (get prev "securityFlags")) in *.
  set (next := <["hasSensitiveData" := _]> _).
  assert (forall f, f ∈ App.SECURITY_FLAGS ->
            isStr (get next f) "yes" =
            if String.eqb f flag then negb (hasItem sel flag) else hasItem sel f) as Hnext.
  { intros f Hf. unfold next. by rewrite selection_flags, flagOf_yes, hasItem_toggle. }
  assert (forall f, f ∈ App.SECURITY_FLAGS -> isStr (get prev f) "yes" = hasItem sel f) as Hprev.
  { intros f Hf. by rewrite Hflags, flagOf_yes. }
  unfold determineTier. rewrite !countSecurityYes_flags.
  rewrite !Hnext, !Hprev by in_list. clearbody next sel. clear Hnext Hprev Hflags.
  unfold App.SECURITY_FLAGS in Hflag.
  repeat (apply elem_of_cons in Hflag as [-> | Hflag]); [.. | by apply elem_of_nil in Hflag];
    cbn [String.eqb Ascii.eqb Bool.eqb];
    destruct (hasItem sel "hasAuth"), (hasItem sel "storesData"),
      (hasItem sel "hasPayments"), (hasItem sel "hasSensitiveData"); cbn; lia.
Qed.

Lemma toggle_moves_tier_witness :
  uiReachable shopAnswers /\ "storesData" ∈ App.SECURITY_FLAGS /\
  exists next,
    App.handleAnswer shopAnswers "securityFlags"
      (VArr [VStr "hasAuth"; VStr "hasPayments"; VStr "storesData"]) = Ok next /\
    countSecurityYes next = 3.
Proof.
  split; [exact shopAnswers_reachable |]. split; [in_list |].
  destruct (toggle_moves_tier shopAnswers "storesData" shopAnswers_reachable ltac:(in_list))
    as (next & Hstep & Hcount & _).
  exists next. split; [exact Hstep | exact Hcount].
Defined.

(** ** The estimate of the bundle *)

(** X27. The size shown for the bundle of a derived result is a whole number of
    kilobytes between 3 and 31, the nearest to 2800 bytes for the document
    and 650 bytes for each skill, a half rounding up. *)
Theorem estimateZipSize_bounds (a : answers) (result : DecisionTreeResult) :
  runDecisionTree a = Ok result ->
  exists kb,
    OutputPackager.estimateZipSize result = "~" +:+ decimal kb +:+ " KB" /\
    3 <= kb <= 31 /\
    1024 * kb <= 2800 + 650 * length (DecisionTree.skills result) + 512 < 1024 * kb + 1024.
Proof.
  intros Hrun. pose proof (runDecisionTree_skills a result Hrun) as Hskills.
  apply selectSkills_length in Hskills. change (length SKILL_METADATA) with 45 in Hskills.
  unfold OutputPackager.estimateZipSize, OutputPackager.roundedKb,
    OutputPackager.AVG_CONFIG_BYTES, OutputPackager.AVG_SKILL_BYTES.
  eexists. split; [reflexivity |].
  set (n := length (DecisionTree.skills result)) in *.
  pose proof (Nat.div_mod_eq (2800 + n * 650 + 512) 1024) as Hdiv.
  pose proof (Nat.mod_upper_bound (2800 + n * 650 + 512) 1024 ltac:(lia)) as Hmod.
  lia.
Qed.

Lemma estimateZipSize_bounds_witness :
  exists result kb,
    runDecisionTree apiBackendScenario = Ok result /\
    OutputPackager.estimateZipSize result = "~" +:+ decimal kb +:+ " KB" /\ 3 <= kb <= 31.
Proof.
  destruct (runDecisionTree_returns apiBackendScenario eq_refl) as [result Hrun].
  destruct (estimateZipSize_bounds apiBackendScenario result Hrun) as (kb & Htext & Hkb & _).
  by exists result, kb.
Defined.
